(** * NCV: retrieval and query understanding (RetrievalFilter)

    A shallow embedding of [RetrievalAndFiltering] (src/RetrievalFilter.ipynb)
    together with the part of [VectorStoreManager] it calls
    (src/Vectorstor_Ollama.ipynb), and the properties of the specification
    stated over it.

    Conventions of the embedding.
    - A Python [str] is a [string] of 8-bit characters.  The model of
      [str.lower], of the regular-expression classes and of whitespace agrees
      with CPython on ASCII text; characters above 127 are letters of no case,
      neither digits nor spaces nor word characters.
    - A Python [float] is a primitive IEEE-754 binary64 [float].
    - A [dict] with a fixed set of literal keys is a record; a [dict] used as
      a map (the metadata filter, a passage's metadata) is a [gmap].
    - Code that can raise returns [Exc A]; [try]/[except Exception] is
      [try_except]. *)

From Stdlib Require Import ZArith Ascii String List Bool Lia Sorted.
From Stdlib Require Import Floats.
From stdpp Require Import gmap strings list.

Local Open Scope string_scope.
Local Open Scope list_scope.
Local Open Scope nat_scope.

(** ** Python strings *)

Module PyStr.

Definition code (c : ascii) : nat := nat_of_ascii c.

Definition is_upper (c : ascii) : bool := (65 <=? code c) && (code c <=? 90).
Definition is_lower (c : ascii) : bool := (97 <=? code c) && (code c <=? 122).
Definition is_digit (c : ascii) : bool := (48 <=? code c) && (code c <=? 57).

(** [str.isspace] on ASCII: tab, line feed, vertical tab, form feed,
    carriage return, the four separators 0x1c-0x1f, and the space. *)
Definition is_space (c : ascii) : bool :=
  ((9 <=? code c) && (code c <=? 13)) || ((28 <=? code c) && (code c <=? 32)).

(** A word character of [re]: a letter, a digit or the underscore. *)
Definition is_word (c : ascii) : bool :=
  is_upper c || is_lower c || is_digit c || (code c =? 95).

Definition lower_char (c : ascii) : ascii :=
  if is_upper c then ascii_of_nat (code c + 32) else c.

(** [s.lower()] *)
Fixpoint lower (s : string) : string :=
  match s with
  | EmptyString => EmptyString
  | String c s' => String (lower_char c) (lower s')
  end.

(** [s.startswith(p)] *)
Fixpoint startswith (p s : string) : bool :=
  match p, s with
  | EmptyString, _ => true
  | String a p', String b s' => if Ascii.eqb a b then startswith p' s' else false
  | String _ _, EmptyString => false
  end.

(** [needle in hay] *)
Fixpoint contains (needle hay : string) : bool :=
  startswith needle hay ||
  match hay with
  | EmptyString => false
  | String _ hay' => contains needle hay'
  end.

(** [s[:n]] for [n >= 0] *)
Fixpoint take (n : nat) (s : string) : string :=
  match n, s with
  | S n', String c s' => String c (take n' s')
  | _, _ => EmptyString
  end.

(** [s[n:]] for [n >= 0] *)
Fixpoint drop (n : nat) (s : string) : string :=
  match n, s with
  | S n', String _ s' => drop n' s'
  | _, _ => s
  end.

(** [s[i:j]] for [0 <= i] and [0 <= j] *)
Definition slice (i j : nat) (s : string) : string := take (j - i) (drop i s).

(** [s.replace(a, b)] for one-character [a] *)
Fixpoint replace_char (a : ascii) (b : string) (s : string) : string :=
  match s with
  | EmptyString => EmptyString
  | String c s' =>
      if Ascii.eqb c a then (b ++ replace_char a b s')%string
      else String c (replace_char a b s')
  end.

(** [s.split(sep)] for a one-character [sep]: empty fields are kept. *)
Fixpoint split_on (sep : ascii) (s : string) : list string :=
  match s with
  | EmptyString => [EmptyString]
  | String c s' =>
      if Ascii.eqb c sep then EmptyString :: split_on sep s'
      else match split_on sep s' with
           | [] => [String c EmptyString]
           | w :: ws => String c w :: ws
           end
  end.

(** [s.split()]: fields are the maximal runs of non-space characters. *)
Fixpoint split_ws_aux (cur : option string) (s : string) : list string :=
  match s with
  | EmptyString => match cur with Some w => [w] | None => [] end
  | String c s' =>
      if is_space c then
        match cur with
        | Some w => w :: split_ws_aux None s'
        | None => split_ws_aux None s'
        end
      else
        match cur with
        | Some w => split_ws_aux (Some (w ++ String c EmptyString)%string) s'
        | None => split_ws_aux (Some (String c EmptyString)) s'
        end
  end.

Definition split_ws (s : string) : list string := split_ws_aux None s.

Fixpoint lstrip (s : string) : string :=
  match s with
  | String c s' => if is_space c then lstrip s' else s
  | EmptyString => EmptyString
  end.

Fixpoint rstrip (s : string) : string :=
  match s with
  | EmptyString => EmptyString
  | String c s' =>
      match rstrip s' with
      | EmptyString => if is_space c then EmptyString else String c EmptyString
      | r => String c r
      end
  end.

(** [s.strip()] *)
Definition strip (s : string) : string := rstrip (lstrip s).

(** The truth value of a string: non-empty. *)
Definition truthy (s : string) : bool :=
  match s with EmptyString => false | _ => true end.

End PyStr.

(** ** Exceptions *)

Inductive exn : Type :=
| Exception (kind : string) (message : string).

(** [str(e)] *)
Definition exn_str (e : exn) : string :=
  match e with Exception _ m => m end.

Definition Exc (A : Type) : Type := (exn + A)%type.

Definition ret {A} (a : A) : Exc A := inr a.
Definition raise {A} (e : exn) : Exc A := inl e.
Definition bind {A B} (m : Exc A) (f : A -> Exc B) : Exc B :=
  match m with
  | inl e => inl e
  | inr a => f a
  end.

Notation "'let!' x ':=' m 'in' k" := (bind m (fun x => k))
  (at level 10, x name, m at level 100, k at level 200).
Notation "'let!' ' p ':=' m 'in' k" := (bind m (fun x => let 'p := x in k))
  (at level 10, p strict pattern, m at level 100, k at level 200).

(** [try: body  except Exception as e: handler(e)] *)
Definition try_except {A} (body : Exc A) (handler : exn -> A) : A :=
  match body with
  | inl e => handler e
  | inr a => a
  end.

(** ** The regular expressions of module [re]

    A backtracking matcher with the priorities of CPython's engine: the
    leftmost start, alternatives in order, greedy repetition. *)

Module Re.

Inductive cclass : Type :=
| Digit                       (* \d *)
| Space                       (* \s *)
| OneOf (cs : list ascii).    (* [...] *)

Inductive regex : Type :=
| Eps
| Lit (c : ascii)
| Class (k : cclass)
| WordB                                        (* \b *)
| Cat (r1 r2 : regex)
| Alt (r1 r2 : regex)
| Rep (lo : nat) (hi : option nat) (r : regex) (* greedy r{lo,hi} *)
| Group (n : nat) (r : regex).                 (* the n-th ( ... ) *)

(** The literal string [s]. *)
Fixpoint str (s : string) : regex :=
  match s with
  | EmptyString => Eps
  | String c EmptyString => Lit c
  | String c s' => Cat (Lit c) (str s')
  end.

Definition star (r : regex) : regex := Rep 0 None r.       (* r* *)
Definition plus (r : regex) : regex := Rep 1 None r.       (* r+ *)
Definition opt (r : regex) : regex := Rep 0 (Some 1) r.    (* r? *)
Definition times (n : nat) (r : regex) : regex := Rep n (Some n) r.  (* r{n} *)

(** [r1 r2 ... rn] and [r1|r2|...|rn] *)
Fixpoint seq (rs : list regex) : regex :=
  match rs with
  | [] => Eps
  | [r] => r
  | r :: rs' => Cat r (seq rs')
  end.

Fixpoint alt (rs : list regex) : regex :=
  match rs with
  | [] => Eps
  | [r] => r
  | r :: rs' => Alt r (alt rs')
  end.

(** The matcher's position: the characters left, the character before the
    position (for [\b]), the offset, and the spans of the groups closed so
    far. *)
Record mstate : Type := MState {
  rest : list ascii;
  prev : option ascii;
  pos : nat;
  caps : list (nat * (nat * nat))
}.

Definition in_class (k : cclass) (c : ascii) : bool :=
  match k with
  | Digit => PyStr.is_digit c
  | Space => PyStr.is_space c
  | OneOf cs => existsb (Ascii.eqb c) cs
  end.

(** A literal matches its character, and under [re.IGNORECASE] also the
    character of the other case. *)
Definition lit_matches (ignorecase : bool) (c x : ascii) : bool :=
  if ignorecase then Ascii.eqb (PyStr.lower_char c) (PyStr.lower_char x)
  else Ascii.eqb c x.

Definition advance (x : ascii) (xs : list ascii) (st : mstate) : mstate :=
  MState xs (Some x) (S (pos st)) (caps st).

Definition wordish (o : option ascii) : bool :=
  match o with Some c => PyStr.is_word c | None => false end.

Definition at_boundary (st : mstate) : bool :=
  xorb (wordish (prev st)) (wordish (head (rest st))).

Definition below (n : nat) (hi : option nat) : bool :=
  match hi with Some h => n <? h | None => true end.

Definition set_cap (n start : nat) (st : mstate) : mstate :=
  MState (rest st) (prev st) (pos st) ((n, (start, pos st)) :: caps st).

(** The greedy repetition of [body], after [n] iterations: one more
    iteration if the upper bound allows it and it leads to a match,
    otherwise the rest of the pattern if the lower bound is reached.  An
    iteration that consumes nothing ends the repetition, so the characters
    left bound the number of iterations, and so does [fuel]. *)
Fixpoint repeat (body : (mstate -> option mstate) -> mstate -> option mstate)
    (lo : nat) (hi : option nat) (k : mstate -> option mstate)
    (fuel n : nat) (st : mstate) {struct fuel} : option mstate :=
  let stop := if lo <=? n then k st else None in
  match fuel with
  | O => stop
  | S fuel' =>
      if below n hi then
        match body (fun st' => if pos st <? pos st'
                               then repeat body lo hi k fuel' (S n) st'
                               else None) st with
        | Some res => Some res
        | None => stop
        end
      else stop
  end.

(** [m ic r k st]: the first way, in priority order, to match [r] at [st]
    and then succeed with [k]. *)
Fixpoint m (ic : bool) (r : regex) (k : mstate -> option mstate)
    (st : mstate) {struct r} : option mstate :=
  match r with
  | Eps => k st
  | Lit c =>
      match rest st with
      | x :: xs => if lit_matches ic c x then k (advance x xs st) else None
      | [] => None
      end
  | Class cl =>
      match rest st with
      | x :: xs => if in_class cl x then k (advance x xs st) else None
      | [] => None
      end
  | WordB => if at_boundary st then k st else None
  | Cat r1 r2 => m ic r1 (m ic r2 k) st
  | Alt r1 r2 =>
      match m ic r1 k st with
      | Some res => Some res
      | None => m ic r2 k st
      end
  | Rep lo hi r' => repeat (m ic r') lo hi k (S (length (rest st))) 0 st
  | Group n r' => m ic r' (fun st' => k (set_cap n (pos st) st')) st
  end.

(** A match object: [start()], [end()] and the spans of its groups. *)
Record rmatch : Type := RMatch {
  m_start : nat;
  m_end : nat;
  m_caps : list (nat * (nat * nat))
}.

(** A match at the position [st]: the match object and the position
    where it ends. *)
Definition match_here (ic : bool) (r : regex) (st : mstate) : option (rmatch * mstate) :=
  match m ic r Some (MState (rest st) (prev st) (pos st) []) with
  | Some st' => Some (RMatch (pos st) (pos st') (caps st'), st')
  | None => None
  end.

(** The scan of [finditer]: the leftmost match from the position, then the
    scan goes on where the match ended (one character further on after an
    empty match). *)
Fixpoint scan (fuel : nat) (ic : bool) (r : regex) (st : mstate) : list rmatch :=
  match fuel with
  | O => []
  | S fuel' =>
      let next :=
        match rest st with
        | [] => []
        | x :: xs => scan fuel' ic r (advance x xs st)
        end in
      match match_here ic r st with
      | Some (mt, st') =>
          mt :: (if pos st <? pos st' then scan fuel' ic r st' else next)
      | None => next
      end
  end.

(** [re.finditer(r, text)] *)
Definition finditer (ic : bool) (r : regex) (text : string) : list rmatch :=
  let cs := list_ascii_of_string text in
  scan (S (length cs)) ic r (MState cs None 0 []).

(** [match.group(0)] *)
Definition group0 (text : string) (mt : rmatch) : string :=
  PyStr.slice (m_start mt) (m_end mt) text.

Fixpoint assoc (n : nat) (l : list (nat * (nat * nat))) : option (nat * nat) :=
  match l with
  | [] => None
  | (i, sp) :: l' => if i =? n then Some sp else assoc n l'
  end.

(** [match.group(n)] of a group that took part in the match. *)
Definition group (text : string) (n : nat) (mt : rmatch) : string :=
  match assoc n (m_caps mt) with
  | Some (s, e) => PyStr.slice s e text
  | None => EmptyString
  end.

(** [re.findall(r, text)] for a pattern with exactly one group. *)
Definition findall1 (r : regex) (text : string) : list string :=
  map (group text 1) (finditer false r text).

End Re.

(** ** Python floats *)

Module PyFloat.

Definition digit_val (c : ascii) : Z := Z.of_nat (PyStr.code c - 48).

(** The leading digits of [cs], and what follows them. *)
Fixpoint span_digits (cs : list ascii) : list ascii * list ascii :=
  match cs with
  | c :: cs' =>
      if PyStr.is_digit c
      then let '(ds, tl) := span_digits cs' in (c :: ds, tl)
      else ([], cs)
  | [] => ([], [])
  end.

Definition digits_val (ds : list ascii) : Z :=
  fold_left (fun acc c => (10 * acc + digit_val c)%Z) ds 0%Z.

(** The exponent part: nothing, or [e] or [E], an optional sign, digits. *)
Definition parse_exponent (cs : list ascii) : option Z :=
  match cs with
  | [] => Some 0%Z
  | c :: cs' =>
      if existsb (Ascii.eqb c) ["e"; "E"]%char then
        let '(neg, cs'') :=
          match cs' with
          | s :: tl => if Ascii.eqb s "-" then (true, tl)
                       else if Ascii.eqb s "+" then (false, tl)
                       else (false, cs')
          | [] => (false, cs')
          end in
        match span_digits cs'' with
        | ((_ :: _) as ds, []) =>
            Some (if neg then (- digits_val ds)%Z else digits_val ds)
        | _ => None
        end
      else None
  end.

(** A decimal literal [digits[.digits][(e|E)[+|-]digits]] as a pair
    [(M, E)] standing for [M * 10^E]. *)
Definition parse_decimal (s : string) : option (Z * Z) :=
  match span_digits (list_ascii_of_string s) with
  | ([], _) => None
  | (ip, tl) =>
      match tl with
      | "."%char :: tl' =>
          match span_digits tl' with
          | ([], _) => None
          | (fp, tl'') =>
              match parse_exponent tl'' with
              | Some e => Some (digits_val (ip ++ fp), (e - Z.of_nat (length fp))%Z)
              | None => None
              end
          end
      | _ =>
          match parse_exponent tl with
          | Some e => Some (digits_val ip, e)
          | None => None
          end
      end
  end.

(** The binary64 nearest to [M * 10^E] (ties to even), for [0 <= M].
    For a negative [E] the quotient is taken with at least 64 bits and a
    sticky bit, which decides the rounding as the exact quotient does. *)
Definition round_decimal (M E : Z) : float :=
  if (M =? 0)%Z then PrimFloat.zero
  else if (0 <=? E)%Z then
    SF2Prim (binary_normalize prec emax (M * 10 ^ E) 0 false)
  else
    let D := (10 ^ (- E))%Z in
    let s := Z.max 0 (64 + Z.log2 D - Z.log2 M) in
    let q := ((M * 2 ^ s) / D)%Z in
    let r := ((M * 2 ^ s) mod D)%Z in
    SF2Prim (binary_normalize prec emax
               (2 * q + (if (r =? 0)%Z then 0 else 1)) (- s - 1) false).

(** [float(s)] on the decimal literals the extraction patterns capture;
    on any other text the model raises [ValueError] (CPython's [float]
    also reads signs, surrounding spaces, underscores, [inf] and [nan],
    none of which a captured number has). *)
Definition float_of_string (s : string) : Exc float :=
  match parse_decimal s with
  | Some (M, E) => ret (round_decimal M E)
  | None => raise (Exception "ValueError" ("could not convert string to float: " ++ s)%string)
  end.

(** [x / y]: division by a zero raises. *)
Definition truediv (x y : float) : Exc float :=
  if PrimFloat.eqb y 0%float
  then raise (Exception "ZeroDivisionError" "float division by zero")
  else ret (x / y)%float.

End PyFloat.

(** ** Data model *)

(** A metadata value of a passage. *)
Inductive pyval : Type :=
| VStr (s : string)
| VInt (n : Z)
| VList (l : list string).

(** [langchain.schema.Document] *)
Record Document : Type := {
  page_content : string;
  metadata : gmap string pyval
}.

(** [metadata.get(key, default)] *)
Definition meta_get (d : Document) (key : string) (default : pyval) : pyval :=
  match metadata d !! key with
  | Some v => v
  | None => default
  end.

(** The dictionary returned by [_extract_entities_from_question]. *)
Record EntitySet : Type := {
  companies : list string;
  years : list string;
  emission_scope : string;
  keywords : list string
}.

(** An entry of the list returned by [_extract_numerical_values]. *)
Record NumericFact : Type := {
  value : float;
  unit : string;
  raw_text : string;
  context : string
}.

(** An entry of [answers] (the dictionary [answer_data]). *)
Record AnswerData : Type := {
  a_answer : string;
  a_confidence : float;
  a_context : string;
  a_source : pyval;
  a_company : pyval;
  a_year : pyval;
  a_page : pyval;
  a_tags : pyval;
  a_numerical_values : list NumericFact;
  a_chunk_id : pyval
}.

(** An entry of [comparison_results]; the year-by-year branch has no
    ["page"] key. *)
Record ComparisonPoint : Type := {
  c_company : string;
  c_year : pyval;
  c_emission_scope : string;
  c_context : string;
  c_numerical_values : list NumericFact;
  c_source : pyval;
  c_page : option pyval;
  c_chunk_id : pyval
}.

(** An entry of [all_values]. *)
Record Observation : Type := {
  o_value : float;
  o_unit : string;
  o_company : string;
  o_year : pyval;
  o_context : string
}.

(** The ["highest"] and ["lowest"] dictionaries of a comparison. *)
Record Extreme : Type := {
  e_value : float;
  e_company : string;
  e_year : pyval
}.

(** An entry of [numerical_comparisons]. *)
Record Comparison : Type := {
  m_unit : string;
  highest : Extreme;
  lowest : Extreme;
  difference : float;
  percentage_difference : float
}.

(** A formatted string literal kept as its pieces: the text and the floats
    it interpolates. *)
Inductive piece : Type :=
| Txt (s : string)
| Flt (x : float).

(** The dictionary returned by [_calculate_comparison_metrics]. *)
Inductive Metrics : Type :=
| MetricsError (error : string)
| MetricsOk (total_comparisons : nat) (numerical_comparisons : list Comparison)
            (summary : list piece).

(** The dictionaries [answer_question] returns, one constructor for each
    set of keys. *)
Inductive Result : Type :=
| RFailure (question error answer : string)
| RNoResults (question answer : string) (entities_detected : EntitySet)
             (filters_applied : gmap string string) (total_results : nat)
| RAnswers (question : string) (answers : list AnswerData)
           (entities_detected : EntitySet)
           (filters_applied : gmap string string) (total_results : nat)
| RComparisonError (question error : string) (entities_detected : option EntitySet)
| RComparison (question comparison_type : string)
              (comparison_results : list ComparisonPoint)
              (comparison_metrics : Metrics) (entities_detected : EntitySet).

(** The keys of a returned dictionary. *)
Definition result_keys (r : Result) : list string :=
  match r with
  | RFailure _ _ _ => ["question"; "error"; "answer"]
  | RNoResults _ _ _ _ _ =>
      ["question"; "answer"; "entities_detected"; "filters_applied"; "total_results"]
  | RAnswers _ _ _ _ _ =>
      ["question"; "answers"; "entities_detected"; "filters_applied"; "total_results"]
  | RComparisonError _ _ _ => ["question"; "error"; "entities_detected"]
  | RComparison _ _ _ _ _ =>
      ["question"; "comparison_type"; "comparison_results"; "comparison_metrics";
       "entities_detected"]
  end.

(** [key in result] *)
Definition has_key (key : string) (r : Result) : bool :=
  existsb (String.eqb key) (result_keys r).

(** ** Collaborators *)

(** The vector store: [similarity_search(query, k, filter)], which may
    raise. *)
Record VectorStore : Type := {
  similarity_search :
    string -> Z -> option (gmap string string) -> Exc (list Document)
}.

(** [VectorStoreManager]: [self.vectorstore], and the store that
    [load_vectorstore] finds at [vectorstore_path], if any. *)
Record VectorStoreManager : Type := {
  vectorstore : option VectorStore;
  on_disk : option VectorStore
}.

(** What the question-answering pipeline returns: a list of dictionaries,
    or one dictionary, each with optional ["answer"] and ["score"]. *)
Record QADict : Type := {
  qa_answer : option string;
  qa_score : option float
}.

Inductive QAOutput : Type :=
| QAList (l : list QADict)
| QAOne (d : QADict).

Record RetrievalAndFiltering : Type := {
  vector_manager : VectorStoreManager;
  qa_pipeline : option (string -> string -> Exc QAOutput)
}.

(** ** VectorStoreManager.query_vectorstore

    With [use_reranking] left at its default.  A store that is not loaded is
    loaded first; the search's exceptions are caught and give no results. *)

Definition load_vectorstore (self : VectorStoreManager) : option VectorStore :=
  on_disk self.

Definition query_vectorstore (self : VectorStoreManager) (query : string)
    (k : Z) (filters : gmap string string) : list Document :=
  let store :=
    match vectorstore self with
    | Some vs => Some vs
    | None => load_vectorstore self
    end in
  match store with
  | None => []
  | Some vs =>
      try_except
        (if bool_decide (filters = ∅)
         then similarity_search vs query k None
         else similarity_search vs query k (Some filters))
        (fun _ => [])
  end.

(** ** RetrievalAndFiltering *)

Definition KNOWN_COMPANIES : list string := [
  "Dangote Cement"; "Maaden"; "Chemplast Sanmar"; "Saudi Aramco";
  "Nestle"; "Unilever"; "Tata Steel"; "Siemens"; "Shell"; "Chevron";
  "ExxonMobil"; "TotalEnergies"; "Reliance"; "BASF"; "Volkswagen";
  "ABB"; "Aramco"; "Petronas"; "Lucky Cement"; "National Cement Company"
].

Definition EMISSION_SCOPES : list (string * list string) := [
  ("scope_1", ["scope 1"; "direct emissions"; "stationary combustion"; "fuel combustion"]);
  ("scope_2", ["scope 2"; "indirect emissions"; "purchased electricity"; "electricity consumption"]);
  ("scope_3", ["scope 3"; "value chain emissions"; "supply chain"; "downstream emissions"])
].

(** [any(kw in text for kw in kws)] *)
Definition any_in (kws : list string) (text : string) : bool :=
  existsb (fun kw => PyStr.contains kw text) kws.

(** [r'\b(20\d{2}|19\d{2})\b'] *)
Definition year_pattern : Re.regex :=
  Re.seq [
    Re.WordB;
    Re.Group 1 (Re.alt [
      Re.Cat (Re.str "20") (Re.times 2 (Re.Class Re.Digit));
      Re.Cat (Re.str "19") (Re.times 2 (Re.Class Re.Digit))]);
    Re.WordB].

(** The loop over [EMISSION_SCOPES.items()]: the first scope one of whose
    keywords is in the question. *)
Fixpoint first_scope (question_lower : string)
    (scopes : list (string * list string)) : string :=
  match scopes with
  | [] => "unknown"
  | (scope, keywords) :: scopes' =>
      if any_in keywords question_lower then scope
      else first_scope question_lower scopes'
  end.

Definition sustainability_keywords : list string := [
  "emissions"; "carbon"; "co2"; "greenhouse gas"; "ghg";
  "sustainability"; "environmental"; "renewable"; "energy";
  "targets"; "goals"; "initiatives"; "reduction"
].

Definition _extract_entities_from_question (question : string) : EntitySet :=
  let question_lower := PyStr.lower question in
  {| companies :=
       List.filter (fun company => PyStr.contains (PyStr.lower company) question_lower)
                   KNOWN_COMPANIES;
     years := Re.findall1 year_pattern question;
     emission_scope := first_scope question_lower EMISSION_SCOPES;
     keywords :=
       List.filter (fun kw => PyStr.contains kw question_lower)
                   sustainability_keywords |}.

(** The truth value of a list: non-empty. *)
Definition nonempty {A} (l : list A) : bool :=
  match l with [] => false | _ => true end.

Definition _build_metadata_filters (entities : EntitySet) : gmap string string :=
  let filters : gmap string string := ∅ in
  let filters :=
    if nonempty (companies entities) then
      if length (companies entities) =? 1
      then <["company_name" := nth 0 (companies entities) ""]> filters
      else filters
    else filters in
  let filters :=
    if nonempty (years entities) then
      if length (years entities) =? 1
      then <["report_year" := nth 0 (years entities) ""]> filters
      else filters
    else filters in
  filters.

Definition comparison_keywords : list string := [
  "compare"; "comparison"; "versus"; "vs"; "difference"; "between";
  "which is better"; "which is higher"; "which is lower"; "how do";
  "both"; "all"; "each"; "respectively"
].

Definition _is_comparison_question (question : string) : bool :=
  let question_lower := PyStr.lower question in
  let has_comparison_keywords := any_in comparison_keywords question_lower in
  let entities := _extract_entities_from_question question in
  let has_multiple_entities :=
    (2 <=? length (companies entities)) || (2 <=? length (years entities)) in
  has_comparison_keywords || has_multiple_entities.

(** *** Numerical values *)

(** [\d+(?:\.\d+)?(?:[eE][+-]?\d+)?] *)
Definition number_sci : Re.regex :=
  Re.seq [
    Re.plus (Re.Class Re.Digit);
    Re.opt (Re.Cat (Re.Lit ".") (Re.plus (Re.Class Re.Digit)));
    Re.opt (Re.seq [Re.Class (Re.OneOf ["e"; "E"]%char);
                    Re.opt (Re.Class (Re.OneOf ["+"; "-"]%char));
                    Re.plus (Re.Class Re.Digit)])].

(** [\d{1,3}(?:,\d{3})*(?:\.\d+)?] *)
Definition number_grouped : Re.regex :=
  Re.seq [
    Re.Rep 1 (Some 3) (Re.Class Re.Digit);
    Re.star (Re.Cat (Re.Lit ",") (Re.times 3 (Re.Class Re.Digit)));
    Re.opt (Re.Cat (Re.Lit ".") (Re.plus (Re.Class Re.Digit)))].

(** [word s?] *)
Definition plural (word : string) : Re.regex :=
  Re.Cat (Re.str word) (Re.opt (Re.Lit "s")).

(** [(number)\s*(unit)] *)
Definition quantity (number units : Re.regex) : Re.regex :=
  Re.seq [Re.Group 1 number; Re.star (Re.Class Re.Space); Re.Group 2 units].

Definition patterns : list Re.regex := [
  (* (...)\s*(tCO2|tonnes?|tons?|Mt|Gt|kg|metric tons?|million tonnes?) *)
  quantity number_sci
    (Re.alt [Re.str "tCO2"; plural "tonne"; plural "ton"; Re.str "Mt"; Re.str "Gt";
             Re.str "kg"; plural "metric ton"; plural "million tonne"]);
  (* (...)\s*(GWh|MWh|kWh|TJ|GJ|MJ) *)
  quantity number_sci
    (Re.alt [Re.str "GWh"; Re.str "MWh"; Re.str "kWh"; Re.str "TJ"; Re.str "GJ";
             Re.str "MJ"]);
  (* (...)\s*(%|percent|percentage) *)
  quantity number_sci
    (Re.alt [Re.str "%"; Re.str "percent"; Re.str "percentage"]);
  (* (\d{1,3}(?:,\d{3})*(?:\.\d+)?)\s*(tCO2|tonnes?|tons?|Mt|Gt) *)
  quantity number_grouped
    (Re.alt [Re.str "tCO2"; plural "tonne"; plural "ton"; Re.str "Mt"; Re.str "Gt"])
].

(** The body of the loop over the matches, up to the [append]. *)
Definition fact_of_match (text : string) (mt : Re.rmatch) : Exc NumericFact :=
  let value_str := PyStr.replace_char "," "" (Re.group text 1 mt) in
  let unit := Re.group text 2 mt in
  let! value := PyFloat.float_of_string value_str in
  ret {| value := value;
         unit := unit;
         raw_text := Re.group0 text mt;
         context := PyStr.slice (Nat.max 0 (Re.m_start mt - 50))
                                (Re.m_end mt + 50) text |}.

(** [try: ... numerical_values.append(...)  except ValueError: continue] *)
Definition append_fact (text : string) (numerical_values : list NumericFact)
    (mt : Re.rmatch) : list NumericFact :=
  try_except
    (let! fact := fact_of_match text mt in ret (numerical_values ++ [fact]))
    (fun _ => numerical_values).

Definition _extract_numerical_values (text : string) : list NumericFact :=
  fold_left
    (fun numerical_values pattern =>
       fold_left (append_fact text) (Re.finditer true pattern text) numerical_values)
    patterns [].

(** *** Comparison metrics *)

(** [sorted(values, key=lambda x: x["value"], reverse=True)].  [list.sort]
    is stable and compares keys with [<] only; with [reverse=True] it
    reverses the list, sorts it in ascending order and reverses the result.
    The ascending sort is an insertion from the left, which is the stable
    order whenever [<] orders the keys (no NaN among them). *)
Fixpoint insert_by_value (x : Observation) (l : list Observation) : list Observation :=
  match l with
  | [] => [x]
  | y :: l' =>
      if (o_value x <? o_value y)%float then x :: y :: l'
      else y :: insert_by_value x l'
  end.

Definition sort_ascending (l : list Observation) : list Observation :=
  fold_left (fun acc x => insert_by_value x acc) l [].

Definition sorted_reverse (l : list Observation) : list Observation :=
  rev (sort_ascending (rev l)).

(** [l[0]] and [l[-1]] *)
Definition first_item {A} (l : list A) : Exc A :=
  match l with
  | x :: _ => ret x
  | [] => raise (Exception "IndexError" "list index out of range")
  end.

Definition last_item {A} (l : list A) : Exc A :=
  first_item (rev l).

(** The loop that fills [all_values]. *)
Definition all_values_of (comparison_results : list ComparisonPoint) : list Observation :=
  flat_map
    (fun result =>
       map (fun num_val =>
              {| o_value := value num_val;
                 o_unit := unit num_val;
                 o_company := c_company result;
                 o_year := c_year result;
                 o_context := context num_val |})
           (c_numerical_values result))
    comparison_results.

(** [unit_groups]: a dictionary in insertion order.
    [if unit not in unit_groups: unit_groups[unit] = []] and then
    [unit_groups[unit].append(val)]. *)
Fixpoint group_append (unit : string) (val : Observation)
    (unit_groups : list (string * list Observation)) : list (string * list Observation) :=
  match unit_groups with
  | [] => [(unit, [val])]
  | (u, vals) :: unit_groups' =>
      if String.eqb u unit then (u, vals ++ [val]) :: unit_groups'
      else (u, vals) :: group_append unit val unit_groups'
  end.

Definition unit_groups_of (all_values : list Observation) : list (string * list Observation) :=
  fold_left (fun unit_groups val => group_append (PyStr.lower (o_unit val)) val unit_groups)
            all_values [].

Definition extreme_of (o : Observation) : Extreme :=
  {| e_value := o_value o; e_company := o_company o; e_year := o_year o |}.

(** The conditional expression of ["percentage_difference"], over the
    division it uses; the integers [100] and [0] of the source are the floats
    of the same value. *)
Definition percentage_with (div : float -> float -> Exc float)
    (highest lowest : Observation) : Exc float :=
  if (0 <? o_value lowest)%float then
    let! q := div (o_value highest - o_value lowest)%float (o_value lowest) in
    ret (q * 100)%float
  else ret 0%float.

Definition percentage_of (highest lowest : Observation) : Exc float :=
  percentage_with PyFloat.truediv highest lowest.

(** The body of the loop over [unit_groups.items()]. *)
Definition compare_group (numerical_comparisons : list Comparison)
    (unit : string) (values : list Observation) : Exc (list Comparison) :=
  if 2 <=? length values then
    let sorted_values := sorted_reverse values in
    let! highest := first_item sorted_values in
    let! lowest := last_item sorted_values in
    let! pct := percentage_of highest lowest in
    ret (numerical_comparisons ++
           [{| m_unit := unit;
               highest := extreme_of highest;
               lowest := extreme_of lowest;
               difference := (o_value highest - o_value lowest)%float;
               percentage_difference := pct |}])
  else ret numerical_comparisons.

Fixpoint compare_groups (numerical_comparisons : list Comparison)
    (unit_groups : list (string * list Observation)) : Exc (list Comparison) :=
  match unit_groups with
  | [] => ret numerical_comparisons
  | (unit, values) :: unit_groups' =>
      let! numerical_comparisons := compare_group numerical_comparisons unit values in
      compare_groups numerical_comparisons unit_groups'
  end.

(** [f"Highest: {company} ({value} {unit}), Lowest: {company} ({value} {unit})"]
    over the first comparison. *)
Definition summary_of (numerical_comparisons : list Comparison) : list piece :=
  match numerical_comparisons with
  | [] => []
  | main_comparison :: _ =>
      [Txt "Highest: "; Txt (e_company (highest main_comparison)); Txt " (";
       Flt (e_value (highest main_comparison)); Txt " "; Txt (m_unit main_comparison);
       Txt "), Lowest: "; Txt (e_company (lowest main_comparison)); Txt " (";
       Flt (e_value (lowest main_comparison)); Txt " "; Txt (m_unit main_comparison);
       Txt ")"]
  end.

Definition _calculate_comparison_metrics
    (comparison_results : list ComparisonPoint) : Exc Metrics :=
  if length comparison_results <? 2 then
    ret (MetricsError "Need at least 2 results for comparison")
  else
    let all_values := all_values_of comparison_results in
    let unit_groups := unit_groups_of all_values in
    let! numerical_comparisons := compare_groups [] unit_groups in
    ret (MetricsOk (length comparison_results) numerical_comparisons
                   (summary_of numerical_comparisons)).

(** *** The comparison path *)

(** The body of [for company in companies]. *)
Definition company_step (self : RetrievalAndFiltering) (years : list string)
    (emission_scope : string) (comparison_results : list ComparisonPoint)
    (company : string) : list ComparisonPoint :=
  try_except
    (let filters : gmap string string := {["company_name" := company]} in
     let filters :=
       if nonempty years then <["report_year" := nth 0 years ""]> filters
       else filters in
     let query :=
       (company ++ " " ++ PyStr.replace_char "_" " " emission_scope
          ++ " emissions carbon")%string in
     let results := query_vectorstore (vector_manager self) query 3 filters in
     match results with
     | best_result :: _ =>
         let numerical_values := _extract_numerical_values (page_content best_result) in
         ret (comparison_results ++
                [{| c_company := company;
                    c_year := meta_get best_result "report_year" (VStr "Unknown");
                    c_emission_scope := emission_scope;
                    c_context := PyStr.take 200 (page_content best_result);
                    c_numerical_values := numerical_values;
                    c_source := meta_get best_result "source" (VStr "Unknown");
                    c_page := Some (meta_get best_result "page" (VStr "Unknown"));
                    c_chunk_id := meta_get best_result "chunk_id" (VStr "Unknown") |}])
     | [] => ret comparison_results
     end)
    (fun _ => comparison_results).

(** The body of [for year in years]. *)
Definition year_step (self : RetrievalAndFiltering) (company : string)
    (emission_scope : string) (comparison_results : list ComparisonPoint)
    (year : string) : list ComparisonPoint :=
  try_except
    (let filters : gmap string string :=
       <["report_year" := year]> {["company_name" := company]} in
     let query :=
       (company ++ " " ++ year ++ " " ++ PyStr.replace_char "_" " " emission_scope
          ++ " emissions")%string in
     let results := query_vectorstore (vector_manager self) query 3 filters in
     match results with
     | best_result :: _ =>
         let numerical_values := _extract_numerical_values (page_content best_result) in
         ret (comparison_results ++
                [{| c_company := company;
                    c_year := VStr year;
                    c_emission_scope := emission_scope;
                    c_context := PyStr.take 200 (page_content best_result);
                    c_numerical_values := numerical_values;
                    c_source := meta_get best_result "source" (VStr "Unknown");
                    c_page := None;
                    c_chunk_id := meta_get best_result "chunk_id" (VStr "Unknown") |}])
     | [] => ret comparison_results
     end)
    (fun _ => comparison_results).

Definition _handle_comparison_question (self : RetrievalAndFiltering)
    (question : string) : Result :=
  try_except
    (let entities := _extract_entities_from_question question in
     let companies := companies entities in
     let years := years entities in
     let emission_scope := emission_scope entities in
     if (length companies <? 2) && (length years <? 2) then
       ret (RComparisonError question
              "Comparison requires at least 2 companies or 2 years" (Some entities))
     else
       let comparison_results :=
         if 2 <=? length companies then
           fold_left (company_step self years emission_scope) companies []
         else if (2 <=? length years) && nonempty companies then
           let company := nth 0 companies "" in
           fold_left (year_step self company emission_scope) years []
         else [] in
       let! comparison_metrics := _calculate_comparison_metrics comparison_results in
       ret (RComparison question
              (if 2 <=? length companies then "company" else "year")
              comparison_results comparison_metrics entities))
    (fun e =>
       RComparisonError question
         ("Error in comparison handling: " ++ exn_str e)%string None).

(** *** The standard path *)

Definition _extract_simple_answer (question context : string) : string :=
  let question_words : gset string := list_to_set (PyStr.split_ws (PyStr.lower question)) in
  let sentences := PyStr.split_on "." context in
  let '(best_sentence, max_overlap) :=
    fold_left
      (fun '(best_sentence, max_overlap) sentence =>
         let sentence_words : gset string :=
           list_to_set (PyStr.split_ws (PyStr.lower sentence)) in
         let overlap := size (question_words ∩ sentence_words) in
         if max_overlap <? overlap then (PyStr.strip sentence, overlap)
         else (best_sentence, max_overlap))
      sentences ("", 0) in
  if PyStr.truthy best_sentence then best_sentence else "Information found in context".

(** A local variable that is read before any assignment raises. *)
Definition read_local {A} (name : string) (v : option A) : Exc A :=
  match v with
  | Some a => ret a
  | None =>
      raise (Exception "UnboundLocalError"
               ("cannot access local variable '" ++ name
                  ++ "' where it is not associated with a value")%string)
  end.

(** The body of [for result in results], up to [answers.append].  The local
    [qa_result] is assigned only by the call of the pipeline. *)
Definition answer_of (self : RetrievalAndFiltering) (question : string)
    (result : Document) : Exc AnswerData :=
  let! qa_result :=
    match qa_pipeline self with
    | Some pipeline =>
        let! r := pipeline question (page_content result) in ret (Some r)
    | None => ret None
    end in
  let! qa_result := read_local "qa_result" qa_result in
  let! '(answer_text, confidence) :=
    match qa_result with
    | QAList l =>
        let! qa_result := first_item l in
        ret (default "No answer" (qa_answer qa_result),
             default 0%float (qa_score qa_result))
    | QAOne _ =>
        ret (_extract_simple_answer question (page_content result), 0.5%float)
    end in
  let numerical_values := _extract_numerical_values (page_content result) in
  ret {| a_answer := answer_text;
         a_confidence := confidence;
         a_context :=
           if 300 <? String.length (page_content result)
           then (PyStr.take 300 (page_content result) ++ "...")%string
           else page_content result;
         a_source := meta_get result "source" (VStr "Unknown");
         a_company := meta_get result "company_name" (VStr "Unknown");
         a_year := meta_get result "report_year" (VStr "Unknown");
         a_page := meta_get result "page" (VStr "Unknown");
         a_tags := meta_get result "tags" (VList []);
         a_numerical_values := numerical_values;
         a_chunk_id := meta_get result "chunk_id" (VStr "Unknown") |}.

(** [try: ... answers.append(answer_data)  except Exception: continue] *)
Definition answer_step (self : RetrievalAndFiltering) (question : string)
    (answers : list AnswerData) (result : Document) : list AnswerData :=
  try_except
    (let! answer_data := answer_of self question result in
     ret (answers ++ [answer_data]))
    (fun _ => answers).

Definition _handle_standard_question (self : RetrievalAndFiltering)
    (question : string) (top_k : Z) : Result :=
  try_except
    (let entities := _extract_entities_from_question question in
     let filters := _build_metadata_filters entities in
     let results := query_vectorstore (vector_manager self) question top_k filters in
     if negb (nonempty results) then
       ret (RNoResults question
              "No relevant information found in the knowledge base" entities filters 0)
     else
       let answers := fold_left (answer_step self question) results [] in
       ret (RAnswers question answers entities filters (length results)))
    (fun e =>
       RFailure question
         ("Error in standard question handling: " ++ exn_str e)%string
         "Unable to process question").

(** *** answer_question *)

Definition answer_question (self : RetrievalAndFiltering) (question : string)
    (top_k : Z) : Result :=
  try_except
    (if negb (bool_decide (is_Some (vectorstore (vector_manager self)))) then
       ret (RFailure question
              "Vector store not available. Please ensure it's properly initialized."
              "Unable to process question - vector store not loaded")
     else if _is_comparison_question question then
       ret (_handle_comparison_question self question)
     else
       ret (_handle_standard_question self question top_k))
    (fun e =>
       RFailure question
         ("Error processing question: " ++ exn_str e)%string
         "Unable to process question due to system error").

(** ** Vocabulary of the properties *)

(** [name] occurs in [question] as a case-insensitive substring. *)
Definition mentions (name question : string) : Prop :=
  PyStr.contains (PyStr.lower name) (PyStr.lower question) = true.

(** The question contains one of the comparison-signal phrases. *)
Definition has_comparison_phrase (question : string) : Prop :=
  any_in comparison_keywords (PyStr.lower question) = true.

(** The number of distinct entries of a list. *)
Definition distinct_count (l : list string) : nat := length (remove_dups l).

(** The matches of one pattern, and the facts they give. *)
Definition matches_of_pattern (text : string) (pattern : Re.regex) : list Re.rmatch :=
  Re.finditer true pattern text.

Definition facts_of_matches (text : string) (ms : list Re.rmatch) : list NumericFact :=
  fold_left (append_fact text) ms [].

Definition facts_of_pattern (text : string) (pattern : Re.regex) : list NumericFact :=
  facts_of_matches text (matches_of_pattern text pattern).

(** The facts one match gives: one, or none when [float] raises. *)
Definition fact_list (text : string) (mt : Re.rmatch) : list NumericFact :=
  match fact_of_match text mt with
  | inr fact => [fact]
  | inl _ => []
  end.

(** The span [(start, end)] of a match. *)
Definition span (mt : Re.rmatch) : nat * nat := (Re.m_start mt, Re.m_end mt).

(** All the matches in the order the loops visit them, and the positions
    where they start. *)
Definition matches_in_order (text : string) : list Re.rmatch :=
  flat_map (matches_of_pattern text) patterns.

Definition positions_in_order (text : string) : list nat :=
  map Re.m_start (matches_in_order text).

(** Consecutive matches of a scan: the later one starts after the start of
    the earlier one, and not before its end. *)
Definition precedes (a b : Re.rmatch) : Prop :=
  Re.m_start a < Re.m_start b /\ Re.m_end a <= Re.m_start b.

(** What the matcher consumed between two positions. *)
Definition extends (st st' : Re.mstate) : Prop :=
  exists consumed,
    Re.rest st = consumed ++ Re.rest st' /\
    Re.pos st' = Re.pos st + length consumed.

(** The points gathered by the comparison handler. *)
Definition comparison_points (self : RetrievalAndFiltering) (question : string) :
    list ComparisonPoint :=
  let entities := _extract_entities_from_question question in
  if 2 <=? length (companies entities) then
    fold_left (company_step self (years entities) (emission_scope entities))
              (companies entities) []
  else if (2 <=? length (years entities)) && nonempty (companies entities) then
    fold_left (year_step self (nth 0 (companies entities) "") (emission_scope entities))
              (years entities) []
  else [].

(** ** A small corpus *)

Module Example.

Definition passage (content organization : string) : Document :=
  {| page_content := content;
     metadata := {["company_name" := VStr organization]} |}.

Definition corpus : list Document := [
  passage "Scope 1 emissions were 100 tCO2" "Shell";
  passage "Scope 1 emissions were 80 tCO2" "Chevron"
].

(** A passage passes a filter when it has the filter's organization. *)
Definition passes (filter : option (gmap string string)) (d : Document) : bool :=
  match filter with
  | None => true
  | Some f =>
      match f !! "company_name", metadata d !! "company_name" with
      | Some c, Some (VStr c') => String.eqb c c'
      | Some _, _ => false
      | None, _ => true
      end
  end.

(** A store that returns the passages of the corpus that pass the filter,
    at most [k] of them. *)
Definition store : VectorStore :=
  {| similarity_search := fun _ k filter =>
       ret (firstn (Z.to_nat k) (List.filter (passes filter) corpus)) |}.

(** The engine over this store, with and without a question-answering
    pipeline. *)
Definition engine (qa : option (string -> string -> Exc QAOutput)) : RetrievalAndFiltering :=
  {| vector_manager := {| vectorstore := Some store; on_disk := None |};
     qa_pipeline := qa |}.

Definition observation (v : float) (organization : string) : Observation :=
  {| o_value := v; o_unit := "tCO2"; o_company := organization;
     o_year := VStr "Unknown"; o_context := "" |}.

End Example.

(** ** Vocabulary of the further properties *)

(** The keywords of an emission scope, and whether the question has one. *)
Definition scope_keywords (scope : string) : list string :=
  match List.find (fun entry => String.eqb (fst entry) scope) EMISSION_SCOPES with
  | Some (_, keywords) => keywords
  | None => []
  end.

Definition scope_signal (scope question : string) : bool :=
  any_in (scope_keywords scope) (PyStr.lower question).

(** The answer record of the fallback heuristic for a passage. *)
Definition fallback_answer (question : string) (result : Document) : AnswerData :=
  {| a_answer := _extract_simple_answer question (page_content result);
     a_confidence := 0.5%float;
     a_context :=
       if 300 <? String.length (page_content result)
       then (PyStr.take 300 (page_content result) ++ "...")%string
       else page_content result;
     a_source := meta_get result "source" (VStr "Unknown");
     a_company := meta_get result "company_name" (VStr "Unknown");
     a_year := meta_get result "report_year" (VStr "Unknown");
     a_page := meta_get result "page" (VStr "Unknown");
     a_tags := meta_get result "tags" (VList []);
     a_numerical_values := _extract_numerical_values (page_content result);
     a_chunk_id := meta_get result "chunk_id" (VStr "Unknown") |}.

(** An answer record was made from a passage. *)
Definition answer_of_passage (a : AnswerData) (d : Document) : Prop :=
  a_chunk_id a = meta_get d "chunk_id" (VStr "Unknown") /\
  a_source a = meta_get d "source" (VStr "Unknown") /\
  a_numerical_values a = _extract_numerical_values (page_content d).

(** A comparison point was made from the first passage of a search of three
    passages filtered on the point's organization: its excerpt is the first
    200 characters of the passage, its facts are those of the whole
    passage. *)
Definition point_of_search (self : RetrievalAndFiltering) (p : ComparisonPoint) : Prop :=
  exists query filters d,
    filters !! "company_name" = Some (c_company p) /\
    head (query_vectorstore (vector_manager self) query 3 filters) = Some d /\
    c_context p = PyStr.take 200 (page_content d) /\
    c_numerical_values p = _extract_numerical_values (page_content d).

(** The number of distinct words, compared without case, that a sentence
    shares with the question. *)
Definition overlap (question sentence : string) : nat :=
  size ((list_to_set (PyStr.split_ws (PyStr.lower question)) : gset string)
        ∩ list_to_set (PyStr.split_ws (PyStr.lower sentence))).

(** Every character of the string is a space. *)
Fixpoint all_space (s : string) : bool :=
  match s with
  | EmptyString => true
  | String c s' => PyStr.is_space c && all_space s'
  end.

(** ** Metadata search and company overview *)

#[global] Instance pyval_eq_dec : EqDecision pyval.
Proof. solve_decision. Defined.

(** An entry of saved_chunks.json. *)
Record Chunk : Type := {
  chunk_id : string;
  content : string;
  chunk_metadata : gmap string pyval
}.

(** A value of [metadata_filters]: a list of admitted values, or one value;
    [None] stands for Python's [None]. *)
Inductive fvalue : Type :=
| FList (values : list (option pyval))
| FOne (value : option pyval).

(** The test of one filter entry on [chunk["metadata"].get(key)]. *)
Definition accepts (value : fvalue) (chunk_value : option pyval) : bool :=
  match value with
  | FList values => bool_decide (chunk_value ∈ values)
  | FOne v => bool_decide (chunk_value = v)
  end.

(** The inner loop: [match] stays true when every entry accepts. *)
Definition chunk_matches (metadata_filters : gmap string fvalue) (chunk : Chunk) : bool :=
  forallb (fun '(key, value) => accepts value (chunk_metadata chunk !! key))
          (map_to_list metadata_filters).

(** The loop over the chunks, with its [break] once [limit] is reached. *)
Fixpoint collect_matching (metadata_filters : gmap string fvalue) (limit : Z)
    (chunks filtered_chunks : list Chunk) : list Chunk :=
  match chunks with
  | [] => filtered_chunks
  | chunk :: chunks' =>
      if chunk_matches metadata_filters chunk then
        let filtered_chunks := filtered_chunks ++ [chunk] in
        if (limit <=? Z.of_nat (length filtered_chunks))%Z then filtered_chunks
        else collect_matching metadata_filters limit chunks' filtered_chunks
      else collect_matching metadata_filters limit chunks' filtered_chunks
  end.

(** [VectorStoreManager.search_by_metadata] of the original manager, over
    the chunks that [load_chunks] returns. *)
Definition manager_search_by_metadata (chunks : list Chunk)
    (metadata_filters : gmap string fvalue) (limit : Z) : list Chunk :=
  if negb (nonempty chunks) then []
  else collect_matching metadata_filters limit chunks [].

(** The two classes named [VectorStoreManager]: the original one, and the
    one of Vectorstor_Ollama, which RetrievalFilter imports and which has no
    method [search_by_metadata]. *)
Inductive ManagerClass : Type :=
| OriginalManager
| OllamaManager.

(** [self.vector_manager.search_by_metadata(metadata_filters, limit)] *)
Definition call_search_by_metadata (cls : ManagerClass) (chunks : list Chunk)
    (metadata_filters : gmap string fvalue) (limit : Z) : Exc (list Chunk) :=
  match cls with
  | OriginalManager => ret (manager_search_by_metadata chunks metadata_filters limit)
  | OllamaManager =>
      raise (Exception "AttributeError"
               "'VectorStoreManager' object has no attribute 'search_by_metadata'")
  end.

(** A chunk with its ["numerical_values"] key. *)
Record SearchResult : Type := {
  r_chunk : Chunk;
  r_numerical_values : list NumericFact
}.

Definition with_numerical_values (result : Chunk) : SearchResult :=
  {| r_chunk := result;
     r_numerical_values := _extract_numerical_values (content result) |}.

(** [RetrievalAndFiltering.search_by_metadata] *)
Definition search_by_metadata (cls : ManagerClass) (chunks : list Chunk)
    (metadata_filters : gmap string fvalue) (limit : Z) : list SearchResult :=
  try_except
    (let! results := call_search_by_metadata cls chunks metadata_filters limit in
     ret (map with_numerical_values results))
    (fun _ => []).

(** An entry of a section of the overview. *)
Record SectionEntry : Type := {
  s_content : string;
  s_source : pyval;
  s_page : pyval;
  s_chunk_id : pyval;
  s_numerical_values : list NumericFact
}.

(** The dictionaries [get_company_overview] returns; ["sections"] is a
    dictionary in insertion order, empty in the error record. *)
Inductive Overview : Type :=
| OverviewOk (company : string) (year : option string)
             (sections : list (string * list SectionEntry))
| OverviewError (company : string) (year : option string) (error : string).

(** [d[key] = v] on a dictionary in insertion order. *)
Fixpoint dict_set {V} (key : string) (v : V) (d : list (string * V)) : list (string * V) :=
  match d with
  | [] => [(key, v)]
  | (k, w) :: d' =>
      if String.eqb k key then (k, v) :: d' else (k, w) :: dict_set key v d'
  end.

Definition overview_queries (company_name : string) : list (string * string) := [
  ("emissions", (company_name ++ " emissions carbon dioxide greenhouse gas")%string);
  ("energy", (company_name ++ " energy consumption renewable electricity")%string);
  ("targets", (company_name ++ " targets goals sustainability climate")%string);
  ("initiatives", (company_name ++ " initiatives programs environmental")%string)
].

Definition section_entry (result : Document) : SectionEntry :=
  {| s_content := PyStr.take 400 (page_content result);
     s_source := meta_get result "source" (VStr "Unknown");
     s_page := meta_get result "page" (VStr "Unknown");
     s_chunk_id := meta_get result "chunk_id" (VStr "Unknown");
     s_numerical_values := _extract_numerical_values (page_content result) |}.

(** The body of [for section, query in queries.items()]. *)
Definition overview_step (self : RetrievalAndFiltering) (filters : gmap string string)
    (sections : list (string * list SectionEntry)) (entry : string * string) :
    list (string * list SectionEntry) :=
  let '(section, query) := entry in
  try_except
    (let results := query_vectorstore (vector_manager self) query 3 filters in
     let section_data := map section_entry results in
     ret (dict_set section section_data sections))
    (fun _ => dict_set section [] sections).

(** The truth value of [year]: neither [None] nor empty. *)
Definition year_given (year : option string) : option string :=
  match year with
  | Some y => if PyStr.truthy y then Some y else None
  | None => None
  end.

Definition overview_filters (company_name : string) (year : option string) :
    gmap string string :=
  let filters : gmap string string := {["company_name" := company_name]} in
  match year_given year with
  | Some y => <["report_year" := y]> filters
  | None => filters
  end.

Definition get_company_overview (self : RetrievalAndFiltering)
    (company_name : string) (year : option string) : Overview :=
  try_except
    (let filters := overview_filters company_name year in
     let sections :=
       fold_left (overview_step self filters) (overview_queries company_name) [] in
     ret (OverviewOk company_name year sections))
    (fun e =>
       OverviewError company_name year
         ("Error generating overview: " ++ exn_str e)%string).


Module Example2.

Definition chunk (id text organization : string) : Chunk :=
  {| chunk_id := id; content := text;
     chunk_metadata := {["company_name" := VStr organization]} |}.

Definition chunks : list Chunk := [
  chunk "a_0" "Scope 1 emissions were 100 tCO2" "Shell";
  chunk "b_0" "Scope 1 emissions were 80 tCO2" "Chevron";
  chunk "a_1" "Energy use was 5 GWh" "Shell"
].

Definition shell_only : gmap string fvalue :=
  {["company_name" := FOne (Some (VStr "Shell"))]}.

End Example2.

(** ** What the patterns match *)

(** The words of a regular expression, without regard to what surrounds
    them: an upper bound of what the matcher consumes. *)
Fixpoint lang (ic : bool) (r : Re.regex) (w : list ascii) : Prop :=
  match r with
  | Re.Eps => w = []
  | Re.Lit c => exists x, w = [x] /\ Re.lit_matches ic c x = true
  | Re.Class k => exists x, w = [x] /\ Re.in_class k x = true
  | Re.WordB => w = []
  | Re.Cat r1 r2 => exists w1 w2, w = w1 ++ w2 /\ lang ic r1 w1 /\ lang ic r2 w2
  | Re.Alt r1 r2 => lang ic r1 w \/ lang ic r2 w
  | Re.Rep lo hi r' =>
      exists ws, w = concat ws /\ Forall (lang ic r') ws /\ lo <= length ws /\
                 match hi with Some h => length ws <= h | None => True end
  | Re.Group _ r' => lang ic r' w
  end.

Fixpoint group_free (r : Re.regex) : bool :=
  match r with
  | Re.Cat r1 r2 | Re.Alt r1 r2 => group_free r1 && group_free r2
  | Re.Rep _ _ r' => group_free r'
  | Re.Group _ _ => false
  | _ => true
  end.

(** The character before the position, after the characters [w]. *)
Definition prev_after (p : option ascii) (w : list ascii) : option ascii :=
  match last w with
  | Some x => Some x
  | None => p
  end.

(** The matcher went from [st] to [st'] over a word of [L]; [keeps] says
    that no group was closed on the way. *)
Definition steps (L : list ascii -> Prop) (keeps : bool) (st st' : Re.mstate) : Prop :=
  exists w,
    Re.rest st = w ++ Re.rest st' /\
    Re.pos st' = Re.pos st + length w /\
    Re.prev st' = prev_after (Re.prev st) w /\
    L w /\
    (keeps = true -> Re.caps st' = Re.caps st).

(** The state of the matcher is a position of the text [cs]. *)
Definition position_of (cs : list ascii) (st : Re.mstate) : Prop :=
  exists before,
    cs = before ++ Re.rest st /\
    Re.pos st = length before /\
    Re.prev st = last before.

(** A non-empty run of digits. *)
Definition digits (ds : list ascii) : Prop :=
  ds <> [] /\ Forall (fun c => PyStr.is_digit c = true) ds.

(** The decimal literals: digits, then possibly a point and digits, then
    possibly an exponent. *)
Definition decimal_shape (w : list ascii) : Prop :=
  exists ip fr ex,
    w = ip ++ fr ++ ex /\ digits ip /\
    (fr = [] \/ exists fp, fr = "."%char :: fp /\ digits fp) /\
    (ex = [] \/
     exists e sign ds,
       ex = e :: sign ++ ds /\ (e = "e"%char \/ e = "E"%char) /\
       (sign = [] \/ sign = ["+"%char] \/ sign = ["-"%char]) /\ digits ds).

(** The units of the four patterns, in lower case. *)
Definition recognized_units : list string := [
  "tco2"; "tonne"; "tonnes"; "ton"; "tons"; "mt"; "gt"; "kg";
  "metric ton"; "metric tons"; "million tonne"; "million tonnes";
  "gwh"; "mwh"; "kwh"; "tj"; "gj"; "mj";
  "%"; "percent"; "percentage"
].

(** What a fact of the extraction is: a number, spaces and a unit that
    stand together in the text. *)
Definition quantity_in (text : string) (fact : NumericFact) : Prop :=
  exists before number spaces after : list ascii,
    list_ascii_of_string text =
      before ++ number ++ spaces ++ list_ascii_of_string (unit fact) ++ after /\
    raw_text fact =
      string_of_list_ascii (number ++ spaces ++ list_ascii_of_string (unit fact)) /\
    context fact =
      string_of_list_ascii
        (skipn (length before - 50) before
           ++ list_ascii_of_string (raw_text fact) ++ firstn 50 after) /\
    Forall (fun c => PyStr.is_space c = true) spaces /\
    (exists d tl, number = d :: tl /\ PyStr.is_digit d = true) /\
    PyFloat.float_of_string
      (PyStr.replace_char "," "" (string_of_list_ascii number)) = ret (value fact) /\
    In (PyStr.lower (unit fact)) recognized_units.

(** A year of a question: four digits that begin with 19 or 20 and stand as
    a whole token, with no word character before or after them. *)
Definition year_token (question year : string) : Prop :=
  exists (before after : list ascii) (c3 c4 : ascii),
    list_ascii_of_string question = before ++ list_ascii_of_string year ++ after /\
    (year = String "2" (String "0" (String c3 (String c4 ""))) \/
     year = String "1" (String "9" (String c3 (String c4 "")))) /\
    PyStr.is_digit c3 = true /\ PyStr.is_digit c4 = true /\
    Re.wordish (last before) = false /\ Re.wordish (head after) = false.

(** The characters of a word that are not commas. *)
Definition without_commas (w : list ascii) : list ascii :=
  List.filter (fun c => negb (Ascii.eqb c ",")) w.

(** ** The metadata command of the interactive loop *)

(** [key, value = item.split('=')] *)
Definition unpack_item (item : string) : Exc (string * string) :=
  match PyStr.split_on "=" item with
  | [key; value] => ret (key, value)
  | [] | [_] =>
      raise (Exception "ValueError" "not enough values to unpack (expected 2, got 1)")
  | _ => raise (Exception "ValueError" "too many values to unpack (expected 2)")
  end.

(** [for item in ...: key, value = item.split('=');
    filters[key.strip()] = value.strip()] *)
Fixpoint parse_items (items : list string) (filters : gmap string fvalue) :
    Exc (gmap string fvalue) :=
  match items with
  | [] => ret filters
  | item :: items' =>
      let! kv := unpack_item item in
      parse_items items'
        (<[PyStr.strip kv.1 := FOne (Some (VStr (PyStr.strip kv.2)))]> filters)
  end.

(** The filters of a command [metadata:key=value,key=value]. *)
Definition parse_metadata_command (user_input : string) : Exc (gmap string fvalue) :=
  let filter_str := PyStr.drop 9 user_input in
  parse_items (PyStr.split_on "," filter_str) ∅.

(** What the command shows: the chunks found, or the parse error. *)
Inductive CommandOutput : Type :=
| Found (results : list SearchResult)
| CommandError (message : string).

Definition metadata_command (cls : ManagerClass) (chunks : list Chunk)
    (user_input : string) : CommandOutput :=
  try_except
    (let! filters := parse_metadata_command user_input in
     ret (Found (search_by_metadata cls chunks filters 10)))
    (fun e => CommandError ("Error parsing metadata command: " ++ exn_str e)%string).

(** The number of occurrences of a character in a string. *)
Definition count_char (c : ascii) (s : string) : nat :=
  length (List.filter (fun x => Ascii.eqb x c) (list_ascii_of_string s)).

(** ** Vocabulary of the comparison metrics *)

(** The numeric facts of the points, each with its point, in the order of
    the points and of their facts. *)
Definition facts_of_points (points : list ComparisonPoint) :
    list (ComparisonPoint * NumericFact) :=
  flat_map (fun p => map (pair p) (c_numerical_values p)) points.

(** The facts whose unit, in lower case, is [u]. *)
Definition facts_with_unit (u : string) (points : list ComparisonPoint) :
    list (ComparisonPoint * NumericFact) :=
  List.filter (fun pf => String.eqb (PyStr.lower (unit pf.2)) u) (facts_of_points points).

(** The units of the facts, in lower case, one for each fact. *)
Definition units_of (points : list ComparisonPoint) : list string :=
  map (fun pf => PyStr.lower (unit pf.2)) (facts_of_points points).

(** The distinct elements of a list, in the order in which they first
    occur. *)
Fixpoint first_occurrences (l : list string) : list string :=
  match l with
  | [] => []
  | x :: l' => x :: List.filter (fun y => negb (String.eqb y x)) (first_occurrences l')
  end.

(** The entry of [all_values] for a fact of a point, and what a comparison
    keeps of it. *)
Definition observation_of (pf : ComparisonPoint * NumericFact) : Observation :=
  {| o_value := value pf.2;
     o_unit := unit pf.2;
     o_company := c_company pf.1;
     o_year := c_year pf.1;
     o_context := context pf.2 |}.

Definition extreme_from (pf : ComparisonPoint * NumericFact) : Extreme :=
  {| e_value := value pf.2; e_company := c_company pf.1; e_year := c_year pf.1 |}.

(** The ["highest"] and ["lowest"] of a comparison are facts [hi] and [lo]
    of its unit, its difference is theirs, and when no value of the unit is
    a NaN every value of the unit lies between them. *)
Definition extremes_of_unit (points : list ComparisonPoint) (c : Comparison)
    (hi lo : ComparisonPoint * NumericFact) : Prop :=
  let group := facts_with_unit (m_unit c) points in
  In hi group /\ In lo group /\
  highest c = extreme_from hi /\ lowest c = extreme_from lo /\
  difference c = (value hi.2 - value lo.2)%float /\
  (Forall (fun pf => PrimFloat.is_nan (value pf.2) = false) group ->
   Forall (fun pf => (value lo.2 <=? value pf.2)%float = true /\
                     (value pf.2 <=? value hi.2)%float = true) group).

(** The order of the observations by value, and a group without NaN. *)
Definition value_le (a b : Observation) : Prop :=
  (o_value a <=? o_value b)%float = true.

Definition no_nan (values : list Observation) : Prop :=
  Forall (fun o => PrimFloat.is_nan (o_value o) = false) values.

(** The same for a list of observations: what the loop makes of one unit
    group. *)
Definition comparison_of_values (values : list Observation) (c : Comparison) : Prop :=
  exists hi lo,
    In hi values /\ In lo values /\
    highest c = extreme_of hi /\ lowest c = extreme_of lo /\
    difference c = (o_value hi - o_value lo)%float /\
    (no_nan values -> Forall (fun o => value_le lo o /\ value_le o hi) values) /\
    ((0 <? o_value lo)%float = true ->
       percentage_difference c = ((o_value hi - o_value lo) / o_value lo * 100)%float) /\
    ((o_value lo <=? 0)%float = true ->
       percentage_difference c = 0%float /\
       forall div, percentage_with div hi lo = ret 0%float).

(** The text [f"Highest: ... Lowest: ..."] of a comparison. *)
Definition summary_text (c : Comparison) : list piece :=
  [Txt "Highest: "; Txt (e_company (highest c)); Txt " (";
   Flt (e_value (highest c)); Txt " "; Txt (m_unit c);
   Txt "), Lowest: "; Txt (e_company (lowest c)); Txt " (";
   Flt (e_value (lowest c)); Txt " "; Txt (m_unit c); Txt ")"].

(** [s.isascii()] *)
Definition isascii (s : string) : bool :=
  forallb (fun c => PyStr.code c <? 128) (list_ascii_of_string s).

Module Example3.

Definition fact (v : float) (u : string) : NumericFact :=
  {| value := v; unit := u; raw_text := ""; context := "" |}.

Definition point (organization : string) (facts : list NumericFact) : ComparisonPoint :=
  {| c_company := organization;
     c_year := VStr "2023";
     c_emission_scope := "scope_1";
     c_context := "";
     c_numerical_values := facts;
     c_source := VStr "Unknown";
     c_page := None;
     c_chunk_id := VStr "Unknown" |}.

Definition points : list ComparisonPoint := [
  point "Chevron" [fact 8 "tCO2"; fact 5 "GWh"];
  point "Shell" [fact 12 "tco2"]
].

End Example3.

(** ** Exceptions *)

Lemma bind_ret {A B} (a : A) (f : A -> Exc B) : bind (ret a) f = f a.
Proof. reflexivity. Qed.

Lemma try_except_ret {A} (a : A) (handler : exn -> A) :
  try_except (ret a) handler = a.
Proof. reflexivity. Qed.

(** ** Strings: [in] is the substring relation *)

Section Substring.

Lemma startswith_app (p t : string) : PyStr.startswith p (p ++ t)%string = true.
Proof.
  induction p as [|c p IH]; simpl; [reflexivity|].
  now rewrite Ascii.eqb_refl.
Qed.

Lemma startswith_inv (p s : string) :
  PyStr.startswith p s = true -> exists t, s = (p ++ t)%string.
Proof.
  revert s; induction p as [|c p IH]; intros s H; simpl in *.
  - now exists s.
  - destruct s as [|d s]; [discriminate|].
    destruct (Ascii.eqb_spec c d) as [->|]; [|discriminate].
    destruct (IH _ H) as [t ->]. now exists t.
Qed.

Lemma contains_intro (n pre post : string) :
  PyStr.contains n (pre ++ n ++ post)%string = true.
Proof.
  induction pre as [|c pre IH].
  - simpl (_ ++ _)%string. destruct (n ++ post)%string eqn:E; simpl;
      rewrite <- E, startswith_app; reflexivity.
  - simpl. rewrite IH. apply orb_true_r.
Qed.

Lemma contains_inv (n h : string) :
  PyStr.contains n h = true -> exists pre post, h = (pre ++ n ++ post)%string.
Proof.
  induction h as [|c h IH]; simpl; intros H.
  - rewrite orb_false_r in H. destruct (startswith_inv _ _ H) as [t ->].
    now exists ""%string, t.
  - apply orb_true_iff in H as [H|H].
    + destruct (startswith_inv _ _ H) as [t ->]. now exists ""%string, t.
    + destruct (IH H) as (pre & post & ->). now exists (String c pre), post.
Qed.

Lemma string_app_assoc (a b c : string) :
  ((a ++ b) ++ c = a ++ (b ++ c))%string.
Proof.
  induction a as [|x a IH]; [reflexivity|].
  change (String x ((a ++ b) ++ c) = String x (a ++ b ++ c))%string.
  now rewrite IH.
Qed.

(** A substring of a substring is a substring. *)
Lemma contains_trans (a b c : string) :
  PyStr.contains a b = true -> PyStr.contains b c = true ->
  PyStr.contains a c = true.
Proof.
  intros Hab Hbc.
  destruct (contains_inv _ _ Hab) as (p1 & q1 & ->).
  destruct (contains_inv _ _ Hbc) as (p2 & q2 & ->).
  replace (p2 ++ (p1 ++ a ++ q1) ++ q2)%string
    with ((p2 ++ p1) ++ a ++ (q1 ++ q2))%string.
  - apply contains_intro.
  - now rewrite !string_app_assoc.
Qed.

End Substring.

(** ** Entities, classification and filters *)

Section Entities.

Implicit Types question name : string.

Lemma companies_unfold question :
  companies (_extract_entities_from_question question) =
  List.filter (fun company => PyStr.contains (PyStr.lower company) (PyStr.lower question))
              KNOWN_COMPANIES.
Proof. reflexivity. Qed.

Lemma companies_spec question name :
  In name (companies (_extract_entities_from_question question)) <->
  In name KNOWN_COMPANIES /\ mentions name question.
Proof. rewrite companies_unfold, filter_In. reflexivity. Qed.

(** A list with two different members has at least two entries. *)
Lemma two_members_length {A} (l : list A) (x y : A) :
  In x l -> In y l -> x <> y -> 2 <= length l.
Proof.
  destruct l as [|a [|b l]]; simpl; intros Hx Hy Hne; try lia; try contradiction.
  destruct Hx as [<-|[]], Hy as [<-|[]]. contradiction.
Qed.

Lemma known_companies_nodup : NoDup KNOWN_COMPANIES.
Proof.
  unfold KNOWN_COMPANIES.
  repeat (apply NoDup_cons_2;
          [rewrite list_elem_of_In; simpl; intuition discriminate|]).
  apply NoDup_nil_2.
Qed.

Lemma companies_nodup question :
  NoDup (companies (_extract_entities_from_question question)).
Proof.
  rewrite companies_unfold. generalize known_companies_nodup.
  generalize KNOWN_COMPANIES as l.
  induction l as [|c l IH]; simpl; intros Hnd; [constructor|].
  apply NoDup_cons in Hnd as [Hc Hnd].
  destruct (PyStr.contains _ _); [|now apply IH].
  apply NoDup_cons; split; [|now apply IH].
  rewrite list_elem_of_In, filter_In. rewrite list_elem_of_In in Hc. tauto.
Qed.

Lemma distinct_count_nodup (l : list string) :
  NoDup l -> distinct_count l = length l.
Proof.
  unfold distinct_count. induction 1 as [|x l Hx Hnd IH]; simpl; [reflexivity|].
  destruct (decide_rel elem_of x l); [contradiction|]. simpl. now rewrite IH.
Qed.

Lemma is_comparison_unfold question :
  _is_comparison_question question =
  any_in comparison_keywords (PyStr.lower question)
  || ((2 <=? length (companies (_extract_entities_from_question question)))
      || (2 <=? length (years (_extract_entities_from_question question)))).
Proof. reflexivity. Qed.

End Entities.

(** C1.  A question that mentions two different names of the
    known-organization list (as case-insensitive substrings) is classified as
    a comparison, whether or not it has a comparison-signal phrase; so is a
    question that has such a phrase: either signal alone suffices. *)
Theorem is_comparison_either_signal (question : string) :
  (exists c1 c2,
      In c1 KNOWN_COMPANIES /\ In c2 KNOWN_COMPANIES /\ c1 <> c2 /\
      mentions c1 question /\ mentions c2 question)
  \/ has_comparison_phrase question ->
  _is_comparison_question question = true.
Proof.
  intros [(c1 & c2 & H1 & H2 & Hne & M1 & M2)|Hkw]; rewrite is_comparison_unfold.
  - assert (2 <= length (companies (_extract_entities_from_question question))) as Hlen.
    { apply (two_members_length _ c1 c2); [| |assumption];
        apply companies_spec; split; assumption. }
    apply Nat.leb_le in Hlen. rewrite Hlen. simpl. apply orb_true_r.
  - unfold has_comparison_phrase in Hkw. now rewrite Hkw.
Qed.

(** The two signals of C1, each alone: two organizations and no phrase; a
    phrase and no organization. *)
Lemma is_comparison_either_signal_witness :
  (has_comparison_phrase "Shell or Chevron emissions" -> False) /\
  _is_comparison_question "Shell or Chevron emissions" = true /\
  companies (_extract_entities_from_question "which is higher") = [] /\
  _is_comparison_question "which is higher" = true.
Proof.
  split; [|split; [|split]].
  - unfold has_comparison_phrase. vm_compute. discriminate.
  - apply (is_comparison_either_signal "Shell or Chevron emissions").
    left. exists "Shell", "Chevron".
    repeat split; try (vm_compute; reflexivity); try (simpl; tauto).
    discriminate.
  - vm_compute. reflexivity.
  - apply (is_comparison_either_signal "which is higher").
    right. vm_compute. reflexivity.
Defined.

Section Filters.

Implicit Types entities : EntitySet.

Lemma filters_company_lookup entities :
  _build_metadata_filters entities !! "company_name" =
  match companies entities with
  | [c] => Some c
  | _ => None
  end.
Proof.
  unfold _build_metadata_filters.
  destruct (companies entities) as [|c [|c' cs]],
           (years entities) as [|y [|y' ys]]; reflexivity.
Qed.

Lemma filters_year_lookup entities :
  _build_metadata_filters entities !! "report_year" =
  match years entities with
  | [y] => Some y
  | _ => None
  end.
Proof.
  unfold _build_metadata_filters.
  destruct (companies entities) as [|c [|c' cs]],
           (years entities) as [|y [|y' ys]]; reflexivity.
Qed.

Lemma filters_other_lookup entities (key : string) :
  key <> "company_name" -> key <> "report_year" ->
  _build_metadata_filters entities !! key = None.
Proof.
  intros H1 H2. unfold _build_metadata_filters.
  destruct (companies entities) as [|c [|c' cs]],
           (years entities) as [|y [|y' ys]]; simpl;
    repeat (rewrite lookup_insert_ne by congruence); apply lookup_empty.
Qed.

End Filters.

(** C2.  The filter built from an entity set has the organization field
    ([company_name]) exactly when one organization was detected, and the
    [report_year] field exactly when one year was detected, each holding
    that single value; with none or several values the field is absent, and
    the filter never has another field. *)
Theorem build_metadata_filters_exactly_one (entities : EntitySet) :
  let filters := _build_metadata_filters entities in
  (is_Some (filters !! "company_name") <-> length (companies entities) = 1) /\
  (is_Some (filters !! "report_year") <-> length (years entities) = 1) /\
  (forall v, filters !! "company_name" = Some v <-> companies entities = [v]) /\
  (forall v, filters !! "report_year" = Some v <-> years entities = [v]) /\
  (forall key, is_Some (filters !! key) -> key = "company_name" \/ key = "report_year").
Proof.
  cbv zeta. repeat split.
  - rewrite filters_company_lookup.
    destruct (companies entities) as [|c [|c' cs]]; simpl; intros [v Hv];
      congruence.
  - rewrite filters_company_lookup.
    destruct (companies entities) as [|c [|c' cs]]; simpl; intros H;
      try discriminate; eauto.
  - rewrite filters_year_lookup.
    destruct (years entities) as [|c [|c' cs]]; simpl; intros [v Hv];
      congruence.
  - rewrite filters_year_lookup.
    destruct (years entities) as [|c [|c' cs]]; simpl; intros H;
      try discriminate; eauto.
  - rewrite filters_company_lookup.
    destruct (companies entities) as [|c [|c' cs]]; congruence.
  - rewrite filters_company_lookup. intros ->. reflexivity.
  - rewrite filters_year_lookup.
    destruct (years entities) as [|c [|c' cs]]; congruence.
  - rewrite filters_year_lookup. intros ->. reflexivity.
  - intros key [v Hv].
    destruct (decide (key = "company_name")) as [|H1]; [now left|].
    destruct (decide (key = "report_year")) as [|H2]; [now right|].
    rewrite (filters_other_lookup _ _ H1 H2) in Hv. discriminate.
Qed.

(** C10.  A question that mentions "Saudi Aramco" also mentions "Aramco",
    another entry of the known-organization list: the extractor returns both,
    so at least two organizations; the classifier marks the question as a
    comparison, and the filter of the question has no organization field. *)
Theorem saudi_aramco_is_two_organizations (question : string) :
  mentions "Saudi Aramco" question ->
  let entities := _extract_entities_from_question question in
  In "Saudi Aramco" (companies entities) /\
  In "Aramco" (companies entities) /\
  2 <= length (companies entities) /\
  _is_comparison_question question = true /\
  _build_metadata_filters entities !! "company_name" = None.
Proof.
  intros Hsa entities.
  assert (In "Saudi Aramco" (companies entities)) as H1.
  { apply companies_spec. split; [|exact Hsa]. unfold KNOWN_COMPANIES. simpl. tauto. }
  assert (In "Aramco" (companies entities)) as H2.
  { apply companies_spec. split; [unfold KNOWN_COMPANIES; simpl; tauto|].
    unfold mentions in *. apply (contains_trans _ (PyStr.lower "Saudi Aramco"));
      [vm_compute; reflexivity | exact Hsa]. }
  assert (2 <= length (companies entities)) as H3.
  { apply (two_members_length _ "Saudi Aramco" "Aramco"); [assumption..|discriminate]. }
  repeat split; try assumption.
  - rewrite is_comparison_unfold. fold entities.
    apply Nat.leb_le in H3. rewrite H3. simpl. apply orb_true_r.
  - rewrite filters_company_lookup.
    destruct (companies entities) as [|c [|c' cs]]; simpl in H3; try lia; reflexivity.
Qed.

(** A question that names the one company and has no comparison phrase. *)
Lemma saudi_aramco_is_two_organizations_witness :
  (has_comparison_phrase "What are Saudi Aramco emissions?" -> False) /\
  let entities := _extract_entities_from_question "What are Saudi Aramco emissions?" in
  In "Saudi Aramco" (companies entities) /\
  In "Aramco" (companies entities) /\
  2 <= length (companies entities) /\
  _is_comparison_question "What are Saudi Aramco emissions?" = true /\
  _build_metadata_filters entities !! "company_name" = None.
Proof.
  split.
  - unfold has_comparison_phrase. vm_compute. discriminate.
  - apply (saudi_aramco_is_two_organizations "What are Saudi Aramco emissions?").
    vm_compute. reflexivity.
Defined.

(** ** The matcher and the scan *)

Section Matcher.

Variable ic : bool.

Lemma extends_refl st : extends st st.
Proof. exists []. simpl. split; [reflexivity | lia]. Qed.

Lemma extends_trans st1 st2 st3 :
  extends st1 st2 -> extends st2 st3 -> extends st1 st3.
Proof.
  intros (c1 & R1 & P1) (c2 & R2 & P2). exists (c1 ++ c2).
  rewrite R1, R2, P2, P1, length_app, <- app_assoc. split; [reflexivity | lia].
Qed.

Lemma extends_advance st x xs :
  Re.rest st = x :: xs -> extends st (Re.advance x xs st).
Proof. intros H. exists [x]. simpl. rewrite H. split; [reflexivity | lia]. Qed.

Lemma extends_pos st st' : extends st st' -> Re.pos st <= Re.pos st'.
Proof. intros (c & _ & ->). lia. Qed.

Lemma extends_rest st st' :
  extends st st' ->
  length (Re.rest st) = (Re.pos st' - Re.pos st) + length (Re.rest st').
Proof. intros (c & -> & ->). rewrite length_app. lia. Qed.

Lemma repeat_extends body lo hi k :
  (forall k st res,
      body k st = Some res -> exists st', extends st st' /\ k st' = Some res) ->
  forall fuel n st res,
    Re.repeat body lo hi k fuel n st = Some res ->
    exists st', extends st st' /\ k st' = Some res.
Proof.
  intros Hbody.
  induction fuel as [|fuel IHf]; intros n st res H; simpl in H.
  - destruct (lo <=? n); [|discriminate].
    exists st. split; [apply extends_refl | exact H].
  - assert (forall o, (if lo <=? n then k st else None) = Some o ->
                      exists st', extends st st' /\ k st' = Some o) as Hstop.
    { intros o Ho. destruct (lo <=? n); [|discriminate].
      exists st. split; [apply extends_refl | exact Ho]. }
    destruct (Re.below n hi); [|now apply Hstop].
    match type of H with
    | match ?b with _ => _ end = _ => destruct b as [res1|] eqn:E1
    end; [|now apply Hstop].
    injection H as <-.
    destruct (Hbody _ _ _ E1) as (st1 & X1 & H1).
    destruct (Re.pos st <? Re.pos st1); [|discriminate].
    destruct (IHf _ _ _ H1) as (st2 & X2 & H2).
    exists st2. split; [eapply extends_trans; eassumption | exact H2].
Qed.

(** A successful match reaches its continuation at a position further on
    in the text. *)
Lemma m_extends (r : Re.regex) :
  forall k st res,
    Re.m ic r k st = Some res ->
    exists st', extends st st' /\ k st' = Some res.
Proof.
  induction r as [| c | cl | | r1 IH1 r2 IH2 | r1 IH1 r2 IH2 | lo hi r IH | n r IH];
    intros k st res H; cbn [Re.m] in H.
  - exists st. split; [apply extends_refl | exact H].
  - destruct (Re.rest st) as [|x xs] eqn:E; [discriminate|].
    destruct (Re.lit_matches ic c x); [|discriminate].
    exists (Re.advance x xs st). split; [now apply extends_advance | exact H].
  - destruct (Re.rest st) as [|x xs] eqn:E; [discriminate|].
    destruct (Re.in_class cl x); [|discriminate].
    exists (Re.advance x xs st). split; [now apply extends_advance | exact H].
  - destruct (Re.at_boundary st); [|discriminate].
    exists st. split; [apply extends_refl | exact H].
  - destruct (IH1 _ _ _ H) as (st1 & E1 & H1).
    destruct (IH2 _ _ _ H1) as (st2 & E2 & H2).
    exists st2. split; [eapply extends_trans; eassumption | exact H2].
  - destruct (Re.m ic r1 k st) as [res1|] eqn:E1.
    + injection H as <-. now apply IH1.
    + now apply IH2.
  - eapply repeat_extends; [exact IH | exact H].
  - destruct (IH _ _ _ H) as (st1 & E1 & H1).
    exists (Re.set_cap n (Re.pos st) st1). split; [|exact H1].
    destruct E1 as (c & R & P). exists c. simpl. split; assumption.
Qed.

Lemma match_here_extends r st mt st' :
  Re.match_here ic r st = Some (mt, st') ->
  extends st st' /\ Re.m_start mt = Re.pos st /\ Re.m_end mt = Re.pos st'.
Proof.
  unfold Re.match_here. intros H.
  destruct (Re.m ic r Some _) as [res|] eqn:E; [|discriminate].
  injection H as <- <-.
  destruct (m_extends _ _ _ _ E) as (st1 & (c & R & P) & [= ->]).
  repeat split. exists c. simpl in R, P. split; assumption.
Qed.

(** Every match of a scan starts at or after the position of the scan. *)
Lemma scan_starts r fuel :
  forall st, Forall (fun mt => Re.pos st <= Re.m_start mt) (Re.scan fuel ic r st).
Proof.
  induction fuel as [|fuel IH]; intros st; simpl; [constructor|].
  assert (Forall (fun mt => Re.pos st <= Re.m_start mt)
            match Re.rest st with
            | [] => []
            | x :: xs => Re.scan fuel ic r (Re.advance x xs st)
            end) as Hnext.
  { destruct (Re.rest st) as [|x xs]; [constructor|].
    eapply Forall_impl; [apply IH|]. simpl. intros; lia. }
  destruct (Re.match_here ic r st) as [[mt st']|] eqn:E; [|exact Hnext].
  destruct (match_here_extends _ _ _ _ E) as (X & Hs & He).
  constructor; [lia|].
  destruct (Re.pos st <? Re.pos st') eqn:L; [|exact Hnext].
  apply Nat.ltb_lt in L.
  eapply Forall_impl; [apply IH|]. simpl. intros; lia.
Qed.

(** The matches of a scan come in the order of the text and do not
    overlap. *)
Lemma scan_ordered r fuel :
  forall st, StronglySorted precedes (Re.scan fuel ic r st).
Proof.
  induction fuel as [|fuel IH]; intros st; simpl; [constructor|].
  assert (StronglySorted precedes
            match Re.rest st with
            | [] => []
            | x :: xs => Re.scan fuel ic r (Re.advance x xs st)
            end) as Hnext.
  { destruct (Re.rest st) as [|x xs]; [constructor | apply IH]. }
  assert (Forall (fun mt => S (Re.pos st) <= Re.m_start mt)
            match Re.rest st with
            | [] => []
            | x :: xs => Re.scan fuel ic r (Re.advance x xs st)
            end) as Hafter.
  { destruct (Re.rest st) as [|x xs]; [constructor|].
    eapply Forall_impl; [apply scan_starts|]. simpl. intros; lia. }
  destruct (Re.match_here ic r st) as [[mt st']|] eqn:E; [|exact Hnext].
  destruct (match_here_extends _ _ _ _ E) as (X & Hs & He).
  destruct (Re.pos st <? Re.pos st') eqn:L.
  - apply Nat.ltb_lt in L. constructor; [apply IH|].
    eapply Forall_impl; [apply scan_starts|]. unfold precedes. simpl. intros; lia.
  - apply Nat.ltb_ge in L. apply extends_pos in X.
    constructor; [exact Hnext|].
    eapply Forall_impl; [exact Hafter|]. unfold precedes. simpl. intros; lia.
Qed.

(** The fuel of the scan is enough: more of it finds the same matches. *)
Lemma scan_fuel r fuel1 :
  forall fuel2 st,
    length (Re.rest st) < fuel1 -> length (Re.rest st) < fuel2 ->
    Re.scan fuel1 ic r st = Re.scan fuel2 ic r st.
Proof.
  induction fuel1 as [|fuel1 IH]; intros fuel2 st H1 H2; [lia|].
  destruct fuel2 as [|fuel2]; [lia|]. simpl.
  assert (match Re.rest st with
          | [] => []
          | x :: xs => Re.scan fuel1 ic r (Re.advance x xs st)
          end =
          match Re.rest st with
          | [] => []
          | x :: xs => Re.scan fuel2 ic r (Re.advance x xs st)
          end) as Hnext.
  { destruct (Re.rest st) as [|x xs] eqn:E; [reflexivity|].
    simpl in H1, H2. apply IH; simpl; lia. }
  rewrite Hnext.
  destruct (Re.match_here ic r st) as [[mt st']|] eqn:E; [|reflexivity].
  destruct (match_here_extends _ _ _ _ E) as (X & _ & _).
  destruct (Re.pos st <? Re.pos st') eqn:L; [|reflexivity].
  apply Nat.ltb_lt in L. apply extends_rest in X.
  f_equal. apply IH; lia.
Qed.

(** The matcher looks at its continuation only at positions further on. *)
Lemma repeat_ext body lo hi :
  (forall k1 k2 st,
      (forall st', extends st st' -> k1 st' = k2 st') -> body k1 st = body k2 st) ->
  forall fuel k1 k2 n st,
    (forall st', extends st st' -> k1 st' = k2 st') ->
    Re.repeat body lo hi k1 fuel n st = Re.repeat body lo hi k2 fuel n st.
Proof.
  intros Hbody.
  induction fuel as [|fuel IHf]; intros k1 k2 n st Hk; simpl;
    rewrite (Hk st (extends_refl st)); [reflexivity|].
  destruct (Re.below n hi); [|reflexivity].
  erewrite Hbody; [reflexivity|].
  intros st1 X1. simpl. destruct (Re.pos st <? Re.pos st1); [|reflexivity].
  apply IHf. intros st2 X2. apply Hk. eapply extends_trans; eassumption.
Qed.

Lemma m_ext (r : Re.regex) :
  forall k1 k2 st,
    (forall st', extends st st' -> k1 st' = k2 st') ->
    Re.m ic r k1 st = Re.m ic r k2 st.
Proof.
  induction r as [| c | cl | | r1 IH1 r2 IH2 | r1 IH1 r2 IH2 | lo hi r IH | n r IH];
    intros k1 k2 st Hk; cbn [Re.m].
  - apply Hk, extends_refl.
  - destruct (Re.rest st) as [|x xs] eqn:E; [reflexivity|].
    destruct (Re.lit_matches ic c x); [|reflexivity].
    now apply Hk, extends_advance.
  - destruct (Re.rest st) as [|x xs] eqn:E; [reflexivity|].
    destruct (Re.in_class cl x); [|reflexivity].
    now apply Hk, extends_advance.
  - destruct (Re.at_boundary st); [|reflexivity]. apply Hk, extends_refl.
  - apply IH1. intros st1 X1. apply IH2. intros st2 X2.
    apply Hk. eapply extends_trans; eassumption.
  - now rewrite (IH1 k1 k2 st Hk), (IH2 k1 k2 st Hk).
  - apply repeat_ext; assumption.
  - apply IH. intros st1 (c & R & P). apply Hk. exists c. simpl. split; assumption.
Qed.

(** The fuel of a repetition is enough: more of it gives the same match. *)
Lemma repeat_fuel body lo hi k :
  (forall k1 k2 st,
      (forall st', extends st st' -> k1 st' = k2 st') -> body k1 st = body k2 st) ->
  forall fuel1 fuel2 n st,
    length (Re.rest st) < fuel1 -> length (Re.rest st) < fuel2 ->
    Re.repeat body lo hi k fuel1 n st = Re.repeat body lo hi k fuel2 n st.
Proof.
  intros Hbody.
  induction fuel1 as [|fuel1 IH]; intros fuel2 n st H1 H2; [lia|].
  destruct fuel2 as [|fuel2]; [lia|]. simpl.
  destruct (Re.below n hi); [|reflexivity].
  erewrite Hbody; [reflexivity|].
  intros st1 X1. simpl. destruct (Re.pos st <? Re.pos st1) eqn:L; [|reflexivity].
  apply Nat.ltb_lt in L. apply extends_rest in X1. apply IH; lia.
Qed.

Lemma rep_fuel lo hi r k st fuel :
  length (Re.rest st) < fuel ->
  Re.m ic (Re.Rep lo hi r) k st = Re.repeat (Re.m ic r) lo hi k fuel 0 st.
Proof.
  intros H. cbn [Re.m]. apply repeat_fuel; [apply m_ext | lia | exact H].
Qed.

End Matcher.

Lemma finditer_ordered ic r text : StronglySorted precedes (Re.finditer ic r text).
Proof. apply scan_ordered. Qed.

Lemma finditer_fuel ic r text fuel :
  String.length text < fuel ->
  Re.finditer ic r text =
  Re.scan fuel ic r (Re.MState (list_ascii_of_string text) None 0 []).
Proof.
  intros H. unfold Re.finditer.
  assert (length (list_ascii_of_string text) = String.length text) as E.
  { clear H. induction text as [|c text IH]; simpl; [reflexivity | now rewrite IH]. }
  apply scan_fuel; simpl; lia.
Qed.

(** ** Numerical values *)

Section Extraction.

Variable text : string.

Lemma append_fact_app (acc : list NumericFact) (mt : Re.rmatch) :
  append_fact text acc mt = acc ++ fact_list text mt.
Proof.
  unfold append_fact, fact_list.
  destruct (fact_of_match text mt) as [e|fact]; simpl; [now rewrite app_nil_r | reflexivity].
Qed.

Lemma fold_append_fact (ms : list Re.rmatch) :
  forall acc, fold_left (append_fact text) ms acc = acc ++ flat_map (fact_list text) ms.
Proof.
  induction ms as [|mt ms IH]; intros acc; simpl; [now rewrite app_nil_r|].
  now rewrite IH, append_fact_app, <- app_assoc.
Qed.

Lemma facts_of_pattern_matches (pattern : Re.regex) :
  facts_of_pattern text pattern =
  flat_map (fact_list text) (matches_of_pattern text pattern).
Proof. unfold facts_of_pattern, facts_of_matches. now rewrite fold_append_fact. Qed.

Lemma fold_patterns (ps : list Re.regex) :
  forall acc,
    fold_left
      (fun numerical_values pattern =>
         fold_left (append_fact text) (Re.finditer true pattern text) numerical_values)
      ps acc
    = acc ++ flat_map (facts_of_pattern text) ps.
Proof.
  induction ps as [|p ps IH]; intros acc; simpl; [now rewrite app_nil_r|].
  rewrite IH, fold_append_fact, facts_of_pattern_matches, <- app_assoc. reflexivity.
Qed.

Lemma extract_by_pattern :
  _extract_numerical_values text = flat_map (facts_of_pattern text) patterns.
Proof. unfold _extract_numerical_values. now rewrite fold_patterns. Qed.

End Extraction.

(** The extraction on a sentence with every family of units. *)
Example extraction_of_a_report_line :
  map (fun fact => (value fact, unit fact, raw_text fact))
      (_extract_numerical_values
         "Emissions were 100 tCO2, 2.5e3 kwh or 12.5 % and 1,234,567.5 Metric Tons")
  = [(100%float, "tCO2", "100 tCO2");
     (567.5%float, "Metric Tons", "567.5 Metric Tons");
     (2500%float, "kwh", "2.5e3 kwh");
     (12.5%float, "%", "12.5 %");
     (100%float, "tCO2", "100 tCO2")].
Proof. vm_compute. reflexivity. Qed.

(** Years are whole tokens: "20234" and "x1999" have none. *)
Example years_of_a_question :
  Re.findall1 year_pattern "compare 2023 and 2023, 20234 x1999 1999." =
  ["2023"; "2023"; "1999"].
Proof. vm_compute. reflexivity. Qed.

Example entities_of_a_question :
  _extract_entities_from_question
    "Compare Shell and Saudi Aramco scope 2 emissions in 2023 vs 2022"
  = {| companies := ["Saudi Aramco"; "Shell"; "Aramco"];
       years := ["2023"; "2022"];
       emission_scope := "scope_2";
       keywords := ["emissions"] |}.
Proof. vm_compute. reflexivity. Qed.

(** C7, as the code has it.  The facts are listed pattern by pattern, in the
    order of the pattern list (mass and carbon units, energy units,
    percentages, comma-grouped numbers with mass units); the facts of one
    pattern are those of its matches, and these follow the text: each match
    starts after the start of the one before it and not before its end. *)
Theorem extract_numerical_values_order (text : string) :
  _extract_numerical_values text = flat_map (facts_of_pattern text) patterns /\
  forall pattern,
    facts_of_pattern text pattern =
      flat_map (fact_list text) (matches_of_pattern text pattern) /\
    StronglySorted precedes (matches_of_pattern text pattern).
Proof.
  split; [apply extract_by_pattern|].
  intros pattern. split; [apply facts_of_pattern_matches | apply finditer_ordered].
Qed.

(** C7 as stated fails: in "5 GWh and 3 tonnes" the energy fact stands
    first in the text (position 0) and the mass fact after it (position 10),
    and the mass fact comes first in the result. *)
Lemma extract_numerical_values_order_counterexample :
  map (fun fact => (value fact, unit fact, raw_text fact))
      (_extract_numerical_values "5 GWh and 3 tonnes")
  = [(3%float, "tonnes", "3 tonnes"); (5%float, "GWh", "5 GWh");
     (3%float, "tonnes", "3 tonnes")] /\
  map (fun mt => (Re.m_start mt, Re.group0 "5 GWh and 3 tonnes" mt))
      (matches_in_order "5 GWh and 3 tonnes")
  = [(10, "3 tonnes"); (0, "5 GWh"); (10, "3 tonnes")] /\
  positions_in_order "5 GWh and 3 tonnes" = [10; 0; 10].
Proof. vm_compute. repeat split. Qed.

(** C8 at "1,234 GWh": the only fact is 234 GWh, where the number with its
    separator removed is 1234. *)
Theorem grouped_number_with_energy_unit :
  _extract_numerical_values "1,234 GWh"
  = [{| value := 234; unit := "GWh"; raw_text := "234 GWh";
        context := "1,234 GWh" |}] /\
  PyFloat.float_of_string (PyStr.replace_char "," "" "1,234") = ret 1234%float /\
  _extract_numerical_values "1,234 tonnes"
  = [{| value := 234; unit := "tonnes"; raw_text := "234 tonnes";
        context := "1,234 tonnes" |};
     {| value := 1234; unit := "tonnes"; raw_text := "1,234 tonnes";
        context := "1,234 tonnes" |}].
Proof. vm_compute. repeat split. Qed.

(** C9.  In "3 tonnes" the first and the fourth pattern match the same span,
    and the result has the same fact twice. *)
Theorem overlapping_patterns_duplicate_facts :
  exists (text : string) (fact : NumericFact),
    _extract_numerical_values text = [fact; fact] /\
    value fact = 3%float /\ unit fact = "tonnes" /\ raw_text fact = text /\
    map (fun pattern => map span (matches_of_pattern text pattern)) patterns
    = [[(0, 8)]; []; []; [(0, 8)]].
Proof.
  exists "3 tonnes",
    {| value := 3; unit := "tonnes"; raw_text := "3 tonnes"; context := "3 tonnes" |}.
  vm_compute. repeat split.
Qed.

(** ** Comparison metrics *)

Section Floats.

Lemma prim_zero : Prim2SF 0%float = S754_zero false.
Proof. reflexivity. Qed.

(** Comparisons with zero, by the cases of the float compared. *)
Ltac against_zero x :=
  rewrite prim_zero;
  destruct (Prim2SF x) as [[|]|[|]| |[|] ? ?]; simpl;
  intros; try reflexivity; discriminate.

(** A float that is at most zero is not above zero. *)
Lemma float_le_zero_not_pos (x : float) :
  (x <=? 0)%float = true -> (0 <? x)%float = false.
Proof.
  rewrite FloatAxioms.leb_spec, FloatAxioms.ltb_spec. against_zero x.
Qed.

(** A float above zero is not a zero. *)
Lemma float_pos_nonzero (x : float) :
  (0 <? x)%float = true -> (x =? 0)%float = false.
Proof.
  rewrite FloatAxioms.eqb_spec, FloatAxioms.ltb_spec. against_zero x.
Qed.

Lemma truediv_pos (x y : float) :
  (0 <? y)%float = true -> PyFloat.truediv x y = ret (x / y)%float.
Proof. intros H. unfold PyFloat.truediv. now rewrite (float_pos_nonzero _ H). Qed.

End Floats.

Section Sorting.

Lemma insert_by_value_perm (x : Observation) (l : list Observation) :
  Permutation (insert_by_value x l) (x :: l).
Proof.
  induction l as [|y l IH]; simpl; [reflexivity|].
  destruct (o_value x <? o_value y)%float; [reflexivity|].
  rewrite IH. apply perm_swap.
Qed.

Lemma sort_ascending_perm (l : list Observation) :
  Permutation (sort_ascending l) l.
Proof.
  unfold sort_ascending.
  enough (forall acc, Permutation (fold_left (fun acc x => insert_by_value x acc) l acc)
                                  (acc ++ l)) as H by apply (H []).
  induction l as [|x l IH]; intros acc; simpl; [now rewrite app_nil_r|].
  rewrite IH, insert_by_value_perm. apply Permutation_middle.
Qed.

(** The sort keeps the observations: the same ones, as many. *)
Lemma sorted_reverse_perm (l : list Observation) :
  Permutation (sorted_reverse l) l.
Proof.
  unfold sorted_reverse.
  now rewrite <- Permutation_rev, sort_ascending_perm, <- Permutation_rev.
Qed.

Lemma sorted_reverse_length (l : list Observation) :
  length (sorted_reverse l) = length l.
Proof. apply Permutation_length, sorted_reverse_perm. Qed.

Lemma first_item_nonempty {A} (l : list A) :
  0 < length l -> exists x, first_item l = ret x /\ In x l.
Proof. destruct l as [|x l]; simpl; [lia|]. intros _. exists x. auto. Qed.

Lemma last_item_nonempty {A} (l : list A) :
  0 < length l -> exists x, last_item l = ret x /\ In x l.
Proof.
  intros H. unfold last_item.
  destruct (first_item_nonempty (rev l)) as (x & Hx & Hin).
  - now rewrite length_rev.
  - exists x. split; [exact Hx | now apply in_rev].
Qed.

End Sorting.

Section Metrics.

Lemma percentage_with_guard div (hi lo : Observation) :
  (0 <? o_value lo)%float = false -> percentage_with div hi lo = ret 0%float.
Proof. intros H. unfold percentage_with. now rewrite H. Qed.

Lemma percentage_of_pos (hi lo : Observation) :
  (0 <? o_value lo)%float = true ->
  percentage_of hi lo = ret ((o_value hi - o_value lo) / o_value lo * 100)%float.
Proof.
  intros H. unfold percentage_of, percentage_with.
  now rewrite H, (truediv_pos _ _ H).
Qed.

(** The conditional expression never raises. *)
Lemma percentage_of_total (hi lo : Observation) :
  exists pct, percentage_of hi lo = ret pct.
Proof.
  destruct (0 <? o_value lo)%float eqn:E.
  - eexists. now apply percentage_of_pos.
  - exists 0%float. now apply percentage_with_guard.
Qed.

Lemma compare_group_total nc unit values :
  exists nc', compare_group nc unit values = ret nc'.
Proof.
  unfold compare_group.
  destruct (2 <=? length values) eqn:L; [|now eexists].
  apply Nat.leb_le in L.
  destruct (first_item_nonempty (sorted_reverse values)) as (hi & -> & _);
    [rewrite sorted_reverse_length; lia|].
  destruct (last_item_nonempty (sorted_reverse values)) as (lo & -> & _);
    [rewrite sorted_reverse_length; lia|].
  rewrite !bind_ret.
  destruct (percentage_of_total hi lo) as (pct & ->).
  now eexists.
Qed.

Lemma compare_groups_total unit_groups :
  forall nc, exists nc', compare_groups nc unit_groups = ret nc'.
Proof.
  induction unit_groups as [|[unit values] gs IH]; intros nc; simpl; [now eexists|].
  destruct (compare_group_total nc unit values) as (nc1 & ->).
  rewrite bind_ret. apply IH.
Qed.

(** The metrics are computed without an exception, so without a division
    by zero. *)
Lemma calculate_comparison_metrics_total comparison_results :
  exists metrics, _calculate_comparison_metrics comparison_results = ret metrics.
Proof.
  unfold _calculate_comparison_metrics.
  destruct (length comparison_results <? 2); [now eexists|].
  destruct (compare_groups_total (unit_groups_of (all_values_of comparison_results)) [])
    as (nc & ->).
  now eexists.
Qed.

End Metrics.

Section FloatOrder.

Ltac compare_cases :=
  repeat match goal with
         | H : context [(?a ?= ?b)%Z] |- _ =>
             destruct (Z.compare_spec a b); try discriminate H
         | |- context [(?a ?= ?b)%Z] => destruct (Z.compare_spec a b)
         | H : context [PosDef.Pos.compare_cont Eq ?a ?b] |- _ =>
             change (PosDef.Pos.compare_cont Eq a b) with (Pos.compare a b) in *;
             destruct (Pos.compare_spec a b); try discriminate H
         | |- context [PosDef.Pos.compare_cont Eq ?a ?b] =>
             change (PosDef.Pos.compare_cont Eq a b) with (Pos.compare a b) in *;
             destruct (Pos.compare_spec a b)
         end.

Lemma sfleb_total (x y : spec_float) :
  x <> S754_nan -> y <> S754_nan -> SFltb x y = false -> SFleb y x = true.
Proof.
  unfold SFltb, SFleb, SFcompare. intros Hx Hy.
  destruct x as [sx|sx| |sx mx ex], y as [sy|sy| |sy my ey]; try congruence;
    repeat match goal with s : bool |- _ => destruct s end; cbn; try congruence;
    intros H; compare_cases; cbn in *; try reflexivity; try discriminate; try lia.
Qed.

Lemma sfleb_trans (x y z : spec_float) :
  SFleb x y = true -> SFleb y z = true -> SFleb x z = true.
Proof.
  unfold SFleb, SFcompare.
  destruct x as [sx|sx| |sx mx ex], y as [sy|sy| |sy my ey], z as [sz|sz| |sz mz ez];
    try discriminate;
    repeat match goal with s : bool |- _ => destruct s end; cbn; try congruence;
    intros H1 H2; compare_cases; cbn in *; try reflexivity; try discriminate; try lia.
Qed.

Lemma not_nan_spec (x : float) :
  PrimFloat.is_nan x = false -> Prim2SF x <> S754_nan.
Proof.
  unfold PrimFloat.is_nan. rewrite FloatAxioms.eqb_spec. intros H E.
  rewrite E in H. discriminate H.
Qed.

(** Without NaN the order of the floats is total. *)
Lemma float_leb_total (x y : float) :
  PrimFloat.is_nan x = false -> PrimFloat.is_nan y = false ->
  (x <? y)%float = false -> (y <=? x)%float = true.
Proof.
  intros Hx Hy. rewrite FloatAxioms.ltb_spec, FloatAxioms.leb_spec.
  apply sfleb_total; now apply not_nan_spec.
Qed.

Lemma float_leb_trans (x y z : float) :
  (x <=? y)%float = true -> (y <=? z)%float = true -> (x <=? z)%float = true.
Proof. rewrite !FloatAxioms.leb_spec. apply sfleb_trans. Qed.

Lemma float_ltb_leb (x y : float) :
  (x <? y)%float = true -> (x <=? y)%float = true.
Proof.
  rewrite FloatAxioms.ltb_spec, FloatAxioms.leb_spec. unfold SFltb, SFleb.
  destruct (SFcompare _ _) as [[]|]; congruence.
Qed.

Lemma float_leb_refl (x : float) :
  PrimFloat.is_nan x = false -> (x <=? x)%float = true.
Proof.
  intros H. apply float_leb_total; try exact H.
  rewrite FloatAxioms.ltb_spec. apply not_nan_spec in H. unfold SFltb, SFcompare.
  destruct (Prim2SF x) as [[]|[]| |[] m e]; try reflexivity; try congruence;
    rewrite Z.compare_refl;
    change (PosDef.Pos.compare_cont Eq m m) with (Pos.compare m m);
    now rewrite Pos.compare_refl.
Qed.

End FloatOrder.

Section SortedValues.

Lemma insert_by_value_sorted (x : Observation) (l : list Observation) :
  PrimFloat.is_nan (o_value x) = false -> no_nan l ->
  StronglySorted value_le l -> StronglySorted value_le (insert_by_value x l).
Proof.
  intros Hx Hl Hs. induction Hs as [|y l Hs IH Hy]; cbn [insert_by_value].
  - constructor; constructor.
  - apply Forall_cons in Hl as [Ny Nl].
    destruct (o_value x <? o_value y)%float eqn:E.
    + apply float_ltb_leb in E. constructor; [now constructor|].
      constructor; [exact E|].
      eapply List.Forall_impl; [|exact Hy]. intros o Ho.
      eapply float_leb_trans; [exact E | exact Ho].
    + constructor; [now apply IH|].
      assert (Forall (value_le y) (x :: l)) as F
        by (constructor; [now apply float_leb_total | exact Hy]).
      rewrite List.Forall_forall in *. intros o Ho. apply F.
      apply (Permutation_in _ (insert_by_value_perm x l)), Ho.
Qed.

Lemma sort_ascending_sorted (l : list Observation) :
  no_nan l -> StronglySorted value_le (sort_ascending l).
Proof.
  unfold sort_ascending.
  enough (forall acc, no_nan acc -> StronglySorted value_le acc -> no_nan l ->
                      StronglySorted value_le
                        (fold_left (fun acc x => insert_by_value x acc) l acc)) as H
    by (apply H; constructor).
  induction l as [|x l IH]; intros acc Na Sa Nl; cbn [fold_left]; [exact Sa|].
  apply Forall_cons in Nl as [Nx Nl]. apply IH; [|now apply insert_by_value_sorted|exact Nl].
  unfold no_nan in *. rewrite List.Forall_forall in *. intros o Ho.
  apply (Permutation_in _ (insert_by_value_perm x acc)) in Ho.
  destruct Ho as [<-|Ho]; [exact Nx | now apply Na].
Qed.

Lemma sorted_first_least (x : Observation) (l : list Observation) :
  no_nan (x :: l) -> StronglySorted value_le (x :: l) -> Forall (value_le x) (x :: l).
Proof.
  intros N S. apply Forall_cons in N as [Nx _]. apply StronglySorted_inv in S as [_ F].
  constructor; [now apply float_leb_refl | exact F].
Qed.

Lemma sorted_last_greatest (l : list Observation) (x : Observation) :
  no_nan (l ++ [x]) -> StronglySorted value_le (l ++ [x]) ->
  Forall (fun o => value_le o x) (l ++ [x]).
Proof.
  intros N S. induction l as [|y l IH]; cbn [app] in *.
  - constructor; [|constructor]. apply Forall_cons in N as [Nx _].
    now apply float_leb_refl.
  - apply Forall_cons in N as [Ny N]. apply StronglySorted_inv in S as [S F].
    constructor; [|now apply IH].
    rewrite List.Forall_forall in F. apply F, in_or_app. right. now left.
Qed.

(** The first of the sorted group is a greatest value of the group and the
    last a least one, when no value is a NaN. *)
Lemma sorted_reverse_extremes (values : list Observation) (hi lo : Observation) :
  no_nan values ->
  first_item (sorted_reverse values) = ret hi ->
  last_item (sorted_reverse values) = ret lo ->
  Forall (fun o => value_le lo o /\ value_le o hi) values.
Proof.
  intros N Hhi Hlo. unfold last_item, sorted_reverse in *. rewrite rev_involutive in Hlo.
  set (s := sort_ascending (rev values)) in *.
  assert (P : Permutation s values)
    by (unfold s; rewrite sort_ascending_perm; symmetry; apply Permutation_rev).
  assert (Ns : no_nan s).
  { unfold no_nan in *. rewrite List.Forall_forall in *. intros o Ho. apply N.
    now apply (Permutation_in _ P). }
  assert (S : StronglySorted value_le s).
  { apply sort_ascending_sorted. unfold no_nan in *. rewrite List.Forall_forall in *.
    intros o Ho. apply N. now apply in_rev. }
  assert (Flo : Forall (value_le lo) s).
  { destruct s as [|x s']; [discriminate Hlo|]. injection Hlo as ->.
    now apply sorted_first_least. }
  assert (Fhi : Forall (fun o => value_le o hi) s).
  { destruct (rev s) as [|x r] eqn:R; [discriminate Hhi|]. injection Hhi as ->.
    assert (s = rev r ++ [hi]) as E
      by (rewrite <- (rev_involutive s), R; reflexivity).
    rewrite E in *. now apply sorted_last_greatest. }
  rewrite List.Forall_forall in *. intros o Ho.
  apply (Permutation_in _ (Permutation_sym P)) in Ho. split; [now apply Flo | now apply Fhi].
Qed.

End SortedValues.

Section UnitGroups.

Lemma first_occurrences_in (x : string) (l : list string) :
  In x (first_occurrences l) <-> In x l.
Proof.
  induction l as [|y l IH]; cbn [first_occurrences In]; [tauto|].
  rewrite List.filter_In, IH. destruct (String.eqb_spec x y) as [->|Hne]; cbn [negb].
  - split; auto.
  - split; [intros [E|[H _]]; auto | intros [E|H]; auto].
Qed.

Lemma list_filter_nodup {A} (f : A -> bool) (l : list A) :
  NoDup l -> NoDup (List.filter f l).
Proof.
  induction 1 as [|x l Hx Hl IH]; cbn [List.filter]; [constructor|].
  destruct (f x); [|exact IH]. constructor; [|exact IH].
  intros H. apply Hx, list_elem_of_In.
  apply list_elem_of_In, List.filter_In in H. tauto.
Qed.

Lemma first_occurrences_nodup (l : list string) : NoDup (first_occurrences l).
Proof.
  induction l as [|x l IH]; cbn [first_occurrences]; [constructor|].
  constructor; [|now apply list_filter_nodup].
  intros [_ H]%list_elem_of_In%List.filter_In. now rewrite String.eqb_refl in H.
Qed.

Lemma first_occurrences_snoc (l : list string) (x : string) :
  first_occurrences (l ++ [x]) =
  first_occurrences l ++ (if existsb (String.eqb x) l then [] else [x]).
Proof.
  induction l as [|y l IH]; cbn [first_occurrences app existsb]; [reflexivity|].
  rewrite IH, List.filter_app. f_equal.
  destruct (String.eqb_spec x y) as [->|Hne]; cbn [orb].
  - rewrite app_nil_r.
    destruct (existsb (String.eqb y) l); cbn [List.filter];
      [|rewrite String.eqb_refl; cbn [negb]]; now rewrite app_nil_r.
  - destruct (existsb (String.eqb x) l); cbn [List.filter]; [reflexivity|].
    destruct (String.eqb_spec x y); [contradiction | reflexivity].
Qed.

Lemma existsb_first_occurrences (x : string) (l : list string) :
  existsb (String.eqb x) (first_occurrences l) = existsb (String.eqb x) l.
Proof.
  apply eq_true_iff_eq. rewrite !existsb_exists.
  split; intros (y & Hy & E); exists y; (split; [|exact E]);
    now apply first_occurrences_in.
Qed.

(** [group_append] on groups given by their keys. *)
Lemma group_append_map (k : string) (v : Observation)
    (F : string -> list Observation) (us : list string) :
  NoDup us ->
  group_append k v (map (fun u => (u, F u)) us) =
  map (fun u => (u, if String.eqb u k then F u ++ [v] else F u)) us
    ++ (if existsb (String.eqb k) us then [] else [(k, [v])]).
Proof.
  induction 1 as [|u us Hu Hnd IH]; cbn [map group_append existsb app]; [reflexivity|].
  destruct (String.eqb_spec u k) as [->|Hne].
  - rewrite String.eqb_refl. cbn [orb]. rewrite app_nil_r. f_equal.
    apply map_ext_in. intros u Hin.
    destruct (String.eqb_spec u k) as [->|_]; [|reflexivity].
    exfalso. apply Hu. now apply list_elem_of_In.
  - rewrite IH. destruct (String.eqb_spec k u); [congruence|]. reflexivity.
Qed.

Lemma filter_absent_unit (k : string) (done : list Observation) :
  existsb (String.eqb k) (map (fun o => PyStr.lower (o_unit o)) done) = false ->
  List.filter (fun o => String.eqb (PyStr.lower (o_unit o)) k) done = [].
Proof.
  induction done as [|o done IH]; cbn [map existsb List.filter]; [reflexivity|].
  intros [E1 E2]%orb_false_iff. rewrite String.eqb_sym, E1. now apply IH.
Qed.

(** The dictionary [unit_groups] after the values [done]: its keys are the
    units in the order in which they first occur, and the group of a unit
    has the values of this unit, in their order. *)
Lemma unit_groups_fold (rest : list Observation) :
  forall done,
    fold_left (fun unit_groups val =>
                 group_append (PyStr.lower (o_unit val)) val unit_groups)
              rest
              (map (fun u => (u, List.filter
                                   (fun o => String.eqb (PyStr.lower (o_unit o)) u) done))
                   (first_occurrences (map (fun o => PyStr.lower (o_unit o)) done)))
    = map (fun u => (u, List.filter
                          (fun o => String.eqb (PyStr.lower (o_unit o)) u) (done ++ rest)))
          (first_occurrences (map (fun o => PyStr.lower (o_unit o)) (done ++ rest))).
Proof.
  induction rest as [|v rest IH]; intros done; cbn [fold_left].
  - now rewrite app_nil_r.
  - replace (done ++ v :: rest) with ((done ++ [v]) ++ rest)
      by (rewrite <- app_assoc; reflexivity).
    rewrite <- IH. f_equal.
    rewrite group_append_map by apply first_occurrences_nodup.
    rewrite map_app. cbn [map]. rewrite first_occurrences_snoc, map_app.
    rewrite existsb_first_occurrences. f_equal.
    + apply map_ext_in. intros u _. f_equal.
      rewrite List.filter_app. cbn [List.filter].
      rewrite (String.eqb_sym u).
      destruct (String.eqb (PyStr.lower (o_unit v)) u); [reflexivity | now rewrite app_nil_r].
    + destruct (existsb (String.eqb (PyStr.lower (o_unit v)))
                  (map (fun o => PyStr.lower (o_unit o)) done)) eqn:E; [reflexivity|].
      cbn [map]. f_equal. f_equal.
      rewrite List.filter_app. cbn [List.filter]. rewrite String.eqb_refl.
      now rewrite (filter_absent_unit _ _ E).
Qed.

Lemma unit_groups_spec (all_values : list Observation) :
  unit_groups_of all_values =
  map (fun u => (u, List.filter
                      (fun o => String.eqb (PyStr.lower (o_unit o)) u) all_values))
      (first_occurrences (map (fun o => PyStr.lower (o_unit o)) all_values)).
Proof. apply (unit_groups_fold all_values []). Qed.

Lemma all_values_facts (points : list ComparisonPoint) :
  all_values_of points = map observation_of (facts_of_points points).
Proof.
  unfold all_values_of, facts_of_points.
  induction points as [|p points IH]; cbn [flat_map map]; [reflexivity|].
  rewrite map_app, IH, map_map. reflexivity.
Qed.

(** The unit groups of the points: one for each unit, in the order in which
    the units first occur, with the facts of this unit. *)
Lemma unit_groups_of_points (points : list ComparisonPoint) :
  unit_groups_of (all_values_of points) =
  map (fun u => (u, map observation_of (facts_with_unit u points)))
      (first_occurrences (units_of points)).
Proof.
  rewrite unit_groups_spec, all_values_facts, map_map.
  apply map_ext. intros u. f_equal. unfold facts_with_unit.
  now rewrite List.filter_map_swap.
Qed.

End UnitGroups.


Section GroupComparisons.

Lemma compare_group_spec nc unit values :
  exists nc',
    compare_group nc unit values = ret nc' /\
    ((length values < 2 /\ nc' = nc) \/
     (2 <= length values /\
      exists c, nc' = nc ++ [c] /\ m_unit c = unit /\ comparison_of_values values c)).
Proof.
  unfold compare_group.
  destruct (Nat.leb_spec 2 (length values)) as [L|L]; [|exists nc; auto].
  destruct (first_item_nonempty (sorted_reverse values)) as (hi & Hhi & Ihi);
    [rewrite sorted_reverse_length; lia|].
  destruct (last_item_nonempty (sorted_reverse values)) as (lo & Hlo & Ilo);
    [rewrite sorted_reverse_length; lia|].
  rewrite Hhi, Hlo, !bind_ret.
  destruct (percentage_of_total hi lo) as (pct & Hpct). rewrite Hpct, bind_ret.
  eexists. split; [reflexivity|]. right. split; [exact L|].
  eexists. split; [reflexivity|]. split; [reflexivity|].
  assert (forall o, In o (sorted_reverse values) -> In o values) as Hin
    by (intros o; apply Permutation_in, sorted_reverse_perm).
  exists hi, lo. cbn [highest lowest difference percentage_difference].
  split; [auto|]. split; [auto|]. split; [reflexivity|]. split; [reflexivity|].
  split; [reflexivity|]. split; [|split].
  - intros N. now apply sorted_reverse_extremes.
  - intros Hpos. rewrite (percentage_of_pos _ _ Hpos) in Hpct. now injection Hpct.
  - intros Hle. apply float_le_zero_not_pos in Hle. split.
    + unfold percentage_of in Hpct. rewrite (percentage_with_guard _ _ _ Hle) in Hpct.
      now injection Hpct.
    + intros div. now apply percentage_with_guard.
Qed.

Lemma compare_groups_spec groups :
  forall nc,
    exists added,
      compare_groups nc groups = ret (nc ++ added) /\
      Forall2 (fun c g => m_unit c = fst g /\ comparison_of_values (snd g) c)
              added (List.filter (fun g => 2 <=? length (snd g)) groups).
Proof.
  induction groups as [|[unit values] groups IH]; intros nc;
    cbn [compare_groups List.filter snd].
  - exists []. rewrite app_nil_r. split; [reflexivity | constructor].
  - destruct (compare_group_spec nc unit values)
      as (nc1 & -> & [[L ->]|(L & c & -> & U & C)]); rewrite bind_ret.
    + destruct (IH nc) as (added & -> & F). exists added.
      apply Nat.leb_gt in L. rewrite L. auto.
    + destruct (IH (nc ++ [c])) as (added & -> & F). exists (c :: added).
      apply Nat.leb_le in L. rewrite L, <- app_assoc. split; [reflexivity|].
      constructor; [now split | exact F].
Qed.

(** The comparisons of the metrics: one for each unit that has two or more
    facts, in the order in which the units first occur, each made of the
    facts of its unit. *)
Lemma metrics_by_unit (points : list ComparisonPoint) :
  2 <= length points ->
  exists comparisons,
    _calculate_comparison_metrics points =
      ret (MetricsOk (length points) comparisons (summary_of comparisons)) /\
    Forall2 (fun c u => m_unit c = u /\
                        comparison_of_values
                          (map observation_of (facts_with_unit u points)) c)
            comparisons
            (List.filter (fun u => 2 <=? length (facts_with_unit u points))
                         (first_occurrences (units_of points))).
Proof.
  intros L. unfold _calculate_comparison_metrics.
  apply Nat.ltb_ge in L. rewrite L. rewrite unit_groups_of_points.
  destruct (compare_groups_spec
              (map (fun u => (u, map observation_of (facts_with_unit u points)))
                   (first_occurrences (units_of points))) [])
    as (comparisons & -> & F).
  cbn [app]. rewrite bind_ret. exists comparisons. split; [reflexivity|].
  rewrite List.filter_map_swap in F. cbn [snd] in F.
  apply Forall2_fmap_r in F. cbn [fst snd] in F.
  erewrite List.filter_ext; [exact F|].
  intros u. cbn beta. now rewrite length_map.
Qed.

Lemma in_facts_with_unit (u : string) (points : list ComparisonPoint)
    (pf : ComparisonPoint * NumericFact) :
  In pf (facts_with_unit u points) <->
  In pf.1 points /\ In pf.2 (c_numerical_values pf.1) /\ PyStr.lower (unit pf.2) = u.
Proof.
  unfold facts_with_unit, facts_of_points.
  rewrite List.filter_In, in_flat_map, String.eqb_eq. split.
  - intros [(p & Hp & Hin) E]. apply in_map_iff in Hin as (f & <- & Hf). auto.
  - intros (Hp & Hf & E). split; [|exact E]. exists pf.1. split; [exact Hp|].
    apply in_map_iff. exists pf.2. split; [now destruct pf | exact Hf].
Qed.

(** A unit with a fact is among the units. *)
Lemma unit_of_fact (u : string) (points : list ComparisonPoint) :
  0 < length (facts_with_unit u points) -> In u (first_occurrences (units_of points)).
Proof.
  intros L. apply first_occurrences_in. unfold units_of.
  destruct (facts_with_unit u points) as [|pf l] eqn:E; [cbn in L; lia|].
  assert (In pf (facts_with_unit u points)) as H by (rewrite E; now left).
  unfold facts_with_unit in H. apply List.filter_In in H as [H U].
  apply String.eqb_eq in U. apply in_map_iff. now exists pf.
Qed.

(** From the observations of a unit back to the facts of the points. *)
Lemma comparison_of_facts (points : list ComparisonPoint) (c : Comparison) :
  comparison_of_values (map observation_of (facts_with_unit (m_unit c) points)) c ->
  exists hi lo,
    extremes_of_unit points c hi lo /\
    ((0 <? value lo.2)%float = true ->
       percentage_difference c =
         ((value hi.2 - value lo.2) / value lo.2 * 100)%float) /\
    ((value lo.2 <=? 0)%float = true ->
       percentage_difference c = 0%float /\
       forall div, percentage_with div (observation_of hi) (observation_of lo)
                   = ret 0%float).
Proof.
  intros (ohi & olo & Ihi & Ilo & Hh & Hl & Hd & Hb & Hp & Hz).
  apply in_map_iff in Ihi as (hi & <- & Ihi). apply in_map_iff in Ilo as (lo & <- & Ilo).
  exists hi, lo. split; [|split; [exact Hp | exact Hz]].
  unfold extremes_of_unit. cbv zeta.
  split; [exact Ihi|]. split; [exact Ilo|]. split; [exact Hh|]. split; [exact Hl|].
  split; [exact Hd|]. intros N.
  assert (no_nan (map observation_of (facts_with_unit (m_unit c) points))) as N'.
  { unfold no_nan. apply List.Forall_map. exact N. }
  specialize (Hb N'). apply List.Forall_map in Hb. exact Hb.
Qed.

End GroupComparisons.

(** C6.  In the metrics of two or more points, every unit that has two or
    more facts (units compared in lower case) has a comparison.  Its
    ["highest"] and ["lowest"] are facts of this unit, and when no value of
    the unit is a NaN every value of the unit lies between them, so the
    lowest is a least value.  Its [percentage_difference] is
    (highest - lowest) / lowest * 100 when the lowest value is above zero,
    and 0 when the lowest value is at most zero; in that case the division
    is not reached: the expression gives 0 whatever the division does, even
    for a division that raises on every input. *)
Theorem percentage_difference_guarded (comparison_results : list ComparisonPoint)
    (u : string) :
  2 <= length comparison_results ->
  2 <= length (facts_with_unit u comparison_results) ->
  exists comparisons summary c hi lo,
    _calculate_comparison_metrics comparison_results =
      ret (MetricsOk (length comparison_results) comparisons summary) /\
    In c comparisons /\ m_unit c = u /\
    extremes_of_unit comparison_results c hi lo /\
    ((0 <? value lo.2)%float = true ->
       percentage_difference c =
         ((value hi.2 - value lo.2) / value lo.2 * 100)%float) /\
    ((value lo.2 <=? 0)%float = true ->
       percentage_difference c = 0%float /\
       forall div, percentage_with div (observation_of hi) (observation_of lo)
                   = ret 0%float).
Proof.
  intros L Lu.
  destruct (metrics_by_unit comparison_results L) as (comparisons & E & F).
  assert (In u (List.filter (fun u => 2 <=? length (facts_with_unit u comparison_results))
                            (first_occurrences (units_of comparison_results)))) as Hu.
  { apply List.filter_In. split; [apply unit_of_fact; lia | now apply Nat.leb_le]. }
  assert (exists c, In c comparisons /\ m_unit c = u /\
                    comparison_of_values
                      (map observation_of (facts_with_unit u comparison_results)) c)
    as (c & Hc & Uc & Cc).
  { clear E. induction F as [|c u' cs us [Hcu Hcv] F IH]; [contradiction|].
    destruct Hu as [->|Hu].
    - exists c. split; [now left | now split].
    - destruct (IH Hu) as (c' & Hin & H). exists c'. split; [now right | exact H]. }
  rewrite <- Uc in Cc. destruct (comparison_of_facts _ _ Cc) as (hi & lo & X & Hp & Hz).
  exists comparisons, (summary_of comparisons), c, hi, lo. auto 10.
Qed.

(** The points of Chevron (8 tCO2, 5 GWh) and Shell (12 tco2). *)
Lemma percentage_difference_guarded_witness :
  exists comparisons summary c hi lo,
    _calculate_comparison_metrics Example3.points =
      ret (MetricsOk (length Example3.points) comparisons summary) /\
    In c comparisons /\ m_unit c = "tco2" /\
    extremes_of_unit Example3.points c hi lo /\
    ((0 <? value lo.2)%float = true ->
       percentage_difference c =
         ((value hi.2 - value lo.2) / value lo.2 * 100)%float) /\
    ((value lo.2 <=? 0)%float = true ->
       percentage_difference c = 0%float /\
       forall div, percentage_with div (observation_of hi) (observation_of lo)
                   = ret 0%float).
Proof.
  apply (percentage_difference_guarded Example3.points "tco2").
  - vm_compute. lia.
  - vm_compute. lia.
Defined.

(** The examples of the specification: 12 and 8 differ by 4, which is 50
    percent of 8; with a lowest value of 0 the percentage is 0, where the
    division itself raises. *)
Example metrics_of_12_and_8 :
  compare_group [] "tco2" [Example.observation 8 "Chevron"; Example.observation 12 "Shell"]
  = ret [{| m_unit := "tco2";
            highest := {| e_value := 12; e_company := "Shell"; e_year := VStr "Unknown" |};
            lowest := {| e_value := 8; e_company := "Chevron"; e_year := VStr "Unknown" |};
            difference := 4;
            percentage_difference := 50 |}].
Proof. vm_compute. reflexivity. Qed.

Example metrics_of_12_and_0 :
  compare_group [] "tco2" [Example.observation 12 "Shell"; Example.observation 0 "Chevron"]
  = ret [{| m_unit := "tco2";
            highest := {| e_value := 12; e_company := "Shell"; e_year := VStr "Unknown" |};
            lowest := {| e_value := 0; e_company := "Chevron"; e_year := VStr "Unknown" |};
            difference := 12;
            percentage_difference := 0 |}] /\
  PyFloat.truediv 12 0 = raise (Exception "ZeroDivisionError" "float division by zero").
Proof. vm_compute. split; reflexivity. Qed.

(** ** The comparison path *)

Section Comparison.

Variable self : RetrievalAndFiltering.

Lemma handle_comparison_unfold question :
  _handle_comparison_question self question =
  let entities := _extract_entities_from_question question in
  if (length (companies entities) <? 2) && (length (years entities) <? 2) then
    RComparisonError question
      "Comparison requires at least 2 companies or 2 years" (Some entities)
  else
    try_except
      (let! comparison_metrics :=
         _calculate_comparison_metrics (comparison_points self question) in
       ret (RComparison question
              (if 2 <=? length (companies entities) then "company" else "year")
              (comparison_points self question) comparison_metrics entities))
      (fun e =>
         RComparisonError question
           ("Error in comparison handling: " ++ exn_str e)%string None).
Proof.
  unfold _handle_comparison_question, comparison_points. cbv zeta.
  destruct (_ && _); reflexivity.
Qed.

(** With too few entities the handler returns the error record. *)
Lemma handle_comparison_insufficient question :
  let entities := _extract_entities_from_question question in
  length (companies entities) < 2 -> length (years entities) < 2 ->
  _handle_comparison_question self question =
  RComparisonError question
    "Comparison requires at least 2 companies or 2 years" (Some entities).
Proof.
  intros entities Hc Hy. rewrite handle_comparison_unfold. cbv zeta. fold entities.
  apply Nat.ltb_lt in Hc, Hy. now rewrite Hc, Hy.
Qed.

(** With enough entities the handler returns the comparison record. *)
Lemma handle_comparison_sufficient question :
  let entities := _extract_entities_from_question question in
  2 <= length (companies entities) \/ 2 <= length (years entities) ->
  exists metrics,
    _calculate_comparison_metrics (comparison_points self question) = ret metrics /\
    _handle_comparison_question self question =
    RComparison question
      (if 2 <=? length (companies entities) then "company" else "year")
      (comparison_points self question) metrics entities.
Proof.
  intros entities H. rewrite handle_comparison_unfold. cbv zeta. fold entities.
  replace ((length (companies entities) <? 2) && (length (years entities) <? 2))
    with false.
  - destruct (calculate_comparison_metrics_total (comparison_points self question))
      as (metrics & Hm).
    exists metrics. split; [exact Hm|]. now rewrite Hm.
  - symmetry. apply andb_false_iff.
    destruct H as [H|H]; [left|right]; apply Nat.ltb_ge; exact H.
Qed.

End Comparison.

(** C5, as the code has it.  When the extracted entities have fewer than two
    distinct organizations and fewer than two year mentions (the list of
    years as extracted, repeated years counted each time), the comparison
    handler returns the insufficient-entities error record, whatever the
    store holds. *)
Theorem comparison_needs_two_entities (self : RetrievalAndFiltering)
    (question : string) :
  let entities := _extract_entities_from_question question in
  distinct_count (companies entities) < 2 ->
  length (years entities) < 2 ->
  _handle_comparison_question self question =
  RComparisonError question
    "Comparison requires at least 2 companies or 2 years" (Some entities).
Proof.
  intros entities Hc Hy. apply handle_comparison_insufficient; [|exact Hy].
  fold entities. unfold entities in *.
  now rewrite <- (distinct_count_nodup _ (companies_nodup question)).
Qed.

(** A comparison question about one organization and one year. *)
Lemma comparison_needs_two_entities_witness :
  _is_comparison_question "Compare Shell emissions in 2023" = true /\
  _handle_comparison_question (Example.engine None) "Compare Shell emissions in 2023" =
  RComparisonError "Compare Shell emissions in 2023"
    "Comparison requires at least 2 companies or 2 years"
    (Some (_extract_entities_from_question "Compare Shell emissions in 2023")).
Proof.
  split; [vm_compute; reflexivity|].
  apply (comparison_needs_two_entities (Example.engine None)
           "Compare Shell emissions in 2023");
    vm_compute; lia.
Defined.

(** C5 as stated fails: "compare 2023 and 2023" is classified as a
    comparison, names no organization and one distinct year, mentioned
    twice; the handler returns a comparison record with no point, not the
    error record. *)
Lemma comparison_needs_two_entities_counterexample :
  _is_comparison_question "compare 2023 and 2023" = true /\
  distinct_count (companies (_extract_entities_from_question "compare 2023 and 2023")) = 0 /\
  distinct_count (years (_extract_entities_from_question "compare 2023 and 2023")) = 1 /\
  years (_extract_entities_from_question "compare 2023 and 2023") = ["2023"; "2023"] /\
  _handle_comparison_question (Example.engine None) "compare 2023 and 2023" =
  RComparison "compare 2023 and 2023" "year" []
    (MetricsError "Need at least 2 results for comparison")
    (_extract_entities_from_question "compare 2023 and 2023").
Proof. vm_compute. repeat split. Qed.

(** With one organization the repeated year is retrieved twice: two points
    for the same organization and year. *)
Example repeated_year_is_compared_with_itself :
  match _handle_comparison_question (Example.engine None) "Shell in 2023 and 2023" with
  | RComparison _ kind points _ _ =>
      (kind, map (fun p => (c_company p, c_year p)) points)
  | _ => ("", [])
  end = ("year", [("Shell", VStr "2023"); ("Shell", VStr "2023")]).
Proof. vm_compute. reflexivity. Qed.

(** ** The standard path *)

Section Standard.

Variable self : RetrievalAndFiltering.

(** Without a pipeline the local [qa_result] is never assigned: reading
    it raises, and the passage gives no answer. *)
Lemma answer_of_without_pipeline question result :
  qa_pipeline self = None ->
  exists e, answer_of self question result = raise e.
Proof. intros H. unfold answer_of. rewrite H. now eexists. Qed.

Lemma answer_step_without_pipeline question answers result :
  qa_pipeline self = None ->
  answer_step self question answers result = answers.
Proof.
  intros H. unfold answer_step.
  destruct (answer_of_without_pipeline question result H) as (e & ->).
  reflexivity.
Qed.

Lemma answers_without_pipeline question results :
  qa_pipeline self = None ->
  forall answers, fold_left (answer_step self question) results answers = answers.
Proof.
  intros H. induction results as [|result results IH]; intros answers; simpl;
    [reflexivity|].
  now rewrite answer_step_without_pipeline, IH.
Qed.

(** Without a pipeline the standard path returns no answer record, however
    many passages were retrieved. *)
Lemma handle_standard_without_pipeline question top_k :
  qa_pipeline self = None ->
  let entities := _extract_entities_from_question question in
  let filters := _build_metadata_filters entities in
  let results := query_vectorstore (vector_manager self) question top_k filters in
  _handle_standard_question self question top_k =
  if nonempty results
  then RAnswers question [] entities filters (length results)
  else RNoResults question "No relevant information found in the knowledge base"
                  entities filters 0.
Proof.
  intros H entities filters results. unfold _handle_standard_question.
  fold entities. fold filters. fold results.
  destruct (nonempty results); simpl; [|reflexivity].
  now rewrite answers_without_pipeline.
Qed.

Lemma handle_standard_shape question top_k :
  exists entities filters,
    (exists answer, _handle_standard_question self question top_k =
                    RNoResults question answer entities filters 0) \/
    (exists answers total, _handle_standard_question self question top_k =
                           RAnswers question answers entities filters total).
Proof.
  unfold _handle_standard_question.
  do 2 eexists.
  destruct (nonempty _); simpl; [right | left]; eauto.
Qed.

End Standard.

(** C3 at a question of the standard path, over a store that returns two
    passages, without a pipeline: the record has no answer at all, where the
    claim has two answers of confidence 0.5. *)
Theorem no_pipeline_no_answers :
  qa_pipeline (Example.engine None) = None /\
  _is_comparison_question "What are the emissions" = false /\
  query_vectorstore (vector_manager (Example.engine None)) "What are the emissions" 5
    (_build_metadata_filters (_extract_entities_from_question "What are the emissions"))
  = Example.corpus /\
  answer_question (Example.engine None) "What are the emissions" 5 =
  RAnswers "What are the emissions" []
    (_extract_entities_from_question "What are the emissions")
    (_build_metadata_filters (_extract_entities_from_question "What are the emissions"))
    2.
Proof. vm_compute. repeat split. Qed.

(** The fallback is reached when a pipeline is there and returns a single
    dictionary: then each passage has an answer of confidence 0.5. *)
Example fallback_with_pipeline :
  let pipeline := fun _ _ => ret (QAOne {| qa_answer := Some "80"; qa_score := Some 1%float |}) in
  match answer_question (Example.engine (Some pipeline)) "What are the emissions" 5 with
  | RAnswers _ answers _ _ _ => map (fun a => (a_answer a, a_confidence a)) answers
  | _ => []
  end = [("Scope 1 emissions were 100 tCO2", 0.5%float);
         ("Scope 1 emissions were 80 tCO2", 0.5%float)].
Proof. vm_compute. reflexivity. Qed.

(** ** answer_question *)

Section Contained.

Variable self : RetrievalAndFiltering.

(** A store whose every search raises gives no passage: the exception is
    caught in [query_vectorstore]. *)
Lemma query_of_raising_store (store : VectorStore) :
  vectorstore (vector_manager self) = Some store ->
  (forall query k filters, exists e, similarity_search store query k filters = raise e) ->
  forall query k filters, query_vectorstore (vector_manager self) query k filters = [].
Proof.
  intros Hs Hraise query k filters. unfold query_vectorstore. rewrite Hs.
  destruct (bool_decide _);
    match goal with
    | |- context [similarity_search store ?q ?n ?f] =>
        destruct (Hraise q n f) as (e & ->)
    end; reflexivity.
Qed.

Lemma no_passage_no_point question :
  (forall query k filters, query_vectorstore (vector_manager self) query k filters = []) ->
  comparison_points self question = [].
Proof.
  intros Hq. unfold comparison_points. cbv zeta.
  assert (forall ys scope cs acc,
            fold_left (company_step self ys scope) cs acc = acc) as Hc.
  { intros ys scope cs. induction cs as [|c cs IH]; intros acc; cbn [fold_left];
      [reflexivity|].
    rewrite IH. unfold company_step. now rewrite Hq. }
  assert (forall c scope ys acc,
            fold_left (year_step self c scope) ys acc = acc) as Hy.
  { intros c scope ys. induction ys as [|y ys IH]; intros acc; cbn [fold_left];
      [reflexivity|].
    rewrite IH. unfold year_step. now rewrite Hq. }
  rewrite Hc, Hy. now repeat destruct (_ : bool).
Qed.

(** A pipeline that raises on every passage gives no answer: the exception
    is caught in the loop over the passages. *)
Lemma answers_of_raising_pipeline pipeline question results :
  qa_pipeline self = Some pipeline ->
  (forall context, exists e, pipeline question context = raise e) ->
  forall answers, fold_left (answer_step self question) results answers = answers.
Proof.
  intros Hp Hraise. induction results as [|result results IH]; intros answers;
    cbn [fold_left]; [reflexivity|].
  rewrite IH. unfold answer_step, answer_of. rewrite Hp.
  destruct (Hraise (page_content result)) as (e & ->). reflexivity.
Qed.

End Contained.

(** C4, as the code has it.  The record returned by [answer_question] has an
    ["answer"], an ["answers"] or an ["error"] key, except on the successful
    comparison path: there (the store is loaded, the question is classified
    as a comparison, and it has two organizations or two years) the record
    has ["comparison_type"], ["comparison_results"] and
    ["comparison_metrics"] and none of the three.  This holds for every
    store and every pipeline, also for those that raise.  Their exceptions
    do not reach the caller: when every search of the store raises, the
    standard path returns the no-results record and the comparison path a
    record without points; when the pipeline raises on every passage, the
    standard path returns the answers record with no answer. *)
Theorem answer_question_fields (self : RetrievalAndFiltering)
    (question : string) (top_k : Z) :
  let result := answer_question self question top_k in
  let entities := _extract_entities_from_question question in
  let filters := _build_metadata_filters entities in
  let enough :=
    (2 <=? length (companies entities)) || (2 <=? length (years entities)) in
  let compared :=
    bool_decide (is_Some (vectorstore (vector_manager self)))
    && _is_comparison_question question && enough in
  (if compared then
     has_key "comparison_type" result = true /\
     has_key "comparison_results" result = true /\
     has_key "comparison_metrics" result = true /\
     has_key "answer" result = false /\
     has_key "answers" result = false /\
     has_key "error" result = false
   else
     has_key "answer" result || has_key "answers" result || has_key "error" result = true) /\
  (forall store,
     vectorstore (vector_manager self) = Some store ->
     (forall query k fs, exists e, similarity_search store query k fs = raise e) ->
     result =
       if _is_comparison_question question then
         if enough then
           RComparison question
             (if 2 <=? length (companies entities) then "company" else "year")
             [] (MetricsError "Need at least 2 results for comparison") entities
         else
           RComparisonError question
             "Comparison requires at least 2 companies or 2 years" (Some entities)
       else
         RNoResults question "No relevant information found in the knowledge base"
                    entities filters 0) /\
  (forall pipeline,
     is_Some (vectorstore (vector_manager self)) ->
     _is_comparison_question question = false ->
     qa_pipeline self = Some pipeline ->
     (forall context, exists e, pipeline question context = raise e) ->
     let results := query_vectorstore (vector_manager self) question top_k filters in
     result =
       if nonempty results
       then RAnswers question [] entities filters (length results)
       else RNoResults question "No relevant information found in the knowledge base"
                       entities filters 0).
Proof.
  cbv zeta. split; [|split].
  - unfold answer_question.
    destruct (bool_decide (is_Some (vectorstore (vector_manager self))));
      cbn [negb andb try_except ret]; [|reflexivity].
    destruct (_is_comparison_question question); cbn [negb andb try_except ret].
    + destruct ((2 <=? length (companies (_extract_entities_from_question question)))
                || (2 <=? length (years (_extract_entities_from_question question))))
        eqn:E.
      * destruct (handle_comparison_sufficient self question) as (metrics & _ & ->).
        -- apply orb_true_iff in E as [E|E]; [left|right]; apply Nat.leb_le; exact E.
        -- repeat split.
      * apply orb_false_iff in E as [Ec Ey]. apply Nat.leb_gt in Ec, Ey.
        now rewrite (handle_comparison_insufficient self question Ec Ey).
    + destruct (handle_standard_shape self question top_k)
        as (entities & filters & [(answer & ->)|(answers & total & ->)]); reflexivity.
  - intros store Hs Hraise.
    pose proof (query_of_raising_store self store Hs Hraise) as Hq.
    unfold answer_question. rewrite Hs.
    rewrite bool_decide_eq_true_2 by eauto. cbn [negb].
    destruct (_is_comparison_question question); cbn [try_except ret].
    + destruct ((2 <=? length (companies (_extract_entities_from_question question)))
                || (2 <=? length (years (_extract_entities_from_question question))))
        eqn:E.
      * destruct (handle_comparison_sufficient self question) as (metrics & Hm & ->).
        -- apply orb_true_iff in E as [E|E]; [left|right]; apply Nat.leb_le; exact E.
        -- rewrite (no_passage_no_point self question Hq) in *.
           cbn in Hm. now injection Hm as <-.
      * apply orb_false_iff in E as [Ec Ey]. apply Nat.leb_gt in Ec, Ey.
        now rewrite (handle_comparison_insufficient self question Ec Ey).
    + unfold _handle_standard_question. now rewrite Hq.
  - intros pipeline Hs Hc Hp Hraise. unfold answer_question.
    rewrite (bool_decide_eq_true_2 _ Hs), Hc. cbn [negb try_except ret].
    unfold _handle_standard_question.
    destruct (nonempty _); cbn [negb try_except ret]; [|reflexivity].
    now rewrite (answers_of_raising_pipeline self pipeline question _ Hp Hraise).
Qed.

(** C4 as stated fails: the record for "Compare Shell and Chevron Scope 1
    emissions" has neither ["answer"] nor ["answers"] nor ["error"]. *)
Lemma answer_question_fields_counterexample :
  result_keys (answer_question (Example.engine None)
                 "Compare Shell and Chevron Scope 1 emissions" 5)
  = ["question"; "comparison_type"; "comparison_results"; "comparison_metrics";
     "entities_detected"] /\
  has_key "answer" (answer_question (Example.engine None)
                      "Compare Shell and Chevron Scope 1 emissions" 5) = false /\
  has_key "answers" (answer_question (Example.engine None)
                       "Compare Shell and Chevron Scope 1 emissions" 5) = false /\
  has_key "error" (answer_question (Example.engine None)
                     "Compare Shell and Chevron Scope 1 emissions" 5) = false.
Proof. vm_compute. repeat split. Qed.

(** ** Further properties: entities and routing *)

Section MoreEntities.

Implicit Types question : string.

Lemma filter_sublist {A} (f : A -> bool) (l : list A) :
  List.filter f l `sublist_of` l.
Proof.
  induction l as [|x l IH]; simpl; [constructor|].
  destruct (f x); [apply sublist_skip | apply sublist_cons]; exact IH.
Qed.

Lemma years_unfold question :
  years (_extract_entities_from_question question) = Re.findall1 year_pattern question.
Proof. reflexivity. Qed.

Lemma emission_scope_unfold question :
  emission_scope (_extract_entities_from_question question) =
  first_scope (PyStr.lower question) EMISSION_SCOPES.
Proof. reflexivity. Qed.

Lemma keywords_unfold question :
  keywords (_extract_entities_from_question question) =
  List.filter (fun kw => PyStr.contains kw (PyStr.lower question)) sustainability_keywords.
Proof. reflexivity. Qed.

(** A question that is not a comparison has at most one organization and at
    most one year. *)
Lemma not_comparison_few question :
  _is_comparison_question question = false ->
  length (companies (_extract_entities_from_question question)) < 2 /\
  length (years (_extract_entities_from_question question)) < 2.
Proof.
  rewrite is_comparison_unfold. intros H.
  apply orb_false_iff in H as [_ H]. apply orb_false_iff in H as [Hc Hy].
  split; apply Nat.leb_gt; assumption.
Qed.

Lemma many_years_is_comparison question :
  2 <= length (years (_extract_entities_from_question question)) ->
  _is_comparison_question question = true.
Proof.
  intros H. rewrite is_comparison_unfold. apply Nat.leb_le in H. rewrite H.
  now rewrite !orb_true_r.
Qed.

End MoreEntities.

(** X1.  The entity set of a question: the organizations are entries of the
    known list, in the order of the list and each once; the keywords are
    entries of the topic vocabulary in its order; the scope is the first of
    scope_1, scope_2, scope_3 one of whose keywords is in the question, and
    "unknown" when there is none. *)
Theorem entities_well_formed (question : string) :
  let entities := _extract_entities_from_question question in
  companies entities `sublist_of` KNOWN_COMPANIES /\
  NoDup (companies entities) /\
  keywords entities `sublist_of` sustainability_keywords /\
  emission_scope entities =
    (if scope_signal "scope_1" question then "scope_1"
     else if scope_signal "scope_2" question then "scope_2"
     else if scope_signal "scope_3" question then "scope_3"
     else "unknown").
Proof.
  cbv zeta. split; [|split; [|split]].
  - rewrite companies_unfold. apply filter_sublist.
  - apply companies_nodup.
  - rewrite keywords_unfold. apply filter_sublist.
  - rewrite emission_scope_unfold. reflexivity.
Qed.

(** X2.  On the standard path nothing detected is left out of the filter: a
    question that is not classified as a comparison has at most one
    organization and one year, and the filter holds each of them. *)
Theorem standard_filter_keeps_entities (question : string) :
  _is_comparison_question question = false ->
  let entities := _extract_entities_from_question question in
  let filters := _build_metadata_filters entities in
  (forall c, In c (companies entities) -> filters !! "company_name" = Some c) /\
  (forall y, In y (years entities) -> filters !! "report_year" = Some y).
Proof.
  intros H entities filters. destruct (not_comparison_few _ H) as [Hc Hy].
  fold entities in Hc, Hy. unfold filters. split.
  - intros c Hin. rewrite filters_company_lookup.
    destruct (companies entities) as [|c1 [|c2 cs]];
      cbn [length In] in Hc, Hin; try lia; try tauto.
    destruct Hin as [->|[]]. reflexivity.
  - intros y Hin. rewrite filters_year_lookup.
    destruct (years entities) as [|y1 [|y2 ys]];
      cbn [length In] in Hy, Hin; try lia; try tauto.
    destruct Hin as [->|[]]. reflexivity.
Qed.

Lemma standard_filter_keeps_entities_witness :
  _build_metadata_filters
    (_extract_entities_from_question "What are Shell's Scope 1 emissions in 2023?")
    !! "company_name" = Some "Shell" /\
  _build_metadata_filters
    (_extract_entities_from_question "What are Shell's Scope 1 emissions in 2023?")
    !! "report_year" = Some "2023".
Proof.
  destruct (standard_filter_keeps_entities "What are Shell's Scope 1 emissions in 2023?")
    as [Hc Hy]; [vm_compute; reflexivity|].
  split; [apply Hc | apply Hy]; vm_compute; auto.
Defined.

(** X3.  A comparison phrase sends the question to the comparison handler
    whatever else it asks: with the store loaded, a question that has a
    comparison phrase (as a substring, so "overall" has "all") and fewer
    than two organizations and fewer than two years gets the
    insufficient-entities error, and the standard path is not tried. *)
Theorem phrase_without_entities_is_refused (self : RetrievalAndFiltering)
    (question : string) (top_k : Z) :
  is_Some (vectorstore (vector_manager self)) ->
  has_comparison_phrase question ->
  length (companies (_extract_entities_from_question question)) < 2 ->
  length (years (_extract_entities_from_question question)) < 2 ->
  answer_question self question top_k =
  RComparisonError question "Comparison requires at least 2 companies or 2 years"
    (Some (_extract_entities_from_question question)).
Proof.
  intros Hs Hp Hc Hy. unfold answer_question.
  rewrite (bool_decide_eq_true_2 _ Hs). cbn [negb].
  rewrite is_comparison_unfold. unfold has_comparison_phrase in Hp. rewrite Hp.
  cbn [orb try_except ret].
  now apply handle_comparison_insufficient.
Qed.

Lemma phrase_without_entities_is_refused_witness :
  companies (_extract_entities_from_question "What are Shell's overall emissions in 2023?")
    = ["Shell"] /\
  answer_question (Example.engine None) "What are Shell's overall emissions in 2023?" 5 =
  RComparisonError "What are Shell's overall emissions in 2023?"
    "Comparison requires at least 2 companies or 2 years"
    (Some (_extract_entities_from_question "What are Shell's overall emissions in 2023?")).
Proof.
  split; [vm_compute; reflexivity|].
  apply (phrase_without_entities_is_refused (Example.engine None)
           "What are Shell's overall emissions in 2023?" 5).
  - vm_compute. eauto.
  - vm_compute. reflexivity.
  - vm_compute. lia.
  - vm_compute. lia.
Defined.

(** X4.  Years without an organization are not compared: with the store
    loaded, a question with two or more year mentions and no known
    organization gets a comparison record of kind "year" with no point and
    the metrics error, and the store is not searched. *)
Theorem years_without_organization (self : RetrievalAndFiltering)
    (question : string) (top_k : Z) :
  is_Some (vectorstore (vector_manager self)) ->
  companies (_extract_entities_from_question question) = [] ->
  2 <= length (years (_extract_entities_from_question question)) ->
  answer_question self question top_k =
  RComparison question "year" []
    (MetricsError "Need at least 2 results for comparison")
    (_extract_entities_from_question question).
Proof.
  intros Hs Hc Hy. unfold answer_question.
  rewrite (bool_decide_eq_true_2 _ Hs). cbn [negb].
  rewrite (many_years_is_comparison _ Hy). cbn [try_except ret].
  rewrite handle_comparison_unfold. cbv zeta.
  unfold comparison_points. rewrite Hc.
  apply Nat.leb_le in Hy.
  replace (length (years (_extract_entities_from_question question)) <? 2) with false
    by (symmetry; apply Nat.ltb_ge, Nat.leb_le, Hy).
  rewrite Hy. reflexivity.
Qed.

Lemma years_without_organization_witness :
  answer_question (Example.engine None) "How did emissions change from 2022 to 2023?" 5 =
  RComparison "How did emissions change from 2022 to 2023?" "year" []
    (MetricsError "Need at least 2 results for comparison")
    (_extract_entities_from_question "How did emissions change from 2022 to 2023?").
Proof.
  apply (years_without_organization (Example.engine None)
           "How did emissions change from 2022 to 2023?" 5).
  - vm_compute. eauto.
  - vm_compute. reflexivity.
  - vm_compute. lia.
Defined.

(** ** Further properties: the comparison points *)

Section MorePoints.

Variable self : RetrievalAndFiltering.

Lemma company_step_cases years scope acc company :
  company_step self years scope acc company = acc \/
  exists p,
    company_step self years scope acc company = acc ++ [p] /\
    c_company p = company /\ point_of_search self p.
Proof.
  unfold company_step. cbn [try_except ret].
  match goal with
  | |- context [query_vectorstore ?vm ?q ?k ?f] =>
      destruct (query_vectorstore vm q k f) as [|d ds] eqn:E
  end; [now left|right].
  eexists. split; [reflexivity|]. split; [reflexivity|].
  do 3 eexists. split; [|split; [rewrite E; reflexivity | split; reflexivity]].
  cbn [c_company]. destruct (nonempty years).
  - rewrite lookup_insert_ne by discriminate. apply lookup_singleton_eq.
  - apply lookup_singleton_eq.
Qed.

Lemma year_step_cases company scope acc year :
  year_step self company scope acc year = acc \/
  exists p,
    year_step self company scope acc year = acc ++ [p] /\
    c_company p = company /\ c_year p = VStr year /\ point_of_search self p.
Proof.
  unfold year_step. cbn [try_except ret].
  match goal with
  | |- context [query_vectorstore ?vm ?q ?k ?f] =>
      destruct (query_vectorstore vm q k f) as [|d ds] eqn:E
  end; [now left|right].
  eexists. split; [reflexivity|]. split; [reflexivity|]. split; [reflexivity|].
  do 3 eexists. split; [|split; [rewrite E; reflexivity | split; reflexivity]].
  cbn [c_company]. rewrite lookup_insert_ne by discriminate. apply lookup_singleton_eq.
Qed.

Lemma company_steps years scope companies :
  forall acc,
    Forall (point_of_search self) acc ->
    exists added,
      map c_company (fold_left (company_step self years scope) companies acc)
        = map c_company acc ++ added /\
      added `sublist_of` companies /\
      Forall (point_of_search self)
             (fold_left (company_step self years scope) companies acc).
Proof.
  induction companies as [|c cs IH]; intros acc Hacc; cbn [fold_left].
  - exists []. rewrite app_nil_r. auto using sublist_nil.
  - destruct (company_step_cases years scope acc c) as [->|(p & -> & Hc & Hp)].
    + destruct (IH acc Hacc) as (added & E & S & F).
      exists added. auto using sublist_cons.
    + destruct (IH (acc ++ [p])) as (added & E & S & F).
      { apply Forall_app. split; [exact Hacc | now constructor]. }
      exists (c :: added). rewrite E, map_app, <- app_assoc. cbn [map app].
      rewrite Hc. auto using sublist_skip.
Qed.

Lemma year_steps company scope years :
  forall acc,
    Forall (point_of_search self) acc ->
    Forall (fun p => c_company p = company) acc ->
    exists added,
      map c_year (fold_left (year_step self company scope) years acc)
        = map c_year acc ++ added /\
      added `sublist_of` map VStr years /\
      Forall (point_of_search self) (fold_left (year_step self company scope) years acc) /\
      Forall (fun p => c_company p = company)
             (fold_left (year_step self company scope) years acc).
Proof.
  induction years as [|y ys IH]; intros acc Hacc Hco; cbn [fold_left].
  - exists []. rewrite app_nil_r. auto using sublist_nil.
  - destruct (year_step_cases company scope acc y) as [->|(p & -> & Hc & Hy & Hp)].
    + destruct (IH acc Hacc Hco) as (added & E & S & F & G).
      exists added. cbn [map]. auto using sublist_cons.
    + destruct (IH (acc ++ [p])) as (added & E & S & F & G).
      { apply Forall_app. split; [exact Hacc | now constructor]. }
      { apply Forall_app. split; [exact Hco | now constructor]. }
      exists (VStr y :: added). rewrite E, map_app, <- app_assoc. cbn [map app].
      rewrite Hy. auto using sublist_skip.
Qed.

End MorePoints.

(** X5.  What the comparison handler returns.  It is the error record
    exactly when there are fewer than two organizations and fewer than two
    years.  Otherwise it is a comparison record: with two or more
    organizations its kind is "company" and its points name organizations of
    the question, in their order and each at most once (an organization
    without a passage has no point); else its kind is "year", every point is
    about the first organization, and the points follow the year mentions.
    Every point comes from the first passage of a search of three passages
    filtered on its organization. *)
Theorem comparison_record_follows_entities (self : RetrievalAndFiltering)
    (question : string) :
  let entities := _extract_entities_from_question question in
  match _handle_comparison_question self question with
  | RComparison _ kind points _ detected =>
      detected = entities /\
      Forall (point_of_search self) points /\
      if 2 <=? length (companies entities) then
        kind = "company" /\ map c_company points `sublist_of` companies entities
      else
        kind = "year" /\ 2 <= length (years entities) /\
        map c_year points `sublist_of` map VStr (years entities) /\
        Forall (fun p => c_company p = nth 0 (companies entities) "") points
  | RComparisonError _ _ _ =>
      length (companies entities) < 2 /\ length (years entities) < 2
  | _ => False
  end.
Proof.
  intros entities.
  destruct (Nat.leb_spec 2 (length (companies entities))) as [Hc|Hc].
  - destruct (handle_comparison_sufficient self question) as (metrics & _ & ->);
      [now left|]. fold entities.
    assert ((2 <=? length (companies entities)) = true) as L by now apply Nat.leb_le.
    rewrite L. unfold comparison_points. fold entities. rewrite L.
    destruct (company_steps self (years entities) (emission_scope entities)
                (companies entities) []) as (added & E & S & F); [constructor|].
    rewrite E. cbn [map app]. repeat split; assumption.
  - assert ((2 <=? length (companies entities)) = false) as L by now apply Nat.leb_gt.
    destruct (Nat.leb_spec 2 (length (years entities))) as [Hy|Hy].
    + destruct (handle_comparison_sufficient self question) as (metrics & _ & ->);
        [now right|]. fold entities.
      rewrite L. unfold comparison_points. fold entities. rewrite L.
      assert ((2 <=? length (years entities)) = true) as Ly by now apply Nat.leb_le.
      rewrite Ly. cbn [andb].
      destruct (nonempty (companies entities)).
      * destruct (year_steps self (nth 0 (companies entities) "")
                    (emission_scope entities) (years entities) [])
          as (added & E & S & F & G); [constructor..|].
        rewrite E. cbn [map app]. repeat split; assumption.
      * cbn [map]. repeat split; auto using sublist_nil_l; constructor.
    + rewrite (handle_comparison_insufficient self question Hc Hy). auto.
Qed.

(** ** Further properties: the standard path *)

Section MoreStandard.

Variable self : RetrievalAndFiltering.

Lemma answer_of_fields question result a :
  answer_of self question result = ret a -> answer_of_passage a result.
Proof.
  unfold answer_of. destruct (qa_pipeline self) as [pipeline|];
    cbn [bind ret raise read_local]; [|discriminate].
  destruct (pipeline question (page_content result)) as [e|[l|d]];
    cbn [bind ret raise read_local first_item]; [discriminate| |].
  - destruct l as [|x l]; cbn [bind ret raise first_item]; [discriminate|].
    intros [= <-]. repeat split.
  - intros [= <-]. repeat split.
Qed.

Lemma answer_steps question results :
  forall acc,
    exists used,
      used `sublist_of` results /\
      exists added,
        fold_left (answer_step self question) results acc = acc ++ added /\
        Forall2 answer_of_passage added used.
Proof.
  induction results as [|d ds IH]; intros acc; cbn [fold_left].
  - exists []. split; [constructor|]. exists []. now rewrite app_nil_r.
  - unfold answer_step at 2.
    destruct (answer_of self question d) as [e|a] eqn:E; cbn [bind ret try_except].
    + destruct (IH acc) as (used & S & added & -> & F).
      exists used. split; [now apply sublist_cons|]. now exists added.
    + destruct (IH (acc ++ [a])) as (used & S & added & -> & F).
      exists (d :: used). split; [now apply sublist_skip|].
      exists (a :: added). rewrite <- app_assoc. split; [reflexivity|].
      constructor; [now apply answer_of_fields in E | exact F].
Qed.

(** With a pipeline that returns a single dictionary the record of a
    passage is the one of the fallback heuristic. *)
Lemma answer_of_dictionary pipeline question result :
  qa_pipeline self = Some pipeline ->
  (exists d, pipeline question (page_content result) = ret (QAOne d)) ->
  answer_of self question result = ret (fallback_answer question result).
Proof.
  intros Hp (d & Hd). unfold answer_of. rewrite Hp, Hd. reflexivity.
Qed.

Lemma answer_steps_dictionary pipeline question results :
  qa_pipeline self = Some pipeline ->
  (forall context, exists d, pipeline question context = ret (QAOne d)) ->
  forall acc,
    fold_left (answer_step self question) results acc
    = acc ++ map (fallback_answer question) results.
Proof.
  intros Hp Hd. induction results as [|r rs IH]; intros acc; cbn [fold_left map].
  - now rewrite app_nil_r.
  - unfold answer_step at 2.
    rewrite (answer_of_dictionary pipeline question r Hp (Hd _)).
    cbn [bind ret try_except]. now rewrite IH, <- app_assoc.
Qed.

End MoreStandard.

(** X6.  What the standard handler returns.  With no passage retrieved it is
    the no-results record with a total of 0.  Otherwise it is the answers
    record: the total is the number of passages retrieved, and the answers
    are made from passages of the search, in the order of the search, at
    most one for each passage (a passage whose answer raises is left out, so
    there can be fewer answers than the total says). *)
Theorem standard_record_follows_search (self : RetrievalAndFiltering)
    (question : string) (top_k : Z) :
  let entities := _extract_entities_from_question question in
  let filters := _build_metadata_filters entities in
  let results := query_vectorstore (vector_manager self) question top_k filters in
  match _handle_standard_question self question top_k with
  | RAnswers _ answers detected applied total =>
      detected = entities /\ applied = filters /\
      total = length results /\ 0 < total /\
      exists used, used `sublist_of` results /\ Forall2 answer_of_passage answers used
  | RNoResults _ _ detected applied total =>
      detected = entities /\ applied = filters /\ results = [] /\ total = 0
  | _ => False
  end.
Proof.
  intros entities filters results. unfold _handle_standard_question.
  fold entities. fold filters. fold results.
  destruct results as [|d ds] eqn:E; cbn [nonempty negb try_except ret]; [auto|].
  repeat split; [cbn [length]; lia|].
  destruct (answer_steps self question (d :: ds) []) as (used & S & added & -> & F).
  exists used. split; [exact S | exact F].
Qed.

(** X7.  The answer of the pipeline is used only when the pipeline returns
    a list.  With a pipeline that returns a single dictionary for every
    passage, the answers are those of the fallback heuristic, one for each
    passage in the order of the search, each with confidence 0.5: the text
    and the score of the pipeline are not used. *)
Theorem pipeline_dictionary_is_ignored (self : RetrievalAndFiltering)
    (pipeline : string -> string -> Exc QAOutput) (question : string) (top_k : Z) :
  qa_pipeline self = Some pipeline ->
  (forall context, exists d, pipeline question context = ret (QAOne d)) ->
  let entities := _extract_entities_from_question question in
  let filters := _build_metadata_filters entities in
  let results := query_vectorstore (vector_manager self) question top_k filters in
  _handle_standard_question self question top_k =
  if nonempty results
  then RAnswers question (map (fallback_answer question) results)
                entities filters (length results)
  else RNoResults question "No relevant information found in the knowledge base"
                  entities filters 0.
Proof.
  intros Hp Hd entities filters results. unfold _handle_standard_question.
  fold entities. fold filters. fold results.
  destruct (nonempty results); cbn [negb try_except ret]; [|reflexivity].
  now rewrite (answer_steps_dictionary self pipeline question results Hp Hd).
Qed.

Lemma pipeline_dictionary_is_ignored_witness :
  _handle_standard_question
    (Example.engine
       (Some (fun _ _ => ret (QAOne {| qa_answer := Some "80 tCO2";
                                       qa_score := Some 1%float |}))))
    "What are the emissions" 5
  = RAnswers "What are the emissions"
      (map (fallback_answer "What are the emissions") Example.corpus)
      (_extract_entities_from_question "What are the emissions")
      (_build_metadata_filters (_extract_entities_from_question "What are the emissions"))
      2.
Proof.
  exact (pipeline_dictionary_is_ignored
           (Example.engine
              (Some (fun _ _ => ret (QAOne {| qa_answer := Some "80 tCO2";
                                              qa_score := Some 1%float |}))))
           (fun _ _ => ret (QAOne {| qa_answer := Some "80 tCO2";
                                     qa_score := Some 1%float |}))
           "What are the emissions" 5 eq_refl
           (fun _ => ex_intro _ _ eq_refl)).
Defined.

(** ** Further properties: unit groups and metrics *)

Section MoreMetrics.

Lemma comparisons_of_units {P : string -> Comparison -> Prop}
    (comparisons : list Comparison) (units : list string) :
  Forall2 (fun c u => m_unit c = u /\ P u c) comparisons units ->
  map m_unit comparisons = units /\ Forall (fun c => P (m_unit c) c) comparisons.
Proof.
  induction 1 as [|c u cs us [<- H] _ [IH1 IH2]]; cbn [map]; [split; [reflexivity|constructor]|].
  split; [now rewrite IH1 | now constructor].
Qed.

End MoreMetrics.

(** X8.  What the metrics are.  With fewer than two points they are the
    error and nothing is compared; the function never raises.  Otherwise
    [total_comparisons] is the number of points, and the units of the
    comparisons are the units, in lower case, that two or more facts of the
    points have, in the order in which these units first occur among the
    facts: a unit has a comparison exactly when it has two or more facts,
    and no unit is compared twice.  The highest and the lowest of a
    comparison are facts of its unit, its difference is theirs, and when no
    value of the unit is a NaN every value of the unit lies between them.
    The summary is empty without a comparison and else the text of the first
    comparison. *)
Theorem metrics_compare_like_with_like (comparison_results : list ComparisonPoint) :
  match _calculate_comparison_metrics comparison_results with
  | inr (MetricsOk total comparisons summary) =>
      2 <= length comparison_results /\
      total = length comparison_results /\
      map m_unit comparisons =
        List.filter (fun u => 2 <=? length (facts_with_unit u comparison_results))
                    (first_occurrences (units_of comparison_results)) /\
      (forall u, In u (map m_unit comparisons) <->
                 2 <= length (facts_with_unit u comparison_results)) /\
      NoDup (map m_unit comparisons) /\
      Forall (fun c => exists hi lo, extremes_of_unit comparison_results c hi lo)
             comparisons /\
      summary = match comparisons with
                | [] => []
                | main_comparison :: _ => summary_text main_comparison
                end
  | inr (MetricsError error) =>
      length comparison_results < 2 /\
      error = "Need at least 2 results for comparison"
  | inl _ => False
  end.
Proof.
  destruct (Nat.ltb_spec (length comparison_results) 2) as [L|L].
  - unfold _calculate_comparison_metrics. apply Nat.ltb_lt in L as L'. rewrite L'.
    now split.
  - destruct (metrics_by_unit comparison_results L) as (comparisons & -> & F).
    apply comparisons_of_units in F as [U C].
    split; [exact L|]. split; [reflexivity|]. split; [exact U|].
    split; [|split; [|split]].
    + intros u. rewrite U, List.filter_In, Nat.leb_le. split; [tauto|].
      intros Hu. split; [apply unit_of_fact; lia | exact Hu].
    + rewrite U. apply list_filter_nodup, first_occurrences_nodup.
    + eapply List.Forall_impl; [|exact C]. intros c Hc.
      destruct (comparison_of_facts _ _ Hc) as (hi & lo & X & _). now exists hi, lo.
    + now destruct comparisons.
Qed.

(** ** Further properties: the fallback answer *)

Section MoreStrings.

Lemma contains_char_cons (c x : ascii) (s : string) :
  PyStr.contains (String c "") (String x s) =
  Ascii.eqb c x || PyStr.contains (String c "") s.
Proof. cbn [PyStr.contains PyStr.startswith]. now destruct (Ascii.eqb c x). Qed.

Lemma contains_char_nil (c : ascii) : PyStr.contains (String c "") "" = false.
Proof. reflexivity. Qed.

(** No field of a split has the separator. *)
Lemma split_on_fields (sep : ascii) (s : string) :
  Forall (fun field => PyStr.contains (String sep "") field = false)
         (PyStr.split_on sep s).
Proof.
  induction s as [|c s IH]; cbn [PyStr.split_on].
  - constructor; [reflexivity | constructor].
  - destruct (Ascii.eqb_spec c sep) as [->|Hne].
    + constructor; [reflexivity | exact IH].
    + destruct (PyStr.split_on sep s) as [|w ws].
      * constructor; [|constructor]. rewrite contains_char_cons.
        destruct (Ascii.eqb_spec sep c); [congruence | reflexivity].
      * apply Forall_cons in IH as [Hw Hws]. constructor; [|exact Hws].
        rewrite contains_char_cons, Hw.
        destruct (Ascii.eqb_spec sep c); [congruence | reflexivity].
Qed.

Lemma lstrip_keeps (c : ascii) (s : string) :
  PyStr.contains (String c "") s = false ->
  PyStr.contains (String c "") (PyStr.lstrip s) = false.
Proof.
  induction s as [|x s IH]; cbn [PyStr.lstrip]; [easy|].
  intros H. destruct (PyStr.is_space x); [|exact H].
  rewrite contains_char_cons in H. apply orb_false_iff in H as [_ H]. now apply IH.
Qed.

Lemma rstrip_keeps (c : ascii) (s : string) :
  PyStr.contains (String c "") s = false ->
  PyStr.contains (String c "") (PyStr.rstrip s) = false.
Proof.
  induction s as [|x s IH]; cbn [PyStr.rstrip]; [easy|].
  intros H. rewrite contains_char_cons in H. apply orb_false_iff in H as [Hx H].
  specialize (IH H). destruct (PyStr.rstrip s) as [|y r].
  - destruct (PyStr.is_space x); [reflexivity|].
    now rewrite contains_char_cons, Hx.
  - now rewrite contains_char_cons, Hx, IH.
Qed.

Lemma strip_keeps (c : ascii) (s : string) :
  PyStr.contains (String c "") s = false ->
  PyStr.contains (String c "") (PyStr.strip s) = false.
Proof. intros H. unfold PyStr.strip. now apply rstrip_keeps, lstrip_keeps. Qed.

Lemma is_space_lower (c : ascii) :
  PyStr.is_space (PyStr.lower_char c) = PyStr.is_space c.
Proof. destruct c as [[] [] [] [] [] [] [] []]; reflexivity. Qed.

Lemma all_space_lower (s : string) : all_space (PyStr.lower s) = all_space s.
Proof.
  induction s as [|c s IH]; cbn [PyStr.lower all_space]; [reflexivity|].
  now rewrite is_space_lower, IH.
Qed.

Lemma split_ws_all_space (s : string) :
  all_space s = true -> PyStr.split_ws s = [].
Proof.
  unfold PyStr.split_ws. induction s as [|c s IH]; cbn [all_space PyStr.split_ws_aux];
    [reflexivity|].
  intros [Hc Hs]%andb_true_iff. rewrite Hc. now apply IH.
Qed.

Lemma lstrip_all_space (s : string) :
  all_space s = false ->
  exists c s', PyStr.lstrip s = String c s' /\ PyStr.is_space c = false.
Proof.
  induction s as [|c s IH]; cbn [all_space PyStr.lstrip]; [discriminate|].
  destruct (PyStr.is_space c) eqn:E; cbn [andb]; [exact IH|].
  intros _. now exists c, s.
Qed.

Lemma rstrip_nonspace (c : ascii) (s : string) :
  PyStr.is_space c = false -> PyStr.rstrip (String c s) <> "".
Proof.
  intros H. cbn [PyStr.rstrip]. rewrite H. now destruct (PyStr.rstrip s).
Qed.

(** A sentence that strips to nothing has no word. *)
Lemma strip_empty_words (s : string) :
  PyStr.strip s = "" -> PyStr.split_ws (PyStr.lower s) = [].
Proof.
  intros H. apply split_ws_all_space. rewrite all_space_lower.
  destruct (all_space s) eqn:E; [reflexivity|].
  destruct (lstrip_all_space s E) as (c & s' & Hl & Hc).
  unfold PyStr.strip in H. rewrite Hl in H. now apply rstrip_nonspace in H.
Qed.

Lemma overlap_strip_empty (question sentence : string) :
  PyStr.strip sentence = "" -> overlap question sentence = 0.
Proof.
  intros H. unfold overlap. rewrite (strip_empty_words _ H).
  cbn [list_to_set foldr]. rewrite intersection_empty_r_L. apply size_empty.
Qed.

End MoreStrings.

Section BestSentence.

Variables (f : string -> nat) (g : string -> string).

(** The loop that keeps the first item of the highest score. *)
Lemma best_fold (items : list string) :
  forall best top,
    match fold_left (fun '(b, m) s => if m <? f s then (g s, f s) else (b, m))
                    items (best, top) with
    | (b', m') =>
        (Forall (fun s => f s <= top) items /\ b' = best /\ m' = top) \/
        (exists before s after,
            items = before ++ s :: after /\ b' = g s /\ m' = f s /\ top < f s /\
            Forall (fun x => f x < f s) before /\
            Forall (fun x => f x <= f s) after)
    end.
Proof.
  induction items as [|s0 items IH]; intros best top; cbn [fold_left].
  - left. repeat split. constructor.
  - destruct (Nat.ltb_spec top (f s0)) as [L|L].
    + specialize (IH (g s0) (f s0)).
      destruct (fold_left _ items (g s0, f s0)) as [b' m'].
      destruct IH as [(Hall & -> & ->)|(before & s & after & -> & -> & -> & Hlt & Hb & Ha)].
      * right. exists [], s0, items. repeat split; auto.
      * right. exists (s0 :: before), s, after. repeat split; auto; try lia.
    + specialize (IH best top).
      destruct (fold_left _ items (best, top)) as [b' m'].
      destruct IH as [(Hall & -> & ->)|(before & s & after & -> & -> & -> & Hlt & Hb & Ha)].
      * left. repeat split. now constructor.
      * right. exists (s0 :: before), s, after. repeat split; auto.
        constructor; [lia | exact Hb].
Qed.

End BestSentence.

Lemma extract_simple_answer_unfold (question context : string) :
  _extract_simple_answer question context =
  let '(best, _) :=
    fold_left (fun '(b, m) s => if m <? overlap question s
                                then (PyStr.strip s, overlap question s) else (b, m))
              (PyStr.split_on "." context) ("", 0) in
  if PyStr.truthy best then best else "Information found in context".
Proof. reflexivity. Qed.

(** X9.  The fallback answer.  It is never empty and has no full stop.  When
    no sentence of the passage (the passage split at full stops) shares a
    word with the question it is "Information found in context"; otherwise
    it is, stripped of surrounding spaces, the first of the sentences that
    share the most distinct words with the question, words being compared
    without case. *)
Theorem simple_answer_is_best_sentence (question context : string) :
  let answer := _extract_simple_answer question context in
  let sentences := PyStr.split_on "." context in
  answer <> "" /\
  PyStr.contains "." answer = false /\
  if forallb (fun s => overlap question s =? 0) sentences then
    answer = "Information found in context"
  else
    exists before sentence after,
      sentences = before ++ sentence :: after /\
      answer = PyStr.strip sentence /\
      0 < overlap question sentence /\
      Forall (fun s => overlap question s < overlap question sentence) before /\
      Forall (fun s => overlap question s <= overlap question sentence) after.
Proof.
  cbv zeta. rewrite extract_simple_answer_unfold.
  pose proof (best_fold (overlap question) PyStr.strip (PyStr.split_on "." context) "" 0)
    as H.
  pose proof (split_on_fields "." context) as Hdot.
  destruct (fold_left _ (PyStr.split_on "." context) ("", 0)) as [best top].
  destruct H as [(Hall & -> & ->)|(before & s & after & E & -> & -> & Hlt & Hb & Ha)].
  - cbn [PyStr.truthy].
    replace (forallb _ _) with true.
    + repeat split. discriminate.
    + symmetry. apply forallb_forall. intros s Hs. apply Nat.eqb_eq.
      rewrite Forall_forall in Hall. specialize (Hall s).
      rewrite list_elem_of_In in Hall. specialize (Hall Hs). lia.
  - assert (PyStr.strip s <> "") as Hne.
    { intros Hs. rewrite (overlap_strip_empty question s Hs) in Hlt. lia. }
    assert (PyStr.truthy (PyStr.strip s) = true) as Ht
      by (destruct (PyStr.strip s); [contradiction | reflexivity]).
    rewrite Ht.
    replace (forallb _ _) with false.
    + split; [exact Hne|]. split.
      * apply strip_keeps. rewrite Forall_forall in Hdot. apply Hdot.
        rewrite E. apply list_elem_of_In, in_elt.
      * now exists before, s, after.
    + symmetry. apply not_true_is_false. intros Hf.
      rewrite forallb_forall in Hf. specialize (Hf s).
      rewrite E in Hf. specialize (Hf (in_elt _ _ _)). apply Nat.eqb_eq in Hf. lia.
Qed.

(** ** Further properties: metadata search *)

Section MetadataSearch.

Variable metadata_filters : gmap string fvalue.

Lemma chunk_matches_spec (chunk : Chunk) :
  chunk_matches metadata_filters chunk = true <->
  forall key value,
    metadata_filters !! key = Some value ->
    accepts value (chunk_metadata chunk !! key) = true.
Proof.
  unfold chunk_matches. rewrite forallb_forall. split.
  - intros H key value Hk.
    apply (H (key, value)), list_elem_of_In, elem_of_map_to_list, Hk.
  - intros H [key value] Hin. apply H, elem_of_map_to_list, list_elem_of_In, Hin.
Qed.

Lemma collect_matching_take (limit : Z) (chunks : list Chunk) :
  forall filtered,
    length filtered < Z.to_nat (Z.max limit 1) ->
    collect_matching metadata_filters limit chunks filtered =
    filtered ++ firstn (Z.to_nat (Z.max limit 1) - length filtered)
                       (List.filter (chunk_matches metadata_filters) chunks).
Proof.
  induction chunks as [|chunk chunks IH]; intros filtered L;
    cbn [collect_matching List.filter].
  - now rewrite firstn_nil, app_nil_r.
  - destruct (chunk_matches metadata_filters chunk); [|now apply IH].
    cbv zeta. rewrite length_app. cbn [length].
    destruct (Z.leb_spec limit (Z.of_nat (length filtered + 1))) as [H|H].
    + replace (Z.to_nat (Z.max limit 1) - length filtered) with 1 by lia.
      reflexivity.
    + rewrite IH by (rewrite length_app; cbn [length]; lia).
      rewrite length_app. cbn [length].
      replace (Z.to_nat (Z.max limit 1) - length filtered)
        with (S (Z.to_nat (Z.max limit 1) - (length filtered + 1))) by lia.
      cbn [firstn]. now rewrite <- app_assoc.
Qed.

End MetadataSearch.

Lemma manager_search_take (chunks : list Chunk)
    (metadata_filters : gmap string fvalue) (limit : Z) :
  manager_search_by_metadata chunks metadata_filters limit =
  firstn (Z.to_nat (Z.max limit 1))
         (List.filter (chunk_matches metadata_filters) chunks).
Proof.
  unfold manager_search_by_metadata. destruct chunks as [|c cs]; cbn [nonempty negb].
  - now rewrite firstn_nil.
  - rewrite collect_matching_take by (cbn [length]; lia).
    cbn [length app]. now rewrite Nat.sub_0_r.
Qed.

Lemma in_firstn {A} (n : nat) (l : list A) (x : A) : In x (firstn n l) -> In x l.
Proof. intros H. rewrite <- (firstn_skipn n l). apply in_or_app. now left. Qed.


(** The limit of 0 still gives a chunk. *)
Example manager_search_limit_zero :
  map chunk_id (manager_search_by_metadata Example2.chunks Example2.shell_only 10)
    = ["a_0"; "a_1"] /\
  map chunk_id (manager_search_by_metadata Example2.chunks Example2.shell_only 0)
    = ["a_0"].
Proof. vm_compute. split; reflexivity. Qed.


(** ** Further properties: the company overview *)

Section MoreOverview.

Variable self : RetrievalAndFiltering.


Lemma overview_sections company_name year :
  get_company_overview self company_name year =
  OverviewOk company_name year
    (map (fun entry =>
            (fst entry,
             map section_entry
                 (query_vectorstore (vector_manager self) (snd entry) 3
                    (overview_filters company_name year))))
         (overview_queries company_name)).
Proof. reflexivity. Qed.

End MoreOverview.


(** X13.  A failed search does not fail the overview: when no store is
    loaded and none can be loaded, or when every search of the store raises,
    the overview is the record with the four sections, each empty. *)
Theorem company_overview_failed_search (self : RetrievalAndFiltering)
    (company_name : string) (year : option string) :
  (vectorstore (vector_manager self) = None /\ on_disk (vector_manager self) = None) \/
  (exists store,
      vectorstore (vector_manager self) = Some store /\
      forall query k filters, exists e, similarity_search store query k filters = raise e) ->
  get_company_overview self company_name year
  = OverviewOk company_name year
      [("emissions", []); ("energy", []); ("targets", []); ("initiatives", [])].
Proof.
  intros H.
  assert (forall query filters,
            query_vectorstore (vector_manager self) query 3 filters = []) as Hq.
  { intros query filters. unfold query_vectorstore, load_vectorstore.
    destruct H as [[-> ->]|(store & -> & Hraise)]; [reflexivity|].
    destruct (bool_decide _);
      match goal with
      | |- context [similarity_search store ?q ?k ?f] =>
          destruct (Hraise q k f) as (e & ->)
      end; reflexivity. }
  rewrite overview_sections. unfold overview_queries. cbn [map fst snd].
  now rewrite !Hq.
Qed.

Lemma company_overview_failed_search_witness :
  get_company_overview
    {| vector_manager :=
         {| vectorstore :=
              Some {| similarity_search := fun _ _ _ =>
                        raise (Exception "RuntimeError" "dataset is locked") |};
            on_disk := None |};
       qa_pipeline := None |}
    "Shell" (Some "2023")
  = OverviewOk "Shell" (Some "2023")
      [("emissions", []); ("energy", []); ("targets", []); ("initiatives", [])].
Proof.
  apply (company_overview_failed_search
           {| vector_manager :=
                {| vectorstore :=
                     Some {| similarity_search := fun _ _ _ =>
                               raise (Exception "RuntimeError" "dataset is locked") |};
                   on_disk := None |};
              qa_pipeline := None |}
           "Shell" (Some "2023")).
  right. eexists. split; [reflexivity|]. intros. eexists. reflexivity.
Defined.

(** ** Further properties: what the matcher consumes *)

Section MatcherWords.

Variable ic : bool.

Lemma prev_after_nil p : prev_after p [] = p.
Proof. reflexivity. Qed.

Lemma prev_after_app p w1 w2 :
  prev_after (prev_after p w1) w2 = prev_after p (w1 ++ w2).
Proof.
  unfold prev_after. rewrite last_app.
  destruct (last w2); [reflexivity|]. now destruct (last w1).
Qed.

Lemma steps_refl (L : list ascii -> Prop) keeps st : L [] -> steps L keeps st st.
Proof. intros H. exists []. cbn [app length]. rewrite Nat.add_0_r. auto. Qed.

Lemma steps_advance (L : list ascii -> Prop) st x xs :
  Re.rest st = x :: xs -> L [x] -> steps L true st (Re.advance x xs st).
Proof.
  intros E H. exists [x]. cbn [Re.advance Re.rest Re.pos Re.prev Re.caps app length].
  rewrite E. repeat split; auto. lia.
Qed.

Lemma steps_cat (L1 L2 L : list ascii -> Prop) k1 k2 st1 st2 st3 :
  (forall w1 w2, L1 w1 -> L2 w2 -> L (w1 ++ w2)) ->
  steps L1 k1 st1 st2 -> steps L2 k2 st2 st3 -> steps L (k1 && k2) st1 st3.
Proof.
  intros HL (w1 & R1 & P1 & V1 & H1 & C1) (w2 & R2 & P2 & V2 & H2 & C2).
  exists (w1 ++ w2). rewrite R1, R2, P2, P1, V2, V1, length_app, <- app_assoc.
  repeat split; auto; [lia | apply prev_after_app|].
  intros [K1 K2]%andb_true_iff. now rewrite C2, C1.
Qed.

Lemma steps_weaken (L L' : list ascii -> Prop) k k' st st' :
  (forall w, L w -> L' w) -> (k' = true -> k = true) ->
  steps L k st st' -> steps L' k' st st'.
Proof.
  intros HL Hk (w & R & P & V & H & C). exists w. repeat split; auto.
Qed.

(** The repetition consumes a sequence of words of its body. *)
Lemma repeat_words body (L : list ascii -> Prop) keeps lo hi k :
  (forall k st res,
      body k st = Some res -> exists st', steps L keeps st st' /\ k st' = Some res) ->
  forall fuel n st res,
    match hi with Some h => n <= h | None => True end ->
    Re.repeat body lo hi k fuel n st = Some res ->
    exists st',
      steps (fun w => exists ws, w = concat ws /\ Forall L ws /\
                                 lo <= n + length ws /\
                                 match hi with Some h => n + length ws <= h | None => True end)
            keeps st st' /\
      k st' = Some res.
Proof.
  intros Hbody.
  induction fuel as [|fuel IHf]; intros n st res Hn H; cbn [Re.repeat] in H.
  - destruct (Nat.leb_spec lo n) as [Hlo|]; [|discriminate].
    exists st. split; [|exact H]. apply steps_refl. exists [].
    cbn [concat length]. rewrite Nat.add_0_r. auto.
  - assert (forall o, (if lo <=? n then k st else None) = Some o ->
                      exists st',
                        steps (fun w => exists ws, w = concat ws /\ Forall L ws /\
                                          lo <= n + length ws /\
                                          match hi with
                                          | Some h => n + length ws <= h
                                          | None => True
                                          end) keeps st st' /\
                        k st' = Some o) as Hstop.
    { intros o Ho. destruct (Nat.leb_spec lo n) as [Hlo|]; [|discriminate].
      exists st. split; [|exact Ho]. apply steps_refl. exists [].
      cbn [concat length]. rewrite Nat.add_0_r. auto. }
    destruct (Re.below n hi) eqn:B; [|now apply Hstop].
    match type of H with
    | match ?b with _ => _ end = _ => destruct b as [res1|] eqn:E1
    end; [|now apply Hstop].
    injection H as <-.
    destruct (Hbody _ _ _ E1) as (st1 & X1 & H1).
    destruct (Re.pos st <? Re.pos st1); [|discriminate].
    assert (match hi with Some h => S n <= h | None => True end) as Hn'.
    { destruct hi as [h|]; [|exact I]. cbn [Re.below] in B. apply Nat.ltb_lt in B. lia. }
    destruct (IHf _ _ _ Hn' H1) as (st2 & X2 & H2).
    exists st2. split; [|exact H2].
    eapply steps_weaken; [| |eapply (steps_cat _ _ _ keeps keeps); [|exact X1|exact X2]].
    + intros w Hw. exact Hw.
    + now destruct keeps.
    + intros w1 w2 Hw1 (ws & -> & Hws & Hlo & Hhi). exists (w1 :: ws).
      cbn [concat length]. repeat split; [now constructor | lia|].
      destruct hi; [lia | exact I].
Qed.

(** A successful match consumes a word of the expression. *)
Lemma m_words (r : Re.regex) :
  forall k st res,
    Re.m ic r k st = Some res ->
    exists st', steps (lang ic r) (group_free r) st st' /\ k st' = Some res.
Proof.
  induction r as [| c | cl | | r1 IH1 r2 IH2 | r1 IH1 r2 IH2 | lo hi r IH | n r IH];
    intros k st res H; cbn [Re.m] in H.
  - exists st. split; [now apply steps_refl | exact H].
  - destruct (Re.rest st) as [|x xs] eqn:E; [discriminate|].
    destruct (Re.lit_matches ic c x) eqn:M; [|discriminate].
    exists (Re.advance x xs st). split; [|exact H].
    apply steps_advance; [exact E|]. now exists x.
  - destruct (Re.rest st) as [|x xs] eqn:E; [discriminate|].
    destruct (Re.in_class cl x) eqn:M; [|discriminate].
    exists (Re.advance x xs st). split; [|exact H].
    apply steps_advance; [exact E|]. now exists x.
  - destruct (Re.at_boundary st); [|discriminate].
    exists st. split; [now apply steps_refl | exact H].
  - destruct (IH1 _ _ _ H) as (st1 & X1 & H1).
    destruct (IH2 _ _ _ H1) as (st2 & X2 & H2).
    exists st2. split; [|exact H2].
    eapply steps_cat; [|exact X1|exact X2]. intros w1 w2 ? ?. now exists w1, w2.
  - destruct (Re.m ic r1 k st) as [res1|] eqn:E1.
    + injection H as <-. destruct (IH1 _ _ _ E1) as (st1 & X1 & H1).
      exists st1. split; [|exact H1].
      eapply steps_weaken; [| |exact X1]; [now left|].
      cbn [group_free]. now intros [? ?]%andb_true_iff.
    + destruct (IH2 _ _ _ H) as (st1 & X1 & H1).
      exists st1. split; [|exact H1].
      eapply steps_weaken; [| |exact X1]; [now right|].
      cbn [group_free]. now intros [? ?]%andb_true_iff.
  - destruct (repeat_words (Re.m ic r) (lang ic r) (group_free r) lo hi k IH
                (S (length (Re.rest st))) 0 st res) as (st1 & X1 & H1);
      [destruct hi; [lia | exact I] | exact H|].
    exists st1. split; [|exact H1].
    eapply steps_weaken; [| |exact X1]; [|auto].
    intros w (ws & -> & Hws & Hlo & Hhi). exists ws. cbn [plus] in *. auto.
  - destruct (IH _ _ _ H) as (st1 & (w & R & P & V & Hw & C) & H1).
    exists (Re.set_cap n (Re.pos st) st1). split; [|exact H1].
    exists w. cbn [Re.set_cap Re.rest Re.pos Re.prev group_free]. repeat split; auto.
    discriminate.
Qed.

End MatcherWords.

Section ScanPositions.

Variables (ic : bool) (cs : list ascii).

Lemma position_steps (L : list ascii -> Prop) keeps st st' :
  position_of cs st -> steps L keeps st st' -> position_of cs st'.
Proof.
  intros (before & E & P & V) (w & R & P' & V' & _ & _).
  exists (before ++ w). rewrite length_app, P', P, V', V, E, R, <- app_assoc.
  repeat split. unfold prev_after. rewrite last_app. now destruct (last w).
Qed.

Lemma position_reset st :
  position_of cs st ->
  position_of cs (Re.MState (Re.rest st) (Re.prev st) (Re.pos st) []).
Proof. intros H. exact H. Qed.

Lemma position_advance st x xs :
  position_of cs st -> Re.rest st = x :: xs -> position_of cs (Re.advance x xs st).
Proof.
  intros (before & E & P & V) R. exists (before ++ [x]).
  cbn [Re.advance Re.rest Re.pos Re.prev]. rewrite length_app, last_snoc, E, R, P.
  cbn [length]. rewrite <- app_assoc. repeat split. lia.
Qed.

(** Every match of a scan is a match at a position of the text. *)
Lemma scan_positions r fuel :
  forall st,
    position_of cs st ->
    Forall (fun mt => exists st0 st',
                position_of cs st0 /\ Re.caps st0 = [] /\
                Re.m ic r Some st0 = Some st' /\
                mt = Re.RMatch (Re.pos st0) (Re.pos st') (Re.caps st'))
           (Re.scan fuel ic r st).
Proof.
  induction fuel as [|fuel IH]; intros st Hst; cbn [Re.scan]; [constructor|].
  assert (Forall (fun mt => exists st0 st',
                      position_of cs st0 /\ Re.caps st0 = [] /\
                      Re.m ic r Some st0 = Some st' /\
                      mt = Re.RMatch (Re.pos st0) (Re.pos st') (Re.caps st'))
            match Re.rest st with
            | [] => []
            | x :: xs => Re.scan fuel ic r (Re.advance x xs st)
            end) as Hnext.
  { destruct (Re.rest st) as [|x xs] eqn:E; [constructor|].
    apply IH. now apply position_advance. }
  unfold Re.match_here.
  destruct (Re.m ic r Some _) as [st'|] eqn:E; [|exact Hnext].
  constructor.
  - eexists _, st'. split; [apply position_reset, Hst|]. split; [reflexivity|].
    split; [exact E | reflexivity].
  - destruct (Re.pos st <? Re.pos st'); [|exact Hnext].
    apply IH. destruct (m_words ic r _ _ _ E) as (st1 & X & [= ->]).
    eapply position_steps; [apply position_reset, Hst | exact X].
Qed.

End ScanPositions.

Section Quantities.

Variables (number units : Re.regex).
Hypothesis number_free : group_free number = true.
Hypothesis units_free : group_free units = true.

(** A match of [(number)\s*(unit)]: the three parts that follow one
    another, and the spans of the two groups. *)
Lemma quantity_parts ic st st' :
  Re.caps st = [] ->
  Re.m ic (quantity number units) Some st = Some st' ->
  exists w1 w2 w3,
    Re.rest st = w1 ++ w2 ++ w3 ++ Re.rest st' /\
    Re.pos st' = Re.pos st + length w1 + length w2 + length w3 /\
    lang ic number w1 /\
    Forall (fun c => PyStr.is_space c = true) w2 /\
    lang ic units w3 /\
    Re.caps st' =
      [(2, (Re.pos st + length w1 + length w2, Re.pos st'));
       (1, (Re.pos st, Re.pos st + length w1))].
Proof.
  intros Hc H. unfold quantity in H. cbn [Re.seq Re.m] in H.
  destruct (m_words ic number _ _ _ H)
    as (st1 & (w1 & R1 & P1 & _ & L1 & C1) & H1).
  specialize (C1 number_free).
  unfold Re.star in H1.
  destruct (m_words ic (Re.Rep 0 None (Re.Class Re.Space)) _ _ _ H1)
    as (st2 & (w2 & R2 & P2 & _ & L2 & C2) & H2).
  specialize (C2 eq_refl).
  cbn [Re.set_cap Re.rest Re.pos Re.caps] in R2, P2, C2.
  destruct (m_words ic units _ _ _ H2)
    as (st3 & (w3 & R3 & P3 & _ & L3 & C3) & [= <-]).
  specialize (C3 units_free).
  assert (Forall (fun c => PyStr.is_space c = true) w2) as S2.
  { destruct L2 as (ws & -> & Hws & _ & _). clear -Hws.
    induction Hws as [|w ws (x & -> & Hx) _ IH]; cbn [concat app]; constructor; auto. }
  exists w1, w2, w3. cbn [Re.set_cap Re.rest Re.pos Re.caps].
  rewrite R1, R2, R3, C3, C2, C1, Hc, P3, P2, P1.
  repeat split; auto; try lia; repeat f_equal; lia.
Qed.

End Quantities.

Section Slices.

Lemma list_of_take (n : nat) (s : string) :
  list_ascii_of_string (PyStr.take n s) = firstn n (list_ascii_of_string s).
Proof.
  revert s. induction n as [|n IH]; intros [|c s];
    cbn [PyStr.take list_ascii_of_string firstn]; try reflexivity.
  now rewrite IH.
Qed.

Lemma list_of_drop (n : nat) (s : string) :
  list_ascii_of_string (PyStr.drop n s) = skipn n (list_ascii_of_string s).
Proof.
  revert s. induction n as [|n IH]; intros [|c s];
    cbn [PyStr.drop list_ascii_of_string skipn]; try reflexivity.
  apply IH.
Qed.

Lemma list_of_slice (i j : nat) (s : string) :
  list_ascii_of_string (PyStr.slice i j s) =
  firstn (j - i) (skipn i (list_ascii_of_string s)).
Proof. unfold PyStr.slice. now rewrite list_of_take, list_of_drop. Qed.

Lemma string_of_slice (i j : nat) (s : string) :
  PyStr.slice i j s =
  string_of_list_ascii (firstn (j - i) (skipn i (list_ascii_of_string s))).
Proof. now rewrite <- list_of_slice, string_of_list_ascii_of_string. Qed.

(** The slice between two marks of the text. *)
Lemma slice_middle (s : string) (a w b : list ascii) :
  list_ascii_of_string s = a ++ w ++ b ->
  PyStr.slice (length a) (length a + length w) s = string_of_list_ascii w.
Proof.
  intros E. rewrite string_of_slice, E. f_equal.
  rewrite skipn_app, skipn_all, Nat.sub_diag, skipn_O. cbn [app].
  replace (length a + length w - length a) with (length w) by lia.
  rewrite firstn_app, firstn_all, Nat.sub_diag, firstn_O. apply app_nil_r.
Qed.

(** The slice that starts up to 50 characters before a mark and ends 50
    characters after another. *)
Lemma slice_around (s : string) (a w b : list ascii) :
  list_ascii_of_string s = a ++ w ++ b ->
  PyStr.slice (Nat.max 0 (length a - 50)) (length a + length w + 50) s =
  string_of_list_ascii (skipn (length a - 50) a ++ w ++ firstn 50 b).
Proof.
  intros E. rewrite string_of_slice, E. f_equal. cbn [Nat.max].
  rewrite skipn_app.
  replace (length a - 50 - length a) with 0 by lia. rewrite skipn_O.
  rewrite firstn_app, length_skipn.
  rewrite firstn_all2 by (rewrite length_skipn; lia). f_equal.
  rewrite firstn_app. rewrite firstn_all2 by lia. f_equal. f_equal. lia.
Qed.

Lemma lower_of_list (w : list ascii) :
  PyStr.lower (string_of_list_ascii w) = string_of_list_ascii (map PyStr.lower_char w).
Proof. induction w as [|c w IH]; cbn; [reflexivity | now rewrite IH]. Qed.

Lemma string_of_app (a b : list ascii) :
  string_of_list_ascii (a ++ b) = (string_of_list_ascii a ++ string_of_list_ascii b)%string.
Proof.
  induction a as [|c a IH]; [reflexivity|].
  cbn [app string_of_list_ascii]. rewrite IH. reflexivity.
Qed.

End Slices.

(** ** Further properties: the words of the patterns *)

Section Characters.

Lemma is_upper_lower (x : ascii) :
  PyStr.is_upper x = true -> PyStr.is_lower (PyStr.lower_char x) = true.
Proof. destruct x as [[] [] [] [] [] [] [] []]; intros H; try discriminate H; reflexivity. Qed.

(** Lowering gives a character that is not a lower-case letter only when it
    leaves the character as it is. *)
Lemma lower_char_fixed (x c : ascii) :
  PyStr.lower_char x = c -> PyStr.is_lower c = false -> x = c.
Proof.
  intros E Hc. destruct (PyStr.is_upper x) eqn:U.
  - apply is_upper_lower in U. congruence.
  - unfold PyStr.lower_char in E. now rewrite U in E.
Qed.

Lemma lit_matches_lower ic (c x : ascii) :
  Re.lit_matches ic c x = true -> ic = true -> PyStr.lower_char x = PyStr.lower_char c.
Proof.
  intros H ->. cbn [Re.lit_matches] in H. symmetry. now apply Ascii.eqb_eq.
Qed.

(** A literal that is not a letter matches itself only. *)
Lemma lit_matches_symbol ic (c x : ascii) :
  PyStr.is_lower c = false -> PyStr.is_upper c = false ->
  Re.lit_matches ic c x = true -> x = c.
Proof.
  intros Hl Hu H. destruct ic; cbn [Re.lit_matches] in H; apply Ascii.eqb_eq in H;
    [|congruence].
  apply lower_char_fixed; [|exact Hl].
  rewrite <- H. unfold PyStr.lower_char. now rewrite Hu.
Qed.

Lemma digit_is_no_symbol (c : ascii) :
  PyStr.is_digit c = true ->
  c <> "."%char /\ c <> ","%char /\ c <> "+"%char /\ c <> "-"%char /\
  c <> "e"%char /\ c <> "E"%char.
Proof.
  destruct c as [[] [] [] [] [] [] [] []]; intros H; try discriminate H;
    repeat split; discriminate.
Qed.

End Characters.

Section PatternWords.

Variable ic : bool.

Lemma lang_digit_rep lo hi (w : list ascii) :
  lang ic (Re.Rep lo hi (Re.Class Re.Digit)) w ->
  Forall (fun c => PyStr.is_digit c = true) w /\ lo <= length w.
Proof.
  intros (ws & -> & Hws & Hlo & _).
  enough (Forall (fun c => PyStr.is_digit c = true) (concat ws) /\
          length (concat ws) = length ws) as [? ->] by auto.
  clear Hlo. induction Hws as [|w ws (x & -> & Hx) _ [IH1 IH2]]; cbn [concat app length].
  - split; [constructor | reflexivity].
  - split; [now constructor | now rewrite IH2].
Qed.

Lemma lang_plus_digits (w : list ascii) :
  lang ic (Re.plus (Re.Class Re.Digit)) w -> digits w.
Proof.
  intros H. apply lang_digit_rep in H as [H L]. split; [|exact H].
  intros ->. cbn [length] in L. lia.
Qed.

Lemma lang_opt r (w : list ascii) :
  lang ic (Re.opt r) w -> w = [] \/ lang ic r w.
Proof.
  intros (ws & -> & Hws & _ & Hhi).
  destruct Hws as [|w ws Hw Hws]; [now left|].
  destruct Hws; cbn [length] in Hhi; [|lia].
  right. cbn [concat]. now rewrite app_nil_r.
Qed.

Lemma lang_fraction (w : list ascii) :
  lang ic (Re.Cat (Re.Lit ".") (Re.plus (Re.Class Re.Digit))) w ->
  exists fp, w = "."%char :: fp /\ digits fp.
Proof.
  intros (w1 & w2 & -> & (x & -> & Hx) & H2).
  apply lit_matches_symbol in Hx as ->; [|reflexivity..].
  exists w2. split; [reflexivity | now apply lang_plus_digits].
Qed.

Lemma lang_number_sci (w : list ascii) :
  lang ic number_sci w -> decimal_shape w.
Proof.
  unfold number_sci. cbn [Re.seq lang].
  intros (ip & w' & -> & Hip & fr & ex & -> & Hfr & Hex).
  exists ip, fr, ex. split; [reflexivity|]. split; [now apply lang_plus_digits|].
  split.
  - apply lang_opt in Hfr as [->|Hfr]; [now left|]. right. now apply lang_fraction.
  - apply lang_opt in Hex as [->|Hex]; [now left|]. right.
    destruct Hex as (w1 & w2 & -> & (e & -> & He) & sign & ds & -> & Hsign & Hds).
    exists e, sign, ds. split; [reflexivity|]. split; [|split].
    + cbn [Re.in_class existsb] in He.
      apply orb_true_iff in He as [He|He]; [left; now apply Ascii.eqb_eq in He|].
      apply orb_true_iff in He as [He|He]; [right; now apply Ascii.eqb_eq in He|].
      discriminate.
    + apply lang_opt in Hsign as [->|(s & -> & Hs)]; [now left|right].
      cbn [Re.in_class existsb] in Hs.
      apply orb_true_iff in Hs as [Hs|Hs]; [left; now apply Ascii.eqb_eq in Hs as ->|].
      apply orb_true_iff in Hs as [Hs|Hs]; [right; now apply Ascii.eqb_eq in Hs as ->|].
      discriminate.
    + now apply lang_plus_digits.
Qed.

Lemma without_commas_digits (w : list ascii) :
  Forall (fun c => PyStr.is_digit c = true) w -> without_commas w = w.
Proof.
  induction 1 as [|c w Hc _ IH]; cbn [without_commas List.filter]; [reflexivity|].
  apply digit_is_no_symbol in Hc as (_ & Hc & _).
  destruct (Ascii.eqb_spec c ","); [contradiction|]. cbn [negb].
  unfold without_commas in IH. now rewrite IH.
Qed.

Lemma without_commas_app (a b : list ascii) :
  without_commas (a ++ b) = without_commas a ++ without_commas b.
Proof. apply List.filter_app. Qed.

Lemma without_commas_groups (ws : list (list ascii)) :
  Forall (lang ic (Re.Cat (Re.Lit ",") (Re.times 3 (Re.Class Re.Digit)))) ws ->
  Forall (fun c => PyStr.is_digit c = true) (without_commas (concat ws)).
Proof.
  induction 1 as [|w ws (w1 & w2 & -> & (x & -> & Hx) & H2) _ IH]; cbn [concat].
  - constructor.
  - apply lit_matches_symbol in Hx as ->; [|reflexivity..].
    apply lang_digit_rep in H2 as [H2 _].
    rewrite !without_commas_app. cbn [without_commas List.filter Ascii.eqb].
    cbn [app]. rewrite (without_commas_digits _ H2). apply Forall_app. auto.
Qed.

Lemma lang_number_grouped (w : list ascii) :
  lang ic number_grouped w ->
  decimal_shape (without_commas w) /\
  exists d tl, w = d :: tl /\ PyStr.is_digit d = true.
Proof.
  unfold number_grouped. cbn [Re.seq]. change (lang ic (Re.Cat ?a ?b) w)
    with (exists w1 w2, w = w1 ++ w2 /\ lang ic a w1 /\ lang ic b w2).
  intros (g1 & w' & -> & Hg1 & Hw').
  change (exists gs fr, w' = gs ++ fr /\
            lang ic (Re.star (Re.Cat (Re.Lit ",") (Re.times 3 (Re.Class Re.Digit)))) gs /\
            lang ic (Re.opt (Re.Cat (Re.Lit ".") (Re.plus (Re.Class Re.Digit)))) fr)
    in Hw'.
  destruct Hw' as (gs & fr & -> & Hgs & Hfr).
  apply lang_digit_rep in Hg1 as [Hg1 L1].
  destruct Hgs as (ws & -> & Hws & _ & _).
  apply without_commas_groups in Hws.
  split; [|destruct Hg1 as [|d g1 Hd _]; [cbn [length] in L1; lia | now exists d, (g1 ++ concat ws ++ fr)]].
  rewrite !without_commas_app, (without_commas_digits _ Hg1).
  exists (g1 ++ without_commas (concat ws)), (without_commas fr), [].
  rewrite app_nil_r, <- app_assoc. split; [reflexivity|]. split; [|split; [|now left]].
  - split; [|apply Forall_app; auto].
    destruct g1; [cbn [length] in L1; lia | discriminate].
  - apply lang_opt in Hfr as [->|Hfr]; [now left|right].
    apply lang_fraction in Hfr as (fp & -> & Hfp). exists fp.
    cbn [without_commas List.filter Ascii.eqb negb].
    fold (without_commas fp). destruct Hfp as [Hne Hfp].
    rewrite (without_commas_digits _ Hfp). split; [reflexivity | now split].
Qed.

End PatternWords.

Section Parsing.

Lemma span_digits_app (ds tl : list ascii) :
  Forall (fun c => PyStr.is_digit c = true) ds ->
  match tl with c :: _ => PyStr.is_digit c = false | [] => True end ->
  PyFloat.span_digits (ds ++ tl) = (ds, tl).
Proof.
  intros Hds Htl. induction Hds as [|d ds Hd _ IH]; cbn [app PyFloat.span_digits].
  - destruct tl as [|c tl]; [reflexivity|]. cbn [PyFloat.span_digits]. now rewrite Htl.
  - now rewrite Hd, IH.
Qed.

Lemma span_digits_all (ds : list ascii) :
  Forall (fun c => PyStr.is_digit c = true) ds ->
  PyFloat.span_digits ds = (ds, []).
Proof.
  intros H. rewrite <- (app_nil_r ds) at 1. now apply span_digits_app.
Qed.

Lemma parse_exponent_digits (neg : bool) (ds : list ascii) :
  digits ds ->
  exists E,
    match PyFloat.span_digits ds with
    | ((_ :: _) as ds', []) =>
        Some (if neg then (- PyFloat.digits_val ds')%Z else PyFloat.digits_val ds')
    | _ => None
    end = Some E.
Proof.
  intros [Hne Hds]. rewrite (span_digits_all _ Hds).
  destruct ds as [|d ds]; [contradiction|]. eauto.
Qed.

Lemma parse_exponent_ok (ex : list ascii) :
  (ex = [] \/
   exists e sign ds,
     ex = e :: sign ++ ds /\ (e = "e"%char \/ e = "E"%char) /\
     (sign = [] \/ sign = ["+"%char] \/ sign = ["-"%char]) /\ digits ds) ->
  exists E, PyFloat.parse_exponent ex = Some E.
Proof.
  intros [->|(e & sign & ds & -> & He & Hsign & Hds)]; [now exists 0%Z|].
  cbn [PyFloat.parse_exponent].
  assert (existsb (Ascii.eqb e) ["e"; "E"]%char = true) as ->
    by (destruct He as [->| ->]; reflexivity).
  destruct Hsign as [->|[->| ->]]; cbn [app].
  - destruct Hds as [Hne Hds]. destruct ds as [|d ds]; [contradiction|].
    pose proof (Forall_inv Hds) as Hd. cbn beta in Hd.
    apply digit_is_no_symbol in Hd as (_ & _ & Hplus & Hminus & _).
    destruct (Ascii.eqb_spec d "-"); [contradiction|].
    destruct (Ascii.eqb_spec d "+"); [contradiction|].
    apply (parse_exponent_digits false). now split.
  - cbn [Ascii.eqb Bool.eqb]. now apply (parse_exponent_digits false).
  - cbn [Ascii.eqb Bool.eqb]. now apply (parse_exponent_digits true).
Qed.

Lemma exponent_starts (ex : list ascii) :
  (ex = [] \/
   exists e sign ds,
     ex = e :: sign ++ ds /\ (e = "e"%char \/ e = "E"%char) /\
     (sign = [] \/ sign = ["+"%char] \/ sign = ["-"%char]) /\ digits ds) ->
  match ex with
  | c :: _ => PyStr.is_digit c = false /\ c <> "."%char
  | [] => True
  end.
Proof.
  intros [->|(e & sign & ds & -> & He & _)]; [exact I|].
  destruct He as [->| ->]; split; (reflexivity || discriminate).
Qed.

(** [float] reads every decimal literal. *)
Lemma parse_decimal_ok (w : list ascii) :
  decimal_shape w ->
  exists M E, PyFloat.parse_decimal (string_of_list_ascii w) = Some (M, E).
Proof.
  intros (ip & fr & ex & -> & [Hne Hip] & Hfr & Hex).
  pose proof (exponent_starts _ Hex) as Sx.
  destruct (parse_exponent_ok _ Hex) as (E & HE).
  unfold PyFloat.parse_decimal. rewrite list_ascii_of_string_of_list_ascii.
  destruct Hfr as [->|(fp & -> & [Hnf Hfp])].
  - cbn [app]. rewrite (span_digits_app ip ex Hip)
      by (destruct ex; [exact I | apply Sx]).
    destruct ip as [|d ip]; [contradiction|].
    destruct ex as [|c ex]; [rewrite HE; eauto|].
    destruct Sx as [_ Sx].
    destruct (Ascii.eqb_spec c "."); [contradiction|].
    assert (match c :: ex with
            | "."%char :: tl' =>
                match PyFloat.span_digits tl' with
                | ([], _) => None
                | (fp, tl'') =>
                    match PyFloat.parse_exponent tl'' with
                    | Some e => Some (PyFloat.digits_val ((d :: ip) ++ fp),
                                      (e - Z.of_nat (length fp))%Z)
                    | None => None
                    end
                end
            | _ =>
                match PyFloat.parse_exponent (c :: ex) with
                | Some e => Some (PyFloat.digits_val (d :: ip), e)
                | None => None
                end
            end = Some (PyFloat.digits_val (d :: ip), E)) as ->; [|eauto].
    rewrite HE.
    destruct c as [[] [] [] [] [] [] [] []]; try reflexivity. now contradiction n.
  - change (ip ++ ("."%char :: fp) ++ ex) with (ip ++ "."%char :: fp ++ ex).
    rewrite (span_digits_app ip ("."%char :: fp ++ ex) Hip) by reflexivity.
    destruct ip as [|d ip]; [contradiction|].
    rewrite (span_digits_app fp ex Hfp) by (destruct ex; [exact I | apply Sx]).
    destruct fp as [|f fp]; [contradiction|].
    rewrite HE. eauto.
Qed.

Lemma float_of_string_ok (w : list ascii) :
  decimal_shape w ->
  exists v, PyFloat.float_of_string (string_of_list_ascii w) = ret v.
Proof.
  intros H. destruct (parse_decimal_ok _ H) as (M & E & HP).
  unfold PyFloat.float_of_string. rewrite HP. eauto.
Qed.

(** [replace(",", "")] removes the commas. *)
Lemma replace_commas (w : list ascii) :
  PyStr.replace_char "," "" (string_of_list_ascii w) =
  string_of_list_ascii (without_commas w).
Proof.
  induction w as [|c w IH]; [reflexivity|].
  cbn [string_of_list_ascii PyStr.replace_char without_commas List.filter].
  fold (without_commas w). rewrite IH.
  destruct (Ascii.eqb c ","); reflexivity.
Qed.

Lemma decimal_shape_without_commas (w : list ascii) :
  decimal_shape w -> without_commas w = w.
Proof.
  intros (ip & fr & ex & -> & [_ Hip] & Hfr & Hex).
  rewrite !without_commas_app, (without_commas_digits _ Hip). f_equal. f_equal.
  - destruct Hfr as [->|(fp & -> & [_ Hfp])]; [reflexivity|].
    cbn [without_commas List.filter Ascii.eqb Bool.eqb negb].
    fold (without_commas fp). now rewrite (without_commas_digits _ Hfp).
  - destruct Hex as [->|(e & sign & ds & -> & He & Hsign & [_ Hds])]; [reflexivity|].
    change (e :: sign ++ ds) with ([e] ++ sign ++ ds).
    rewrite !without_commas_app, (without_commas_digits _ Hds).
    destruct He as [->| ->]; destruct Hsign as [->|[->| ->]]; reflexivity.
Qed.

Lemma decimal_shape_starts (w : list ascii) :
  decimal_shape w -> exists d tl, w = d :: tl /\ PyStr.is_digit d = true.
Proof.
  intros (ip & fr & ex & -> & [Hne Hip] & _).
  destruct Hip as [|d ip Hd _]; [contradiction|]. now exists d, (ip ++ fr ++ ex).
Qed.

End Parsing.

Section UnitWords.

Lemma lang_str_lower (s : string) :
  forall w, lang true (Re.str s) w ->
            PyStr.lower (string_of_list_ascii w) = PyStr.lower s.
Proof.
  induction s as [|c s IH]; intros w H.
  - cbn [Re.str lang] in H. now subst w.
  - destruct s as [|d s].
    + cbn [Re.str lang] in H. destruct H as (x & -> & Hx).
      pose proof (lit_matches_lower true c x Hx eq_refl) as Hl.
      cbn [string_of_list_ascii PyStr.lower]. now rewrite Hl.
    + change (Re.str (String c (String d s)))
        with (Re.Cat (Re.Lit c) (Re.str (String d s))) in H.
      destruct H as (w1 & w2 & -> & (x & -> & Hx) & H2).
      pose proof (lit_matches_lower true c x Hx eq_refl) as Hl.
      cbn [app string_of_list_ascii PyStr.lower]. now rewrite (IH _ H2), Hl.
Qed.

Lemma lower_app (a b : string) :
  PyStr.lower (a ++ b) = (PyStr.lower a ++ PyStr.lower b)%string.
Proof.
  induction a as [|c a IH]; [reflexivity|].
  change (String c a ++ b)%string with (String c (a ++ b)).
  cbn [PyStr.lower]. rewrite IH. reflexivity.
Qed.

Lemma lang_plural_lower (word : string) (w : list ascii) :
  lang true (plural word) w ->
  PyStr.lower (string_of_list_ascii w) = PyStr.lower word \/
  PyStr.lower (string_of_list_ascii w) = (PyStr.lower word ++ "s")%string.
Proof.
  intros (w1 & w2 & -> & H1 & H2). apply lang_str_lower in H1.
  rewrite string_of_app, lower_app, H1.
  apply lang_opt in H2 as [->|(x & -> & Hx)].
  - left. change (string_of_list_ascii []) with EmptyString.
    cbn [PyStr.lower]. clear. induction (PyStr.lower word) as [|c s IH]; [reflexivity|].
    change (String c s ++ "")%string with (String c (s ++ "")). now rewrite IH.
  - right. pose proof (lit_matches_lower true "s" x Hx eq_refl) as Hl.
    cbn [string_of_list_ascii PyStr.lower]. now rewrite Hl.
Qed.

End UnitWords.

Ltac recognized :=
  unfold recognized_units; cbn [In]; repeat (first [left; reflexivity | right]).

Ltac unit_cases H :=
  repeat match type of H with
         | _ \/ _ => let H' := fresh in destruct H as [H'|H]; [rename H' into H|]
         end;
  first [ apply lang_str_lower in H; rewrite H; recognized
        | apply lang_plural_lower in H as [H|H]; rewrite H; recognized ].

Section PatternShapes.

(** What the four patterns have in common: a number that [float] reads once
    the commas are removed, spaces, and a unit of the list. *)
Lemma patterns_are_quantities :
  Forall (fun pattern =>
            exists number units,
              pattern = quantity number units /\
              group_free number = true /\ group_free units = true /\
              (forall w, lang true number w ->
                         decimal_shape (without_commas w) /\
                         exists d tl, w = d :: tl /\ PyStr.is_digit d = true) /\
              (forall w, lang true units w ->
                         In (PyStr.lower (string_of_list_ascii w)) recognized_units))
         patterns.
Proof.
  assert (Hsci : forall w, lang true number_sci w ->
                   decimal_shape (without_commas w) /\
                   exists d tl, w = d :: tl /\ PyStr.is_digit d = true).
  { intros w H. apply lang_number_sci in H.
    rewrite (decimal_shape_without_commas _ H).
    split; [exact H | now apply decimal_shape_starts]. }
  unfold patterns.
  repeat apply List.Forall_cons; [| | | |apply List.Forall_nil];
    eexists; eexists; (split; [reflexivity|]); (split; [reflexivity|]);
    (split; [reflexivity|]); (split; [first [exact Hsci | apply lang_number_grouped]|]);
    intros w H; cbn [Re.alt lang] in H; unit_cases H.
Qed.

End PatternShapes.

(** ** Further properties: the extracted facts *)

Section QuantityFacts.

Variable text : string.

Lemma start_position :
  position_of (list_ascii_of_string text)
              (Re.MState (list_ascii_of_string text) None 0 []).
Proof. exists []. repeat split. Qed.

(** A match of one of the patterns gives a fact, and the fact is a quantity
    of the text. *)
Lemma match_gives_quantity (pattern : Re.regex) (mt : Re.rmatch) :
  In pattern patterns ->
  In mt (Re.finditer true pattern text) ->
  exists fact,
    fact_of_match text mt = ret fact /\
    raw_text fact = Re.group0 text mt /\
    quantity_in text fact.
Proof.
  intros Hp Hmt.
  pose proof patterns_are_quantities as HQ.
  rewrite List.Forall_forall in HQ.
  destruct (HQ _ Hp) as (number & units & -> & Fn & Fu & HN & HU). clear HQ Hp.
  unfold Re.finditer in Hmt.
  pose proof (scan_positions true (list_ascii_of_string text) (quantity number units)
                (S (length (list_ascii_of_string text))) _ start_position) as HS.
  rewrite List.Forall_forall in HS.
  destruct (HS _ Hmt) as (st0 & st' & (before & Ecs & Ppos & _) & Hc0 & Hm & ->).
  clear HS Hmt.
  destruct (quantity_parts number units Fn Fu true st0 st' Hc0 Hm)
    as (w1 & w2 & w3 & R & P & L1 & S2 & L3 & C).
  rewrite R in Ecs. set (after := Re.rest st') in *.
  destruct (HN _ L1) as (Shape & Dg). specialize (HU _ L3).
  destruct (float_of_string_ok _ Shape) as (v & Hv).
  assert (G1 : Re.group text 1 (Re.RMatch (Re.pos st0) (Re.pos st') (Re.caps st'))
               = string_of_list_ascii w1).
  { unfold Re.group. cbn [Re.m_caps]. rewrite C. cbn [Re.assoc Nat.eqb].
    rewrite Ppos. now apply (slice_middle text before w1 (w2 ++ w3 ++ after)). }
  assert (G2 : Re.group text 2 (Re.RMatch (Re.pos st0) (Re.pos st') (Re.caps st'))
               = string_of_list_ascii w3).
  { unfold Re.group. cbn [Re.m_caps]. rewrite C. cbn [Re.assoc Nat.eqb].
    rewrite P, Ppos.
    replace (length before + length w1 + length w2)
      with (length (before ++ w1 ++ w2)) by (rewrite !length_app; lia).
    apply (slice_middle text (before ++ w1 ++ w2) w3 after).
    rewrite Ecs, <- !app_assoc. reflexivity. }
  assert (G0 : Re.group0 text (Re.RMatch (Re.pos st0) (Re.pos st') (Re.caps st'))
               = string_of_list_ascii (w1 ++ w2 ++ w3)).
  { unfold Re.group0. cbn [Re.m_start Re.m_end]. rewrite P, Ppos.
    replace (length before + length w1 + length w2 + length w3)
      with (length before + length (w1 ++ w2 ++ w3)) by (rewrite !length_app; lia).
    apply (slice_middle text before (w1 ++ w2 ++ w3) after).
    rewrite Ecs, <- !app_assoc. reflexivity. }
  assert (GC : PyStr.slice (Nat.max 0 (Re.pos st0 - 50)) (Re.pos st' + 50) text
               = string_of_list_ascii
                   (skipn (length before - 50) before
                      ++ (w1 ++ w2 ++ w3) ++ firstn 50 after)).
  { rewrite P, Ppos.
    replace (length before + length w1 + length w2 + length w3)
      with (length before + length (w1 ++ w2 ++ w3)) by (rewrite !length_app; lia).
    apply (slice_around text before (w1 ++ w2 ++ w3) after).
    rewrite Ecs, <- !app_assoc. reflexivity. }
  exists {| value := v;
            unit := string_of_list_ascii w3;
            raw_text := string_of_list_ascii (w1 ++ w2 ++ w3);
            context := string_of_list_ascii
                         (skipn (length before - 50) before
                            ++ (w1 ++ w2 ++ w3) ++ firstn 50 after) |}.
  split; [|split].
  - unfold fact_of_match. cbn [Re.m_start Re.m_end].
    rewrite G1, G2, G0, GC, replace_commas, Hv. reflexivity.
  - now rewrite G0.
  - exists before, w1, w2, after.
    cbn [unit raw_text context value].
    rewrite !list_ascii_of_string_of_list_ascii, replace_commas.
    repeat split; auto.
Qed.

Lemma fact_list_quantity (pattern : Re.regex) (mt : Re.rmatch) :
  In pattern patterns ->
  In mt (Re.finditer true pattern text) ->
  exists fact,
    fact_list text mt = [fact] /\
    raw_text fact = Re.group0 text mt /\
    quantity_in text fact.
Proof.
  intros Hp Hmt. destruct (match_gives_quantity _ _ Hp Hmt) as (fact & E & R & Q).
  exists fact. unfold fact_list. rewrite E. auto.
Qed.

Lemma facts_are_quantities :
  Forall (quantity_in text) (_extract_numerical_values text).
Proof.
  rewrite extract_by_pattern. apply List.Forall_flat_map, List.Forall_forall.
  intros pattern Hp. rewrite facts_of_pattern_matches.
  apply List.Forall_flat_map, List.Forall_forall. intros mt Hmt.
  destruct (fact_list_quantity _ _ Hp Hmt) as (fact & -> & _ & Q).
  now constructor.
Qed.

Lemma raw_texts_of_matches (pattern : Re.regex) (ms : list Re.rmatch) :
  In pattern patterns ->
  (forall mt, In mt ms -> In mt (Re.finditer true pattern text)) ->
  map raw_text (flat_map (fact_list text) ms) = map (Re.group0 text) ms.
Proof.
  intros Hp. induction ms as [|mt ms IH]; intros Hms; [reflexivity|].
  cbn [flat_map map]. rewrite map_app, IH by (intros; apply Hms; now right).
  destruct (fact_list_quantity _ mt Hp (Hms _ (or_introl eq_refl)))
    as (fact & -> & R & _).
  cbn [map app]. now rewrite R.
Qed.

Lemma raw_texts_of_patterns (ps : list Re.regex) :
  (forall pattern, In pattern ps -> In pattern patterns) ->
  map raw_text (flat_map (facts_of_pattern text) ps) =
  map (Re.group0 text) (flat_map (matches_of_pattern text) ps).
Proof.
  induction ps as [|p ps IH]; intros Hps; [reflexivity|].
  cbn [flat_map]. rewrite !map_app, IH by (intros; apply Hps; now right).
  f_equal. rewrite facts_of_pattern_matches.
  apply (raw_texts_of_matches p); [apply Hps; now left | auto].
Qed.

End QuantityFacts.

(** X14.  On ASCII text, every fact of the extraction is a quantity of the
    text: a number that begins with a digit, then spaces only, then a unit,
    standing together in the text.  The unit is, up to case, one of the 21
    units of the patterns; the value is what [float] gives on the number
    without its commas; the raw text is the number, the spaces and the unit;
    the context is the raw text with up to 50 characters on each side.
    (Outside ASCII the classes [\d] and [\s] and the folding of case take
    more characters than the model has.) *)
Theorem extracted_facts_are_quantities (text : string) :
  isascii text = true ->
  Forall (quantity_in text) (_extract_numerical_values text).
Proof. intros _. apply facts_are_quantities. Qed.

Lemma extracted_facts_are_quantities_witness :
  Forall (quantity_in "Emissions were 100 tCO2, 2.5e3 kwh or 12.5 %")
         (_extract_numerical_values "Emissions were 100 tCO2, 2.5e3 kwh or 12.5 %").
Proof.
  apply (extracted_facts_are_quantities "Emissions were 100 tCO2, 2.5e3 kwh or 12.5 %").
  vm_compute. reflexivity.
Defined.

(** X15.  No match is dropped: [float] reads the number of every match of
    the four patterns, so the [except ValueError] branch is never taken and
    the facts are, one for one and in order, the matches. *)
Theorem every_match_gives_a_fact (text : string) :
  map raw_text (_extract_numerical_values text) =
  map (Re.group0 text) (matches_in_order text).
Proof.
  rewrite extract_by_pattern. unfold matches_in_order.
  now apply raw_texts_of_patterns.
Qed.

(** X16.  An ASCII text without a digit has no fact.  (A digit of another
    script, which [\d] and [float] also take, is outside the model.) *)
Theorem no_digit_no_fact (text : string) :
  isascii text = true ->
  (forall c, In c (list_ascii_of_string text) -> PyStr.is_digit c = false) ->
  _extract_numerical_values text = [].
Proof.
  intros _ Hno. pose proof (facts_are_quantities text) as H.
  destruct (_extract_numerical_values text) as [|fact facts]; [reflexivity|].
  apply List.Forall_inv in H.
  destruct H as (before & number & spaces & after & E & _ & _ & _ &
                 (d & tl & -> & Hd) & _).
  rewrite (Hno d) in Hd; [discriminate|].
  rewrite E. apply in_or_app. right. now left.
Qed.

Lemma no_digit_no_fact_witness :
  _extract_numerical_values "Emissions fell by a third, to ten tonnes" = [].
Proof.
  apply no_digit_no_fact; [vm_compute; reflexivity|].
  intros c Hc. cbn [list_ascii_of_string In] in Hc.
  repeat (destruct Hc as [<-|Hc]; [reflexivity|]). contradiction.
Defined.

(** ** Further properties: the years of a question *)

Section YearTokens.

Lemma digit_is_word (c : ascii) :
  PyStr.is_digit c = true -> PyStr.is_word c = true.
Proof. destruct c as [[] [] [] [] [] [] [] []]; intros H; try discriminate H; reflexivity. Qed.

Lemma lang_digit_times ic n (w : list ascii) :
  lang ic (Re.times n (Re.Class Re.Digit)) w ->
  Forall (fun c => PyStr.is_digit c = true) w /\ length w = n.
Proof.
  intros (ws & -> & Hws & Hlo & Hhi).
  enough (Forall (fun c => PyStr.is_digit c = true) (concat ws) /\
          length (concat ws) = length ws) as [? ->] by (split; [assumption | lia]).
  clear Hlo Hhi. induction Hws as [|w ws (x & -> & Hx) _ [IH1 IH2]]; cbn [concat app length].
  - split; [constructor | reflexivity].
  - split; [now constructor | now rewrite IH2].
Qed.

Lemma lang_century (a b : ascii) (w : list ascii) :
  lang false (Re.Cat (Re.Cat (Re.Lit a) (Re.Lit b)) (Re.times 2 (Re.Class Re.Digit))) w ->
  exists c3 c4, w = [a; b; c3; c4] /\
                PyStr.is_digit c3 = true /\ PyStr.is_digit c4 = true.
Proof.
  intros (w1 & w2 & -> & (u & v & -> & (x & -> & Hx) & (y & -> & Hy)) & Hdd).
  cbn [Re.lit_matches] in Hx, Hy.
  apply Ascii.eqb_eq in Hx as <-. apply Ascii.eqb_eq in Hy as <-.
  apply lang_digit_times in Hdd as [Hd Hl].
  destruct w2 as [|c3 [|c4 [|? ?]]]; try discriminate Hl.
  exists c3, c4. split; [reflexivity|].
  split; [exact (Forall_inv Hd) | exact (Forall_inv (Forall_inv_tail Hd))].
Qed.

(** A match of the year pattern: four characters, between two places where
    no word character stands. *)
Lemma year_match (st0 st' : Re.mstate) :
  Re.m false year_pattern Some st0 = Some st' ->
  exists c3 c4 w,
    (w = ["2"; "0"; c3; c4]%char \/ w = ["1"; "9"; c3; c4]%char) /\
    PyStr.is_digit c3 = true /\ PyStr.is_digit c4 = true /\
    Re.rest st0 = w ++ Re.rest st' /\
    Re.caps st' = (1, (Re.pos st0, Re.pos st0 + 4)) :: Re.caps st0 /\
    Re.wordish (Re.prev st0) = false /\
    Re.wordish (head (Re.rest st')) = false.
Proof.
  intros H. unfold year_pattern in H. cbn [Re.seq Re.m] in H.
  destruct (Re.at_boundary st0) eqn:B0; [|discriminate].
  apply m_words in H as (st1 & (w & R & P & Pv & L & C) & K).
  specialize (C eq_refl).
  destruct (Re.at_boundary (Re.set_cap 1 (Re.pos st0) st1)) eqn:B1; [|discriminate].
  injection K as <-.
  assert (exists c3 c4,
            (w = ["2"; "0"; c3; c4]%char \/ w = ["1"; "9"; c3; c4]%char) /\
            PyStr.is_digit c3 = true /\ PyStr.is_digit c4 = true)
    as (c3 & c4 & Hw & D3 & D4).
  { cbn [Re.alt Re.str] in L.
    destruct L as [L|L]; apply lang_century in L as (c3 & c4 & -> & D3 & D4);
      exists c3, c4; auto. }
  exists c3, c4, w.
  assert (Lw : length w = 4) by (destruct Hw as [->| ->]; reflexivity).
  assert (Hh : Re.wordish (head (Re.rest st0)) = true)
    by (rewrite R; destruct Hw as [->| ->]; reflexivity).
  assert (Hl : Re.prev st1 = Some c4)
    by (rewrite Pv; destruct Hw as [->| ->]; reflexivity).
  unfold Re.at_boundary in B0, B1. cbn [Re.set_cap Re.prev Re.rest] in B1.
  rewrite Hh in B0. rewrite Hl in B1. cbn [Re.wordish] in B1.
  rewrite (digit_is_word _ D4) in B1.
  cbn [Re.set_cap Re.rest Re.caps Re.pos].
  rewrite P, Lw, C.
  repeat split; auto.
  - now destruct (Re.wordish (Re.prev st0)).
  - now destruct (Re.wordish (head (Re.rest st1))).
Qed.

Lemma findall_years (question : string) :
  Forall (year_token question) (Re.findall1 year_pattern question).
Proof.
  unfold Re.findall1, Re.finditer. apply List.Forall_map.
  eapply List.Forall_impl; [|apply (scan_positions false (list_ascii_of_string question)
                                 year_pattern _ _ (start_position question))].
  intros mt (st0 & st' & (before & Ecs & Ppos & Pprev) & Hc0 & Hm & ->).
  apply year_match in Hm
    as (c3 & c4 & w & Hw & D3 & D4 & R & C & W0 & W1).
  rewrite R in Ecs. rewrite Hc0 in C. rewrite Pprev in W0.
  assert (G : Re.group question 1 (Re.RMatch (Re.pos st0) (Re.pos st') (Re.caps st'))
              = string_of_list_ascii w).
  { unfold Re.group. cbn [Re.m_caps]. rewrite C. cbn [Re.assoc Nat.eqb].
    rewrite Ppos.
    replace 4 with (length w) by (destruct Hw as [->| ->]; reflexivity).
    now apply (slice_middle question before w (Re.rest st')). }
  rewrite G. exists before, (Re.rest st'), c3, c4.
  rewrite list_ascii_of_string_of_list_ascii.
  repeat split; auto.
  destruct Hw as [->| ->]; [now left | now right].
Qed.

End YearTokens.

(** X17.  Every year the extractor finds in an ASCII question is a whole
    token of the question: four characters, "19" or "20" and two digits,
    with no letter, digit or underscore directly before or after them.
    (Outside ASCII [\b] and [\d] take more characters than the model has.) *)
Theorem extracted_years_are_tokens (question : string) :
  isascii question = true ->
  Forall (year_token question) (years (_extract_entities_from_question question)).
Proof. intros _. rewrite years_unfold. apply findall_years. Qed.

Lemma extracted_years_are_tokens_witness :
  Forall (year_token "compare 2023 and x1999, 20234 and 1999.")
         (years (_extract_entities_from_question
                   "compare 2023 and x1999, 20234 and 1999.")).
Proof.
  apply (extracted_years_are_tokens "compare 2023 and x1999, 20234 and 1999.").
  vm_compute. reflexivity.
Defined.

(** ** Further properties: the metadata command *)

Section MetadataCommand.

Lemma split_on_length (sep : ascii) (s : string) :
  length (PyStr.split_on sep s) = S (count_char sep s).
Proof.
  unfold count_char.
  induction s as [|c s IH]; cbn [PyStr.split_on list_ascii_of_string List.filter];
    [reflexivity|].
  destruct (Ascii.eqb c sep); cbn [length]; [now rewrite IH|].
  rewrite <- IH. now destruct (PyStr.split_on sep s).
Qed.

Lemma unpack_item_ok (item : string) :
  (exists kv, unpack_item item = ret kv) <-> count_char "=" item = 1.
Proof.
  pose proof (split_on_length "=" item) as L. unfold unpack_item.
  destruct (PyStr.split_on "=" item) as [|key [|value [|x l]]]; cbn [length] in L.
  - discriminate L.
  - split; [intros (kv & H); discriminate H | intros H; lia].
  - split; [intros _; lia | intros _; now exists (key, value)].
  - split; [intros (kv & H); discriminate H | intros H; lia].
Qed.

Lemma parse_items_ok (items : list string) :
  forall filters,
    (exists result, parse_items items filters = ret result) <->
    Forall (fun item => count_char "=" item = 1) items.
Proof.
  induction items as [|item items IH]; intros filters; cbn [parse_items].
  - split; [constructor | now exists filters].
  - rewrite List.Forall_cons_iff, <- unpack_item_ok.
    destruct (unpack_item item) as [e|kv].
    + split; [intros (r & H); discriminate H | intros [(kv & H) _]; discriminate H].
    + change (bind (inr kv) ?k) with (k kv). cbn beta. rewrite IH.
      split; [intros H; split; [now exists kv | exact H] | now intros [_ H]].
Qed.

(** The filters of the command have strings as values. *)
Lemma parse_items_strings (items : list string) :
  forall filters result,
    parse_items items filters = ret result ->
    (forall key v, filters !! key = Some v -> exists s, v = FOne (Some (VStr s))) ->
    forall key v, result !! key = Some v -> exists s, v = FOne (Some (VStr s)).
Proof.
  induction items as [|item items IH]; intros filters result H Hf; cbn [parse_items] in H.
  - injection H as <-. exact Hf.
  - destruct (unpack_item item) as [e|kv]; [discriminate H|].
    change (bind (inr kv) ?k) with (k kv) in H. cbn beta in H.
    apply (IH _ _ H). intros key v Hk.
    destruct (decide (PyStr.strip kv.1 = key)) as [<-|Hne].
    + rewrite lookup_insert_eq in Hk. injection Hk as <-. eauto.
    + rewrite lookup_insert_ne in Hk by exact Hne. eauto.
Qed.

End MetadataCommand.

(** X18.  The command [metadata:...] leads to a search when, and only when,
    every item between the commas has exactly one equals sign; otherwise the
    unpacking of [item.split('=')] raises, the loop shows the parse error
    and no search is made. *)
Theorem metadata_command_reads_pairs (cls : ManagerClass) (chunks : list Chunk)
    (user_input : string) :
  ((exists filters,
      parse_metadata_command user_input = ret filters /\
      metadata_command cls chunks user_input =
        Found (search_by_metadata cls chunks filters 10)) <->
   Forall (fun item => count_char "=" item = 1)
          (PyStr.split_on "," (PyStr.drop 9 user_input))) /\
  ((exists message, metadata_command cls chunks user_input = CommandError message) <->
   ~ Forall (fun item => count_char "=" item = 1)
            (PyStr.split_on "," (PyStr.drop 9 user_input))).
Proof.
  pose proof (parse_items_ok (PyStr.split_on "," (PyStr.drop 9 user_input)) ∅) as P.
  fold (parse_metadata_command user_input) in P. rewrite <- P.
  unfold metadata_command.
  destruct (parse_metadata_command user_input) as [e|filters]; cbn.
  - split; split.
    + intros (f & H & _). discriminate H.
    + intros (f & H). discriminate H.
    + intros _ (f & H). discriminate H.
    + intros _. eauto.
  - split; split.
    + intros _. eauto.
    + intros _. eauto.
    + intros (msg & H). discriminate H.
    + intros H. destruct H. eauto.
Qed.

(** X19.  A filter read from the command asks for strings: every chunk the
    original manager finds for it has, at every key of the filter, a string
    in its metadata.  A chunk without the key, or with a number there, is
    never found through the command. *)
Theorem metadata_command_finds_strings (user_input : string)
    (filters : gmap string fvalue) (chunks : list Chunk) (limit : Z) :
  parse_metadata_command user_input = ret filters ->
  Forall (fun chunk =>
            forall key, is_Some (filters !! key) ->
                        exists s, chunk_metadata chunk !! key = Some (VStr s))
         (manager_search_by_metadata chunks filters limit).
Proof.
  intros H. rewrite manager_search_take. apply List.Forall_forall.
  intros chunk Hin. apply in_firstn, List.filter_In in Hin as [_ Hm].
  intros key [v Hk].
  destruct (parse_items_strings _ _ _ H (fun k w E => ltac:(rewrite lookup_empty in E; discriminate E))
              key v Hk) as (s & ->).
  exists s. pose proof (proj1 (chunk_matches_spec filters chunk) Hm key _ Hk) as A.
  cbn [accepts] in A. now apply bool_decide_eq_true in A.
Qed.

Lemma metadata_command_finds_strings_witness :
  Forall (fun chunk =>
            forall key,
              is_Some (({["company_name" := FOne (Some (VStr "Shell"))]}
                          : gmap string fvalue) !! key) ->
              exists s, chunk_metadata chunk !! key = Some (VStr s))
         (manager_search_by_metadata Example2.chunks
            {["company_name" := FOne (Some (VStr "Shell"))]} 10).
Proof.
  apply (metadata_command_finds_strings "metadata: company_name = Shell").
  vm_compute. reflexivity.
Defined.
